(** * MVSEP Node client: retry, timeout and polling core

    A shallow embedding of [src/retry.ts] (retry utilities), [src/errors.ts]
    (error classes) and the request / polling methods of [src/client.ts].

    Conventions of the embedding:
    - The clock, the delays and counts of the configuration, HTTP status
      codes and attempt indices are integers of [Z], within the range in
      which doubles hold every integer and JavaScript arithmetic on them is
      exact.  What [calculateBackoff] and [parseRetryAfter] compute can leave
      this range: their results are [jsNumber]s, rounded as doubles are and
      with [NaN] and the infinities.
    - Strings are [string]s of 8-bit code units, which is what HTTP header
      values are.
    - Asynchronous code is sequential state passing over a [World] that
      carries the wall clock, the timer table and the logs of observable
      calls; an [await] is the point where the clock moves. *)

From Stdlib Require Import ZArith List String Ascii Bool Lia.
From Stdlib Require Import DecimalString.
From Stdlib Require DecimalPos DecimalZ.
Import ListNotations.
Local Open Scope string_scope.
Local Open Scope Z_scope.
Set Warnings "-register-all".

(* ===================================================================== *)
(** ** JavaScript values read by the client *)
(* ===================================================================== *)

(** Parsed response bodies.  [response.text()] yields a [JStr]; [JObj]
    lists the own properties of an object, each name once; [JNum] holds the
    integers that [String] writes in plain decimal digits. *)
Inductive json : Type :=
| JNull
| JBool (b : bool)
| JNum (n : Z)
| JStr (s : string)
| JArr (items : list json)
| JObj (fields : list (string * json)).

(** A JavaScript value that may be [undefined]. *)
Definition jsval := option json.

(** Truthiness, as used by [||], [&&], [if] and [!]. *)
Definition truthy (v : jsval) : bool :=
  match v with
  | None => false
  | Some JNull => false
  | Some (JBool b) => b
  | Some (JNum n) => negb (n =? 0)
  | Some (JStr s) => negb (s =? "")%string
  | Some (JArr _) => true
  | Some (JObj _) => true
  end.

Fixpoint assoc {A : Type} (k : string) (l : list (string * A)) : option A :=
  match l with
  | [] => None
  | (k', v) :: rest => if (k =? k')%string then Some v else assoc k rest
  end.

(** [a || b] on numbers that may be absent: [0] and [undefined] are falsy. *)
Definition orNumber (a : option Z) (b : Z) : Z :=
  match a with
  | Some n => if n =? 0 then b else n
  | None => b
  end.

(** [a || b] on strings that may be absent: [""] and [undefined] are falsy. *)
Definition orString (a : option string) (b : string) : string :=
  match a with
  | Some s => if (s =? "")%string then b else s
  | None => b
  end.

(** [a ?? b]: only [undefined] (and [null]) give way to the default. *)
Definition nullish {A : Type} (a : option A) (b : A) : A :=
  match a with
  | Some x => x
  | None => b
  end.

(** [value || fallback] on arbitrary values. *)
Definition orValue (v : jsval) (fallback : json) : json :=
  match v with
  | Some x => if truthy v then x else fallback
  | None => fallback
  end.

(** [String.prototype.includes]. *)
Fixpoint includes (needle hay : string) : bool :=
  if String.prefix needle hay then true
  else match hay with
       | EmptyString => false
       | String _ rest => includes needle rest
       end.

(** Decimal rendering of a number inside a template literal. *)
Definition showZ (n : Z) : string := NilZero.string_of_int (Z.to_int n).

(** [String(value)]: a value inside a template literal, and the message
    that [Error] keeps of the value handed to it.  An object is written by
    [Object.prototype.toString]: the objects of a body are those that do
    not name a property [toString] of their own. *)
Fixpoint messageText (j : json) : string :=
  match j with
  | JStr s => s
  | JNum n => showZ n
  | JBool true => "true"
  | JBool false => "false"
  | JNull => "null"
  | JArr items =>
      (fix join (l : list json) : string :=
         match l with
         | [] => ""
         | x :: rest =>
             let here := match x with JNull => "" | _ => messageText x end in
             match rest with
             | [] => here
             | _ => here ++ "," ++ join rest
             end
         end) items
  | JObj _ => "[object Object]"
  end.

(* ===================================================================== *)
(** ** JavaScript numbers *)
(* ===================================================================== *)

(** The numbers that the retry helpers compute: an integer stands for the
    double of that value, and [NaN] and the infinities are the values of a
    double that are no numbers of any size.  Negative zero is not told from
    zero. *)
Inductive jsNumber : Type :=
| Num (z : Z)
| NaN
| PosInfinity
| NegInfinity.

(** [isNaN(n)]. *)
Definition isNaN (n : jsNumber) : bool :=
  match n with
  | NaN => true
  | _ => false
  end.

(** Truthiness of a number: [0] and [NaN] are falsy. *)
Definition truthyNumber (n : jsNumber) : bool :=
  match n with
  | Num z => negb (z =? 0)
  | NaN => false
  | PosInfinity | NegInfinity => true
  end.

(** The double nearest to the integer [z]: an integer below 2^53 in
    absolute value is a double; a larger one keeps 53 significant bits,
    rounded to the nearest, a tie going to the even one; from
    2^1024 - 2^970 on the result is an infinity. *)
Definition toDouble (z : Z) : jsNumber :=
  let a := Z.abs z in
  if a <? 2 ^ 53 then Num z
  else
    let e := Z.log2 a - 52 in
    let q := a / 2 ^ e in
    let r := a mod 2 ^ e in
    let up := (2 ^ (e - 1) <? r) || ((r =? 2 ^ (e - 1)) && Z.odd q) in
    let m := (if up then q + 1 else q) * 2 ^ e in
    if 2 ^ 1024 <=? m then (if 0 <? z then PosInfinity else NegInfinity)
    else Num (Z.sgn z * m).

(** The product of an infinity and the number [x]. *)
Definition timesInfinity (x : Z) (positive : bool) : jsNumber :=
  if x =? 0 then NaN
  else if Bool.eqb (0 <? x) positive then PosInfinity else NegInfinity.

(** [a * b]. *)
Definition mulNumber (a b : jsNumber) : jsNumber :=
  match a, b with
  | NaN, _ => NaN
  | _, NaN => NaN
  | Num x, Num y => toDouble (x * y)
  | Num x, PosInfinity => timesInfinity x true
  | Num x, NegInfinity => timesInfinity x false
  | PosInfinity, Num y => timesInfinity y true
  | NegInfinity, Num y => timesInfinity y false
  | PosInfinity, PosInfinity => PosInfinity
  | NegInfinity, NegInfinity => PosInfinity
  | PosInfinity, NegInfinity => NegInfinity
  | NegInfinity, PosInfinity => NegInfinity
  end.

(** [a <= b]: false when either side is [NaN]. *)
Definition leNumber (a b : jsNumber) : bool :=
  match a, b with
  | NaN, _ => false
  | _, NaN => false
  | NegInfinity, _ => true
  | _, PosInfinity => true
  | Num x, Num y => x <=? y
  | _, _ => false
  end.

(** [a < b]: false when either side is [NaN]. *)
Definition ltNumber (a b : jsNumber) : bool :=
  match a, b with
  | NaN, _ => false
  | _, NaN => false
  | Num x, Num y => x <? y
  | NegInfinity, NegInfinity => false
  | PosInfinity, PosInfinity => false
  | NegInfinity, _ => true
  | _, PosInfinity => true
  | _, _ => false
  end.

(** [Math.min(a, b)] and [Math.max(a, b)]: [NaN] when either is. *)
Definition minNumber (a b : jsNumber) : jsNumber :=
  if isNaN a || isNaN b then NaN
  else if leNumber a b then a else b.

Definition maxNumber (a b : jsNumber) : jsNumber :=
  if isNaN a || isNaN b then NaN
  else if leNumber a b then b else a.

(** [Math.pow(2, n)] for an integer [n] that is not negative, as the
    attempt index of the retry loop is: the powers of two up to 2^1023 are
    doubles, the next ones are [Infinity]. *)
Definition pow2Number (n : Z) : jsNumber :=
  if n <? 1024 then Num (2 ^ n) else PosInfinity.

(* ===================================================================== *)
(** ** errors.ts *)
(* ===================================================================== *)

(** The class of a thrown object.  [NativeError name] is an error that is
    not an [MVSEPError]: a [TypeError] of [fetch], a [SyntaxError] of
    [response.json()], and so on. *)
Inductive ErrorClass : Type :=
| MVSEPErrorC
| APIErrorC
| NetworkErrorC
| AuthenticationErrorC
| RateLimitErrorC
| ValidationErrorC
| TimeoutErrorC
| FileUploadErrorC
| SeparationErrorC
| NativeError (name : string).

(** An error object with the public fields the classes declare.  [message]
    is a string: [Error], which every constructor hands its message to,
    keeps [String(message)]. *)
Record JsError : Type := mkJsError {
  cls : ErrorClass;
  message : json;
  code : option string;
  status : option Z;
  statusText : option string;
  response : option json;
  headers : option (list (string * string));
  retryAfter : option jsNumber;
  errors : jsval;
  cause : option (string * string);
  hash : option string
}.

Definition plainError (c : ErrorClass) (msg : json) (cd : option string) : JsError :=
  {| cls := c; message := msg; code := cd; status := None; statusText := None;
     response := None; headers := None; retryAfter := None; errors := None;
     cause := None; hash := None |}.

Definition APIError (st : Z) (stText : string) (msg : json) (resp : option json)
    (hdrs : option (list (string * string))) : JsError :=
  {| cls := APIErrorC; message := JStr (messageText msg); code := None;
     status := Some st;
     statusText := Some stText; response := resp; headers := hdrs;
     retryAfter := None; errors := None; cause := None; hash := None |}.

Definition NetworkError (msg : string) (c : option (string * string)) : JsError :=
  {| cls := NetworkErrorC; message := JStr msg; code := None; status := None;
     statusText := None; response := None; headers := None; retryAfter := None;
     errors := None; cause := c; hash := None |}.

Definition AuthenticationError (msg : json) : JsError :=
  plainError AuthenticationErrorC (JStr (messageText msg)) (Some "AUTH_ERROR").

(** [RateLimitError] calls [super(status, statusText, message, response)]:
    its [headers] stay undefined. *)
Definition RateLimitError (st : Z) (stText : string) (msg : json)
    (resp : option json) (ra : option jsNumber) : JsError :=
  {| cls := RateLimitErrorC; message := JStr (messageText msg); code := None;
     status := Some st;
     statusText := Some stText; response := resp; headers := None;
     retryAfter := ra; errors := None; cause := None; hash := None |}.

Definition ValidationError (msg : json) (errs : jsval) : JsError :=
  {| cls := ValidationErrorC; message := JStr (messageText msg);
     code := Some "VALIDATION_ERROR";
     status := None; statusText := None; response := None; headers := None;
     retryAfter := None; errors := errs; cause := None; hash := None |}.

Definition TimeoutError (msg : string) : JsError :=
  plainError TimeoutErrorC (JStr msg) (Some "TIMEOUT_ERROR").

Definition SeparationError (msg : string) (h : option string) : JsError :=
  {| cls := SeparationErrorC; message := JStr msg; code := Some "SEPARATION_ERROR";
     status := None; statusText := None; response := None; headers := None;
     retryAfter := None; errors := None; cause := None; hash := h |}.

(** [error instanceof MVSEPError]: every class of errors.ts extends it. *)
Definition instanceofMVSEPError (e : JsError) : bool :=
  match cls e with
  | NativeError _ => false
  | _ => true
  end.

Definition instanceofNetworkError (e : JsError) : bool :=
  match cls e with NetworkErrorC => true | _ => false end.

Definition instanceofTimeoutError (e : JsError) : bool :=
  match cls e with TimeoutErrorC => true | _ => false end.

Definition instanceofRateLimitError (e : JsError) : bool :=
  match cls e with RateLimitErrorC => true | _ => false end.

(* ===================================================================== *)
(** ** retry.ts: the pure helpers *)
(* ===================================================================== *)

Record RetryConfig : Type := mkRetryConfig {
  maxRetries : Z;
  retryDelay : Z;
  timeout : Z
}.

Definition RETRYABLE_STATUS_CODES : list Z := [408; 429; 500; 502; 503; 504].

Definition RETRYABLE_ERROR_CODES : list string :=
  ["ECONNRESET"; "ETIMEDOUT"; "ENOTFOUND"; "ECONNREFUSED"].

(** [Array.prototype.includes] on numbers and on strings. *)
Definition includesZ (l : list Z) (x : Z) : bool := existsb (Z.eqb x) l.

Definition includesString (l : list string) (x : string) : bool :=
  existsb (String.eqb x) l.

(** [error.status && RETRYABLE_STATUS_CODES.includes(error.status)]. *)
Definition statusRetryable (e : JsError) : bool :=
  match status e with
  | Some s => negb (s =? 0) && includesZ RETRYABLE_STATUS_CODES s
  | None => false
  end.

(** [error.code && RETRYABLE_ERROR_CODES.includes(error.code)]. *)
Definition codeRetryable (e : JsError) : bool :=
  match code e with
  | Some c => negb (c =? "")%string && includesString RETRYABLE_ERROR_CODES c
  | None => false
  end.

Definition isRetryableError (e : JsError) : bool :=
  if instanceofNetworkError e || instanceofTimeoutError e then true
  else if instanceofRateLimitError e then true
  else if statusRetryable e then true
  else if codeRetryable e then true
  else false.

(** [Math.min(baseDelay * Math.pow(2, attempt), 32000)]. *)
Definition calculateBackoff (attempt baseDelay : Z) : jsNumber :=
  minNumber (mulNumber (Num baseDelay) (pow2Number attempt)) (Num 32000).

(** *** [parseInt(s, 10)] *)

(** White space that [parseInt] skips, among the code units below 256. *)
Definition isStrWhiteSpace (c : ascii) : bool :=
  let n := N_of_ascii c in
  ((9 <=? n) && (n <=? 13) || (n =? 32) || (n =? 160))%N.

Fixpoint trimStart (s : string) : string :=
  match s with
  | EmptyString => EmptyString
  | String c rest => if isStrWhiteSpace c then trimStart rest else s
  end.

Definition digitValue (c : ascii) : option Z :=
  let n := Z.of_N (N_of_ascii c) in
  if (48 <=? n) && (n <=? 57) then Some (n - 48) else None.

(** Value of the longest prefix of decimal digits; [acc] is the value read
    so far, [None] while no digit has been read. *)
Fixpoint digitsPrefix (s : string) (acc : option Z) : option Z :=
  match s with
  | EmptyString => acc
  | String c rest =>
      match digitValue c with
      | Some d => digitsPrefix rest (Some (10 * nullish acc 0 + d))
      | None => acc
      end
  end.

(** The integer that [parseInt(s, 10)] reads: white space is skipped, a
    sign is taken, and the digits that follow are read as far as they go;
    [None] when there is no digit. *)
Definition integerPrefix (s : string) : option Z :=
  let s1 := trimStart s in
  match s1 with
  | String "-" rest => option_map Z.opp (digitsPrefix rest None)
  | String "+" rest => digitsPrefix rest None
  | _ => digitsPrefix s1 None
  end.

(** [parseInt(s, 10)]: the double nearest to the integer read, [NaN] when
    there is none. *)
Definition parseInt10 (s : string) : jsNumber :=
  match integerPrefix s with
  | Some z => toDouble z
  | None => NaN
  end.

(* ===================================================================== *)
(** ** The world the asynchronous code runs in *)
(* ===================================================================== *)

(** What [fetch] resolves to.  [resp_json] is the result of
    [response.json()], [None] when the body is not JSON and the call rejects
    with a [SyntaxError]; [resp_text] is the result of [response.text()].
    Header names are lower case, as [Headers] stores them. *)
Record Response : Type := mkResponse {
  resp_status : Z;
  resp_statusText : string;
  resp_headers : list (string * string);
  resp_json : option json;
  resp_text : string
}.

(** [response.ok]. *)
Definition resp_ok (r : Response) : bool :=
  (200 <=? resp_status r) && (resp_status r <=? 299).

(** [response.headers.get(name)]. *)
Definition headersGet (name : string) (r : Response) : option string :=
  assoc name (resp_headers r).

Inductive Settled (T : Type) : Type :=
| Fulfilled (v : T)
| Rejected (e : JsError).
Arguments Fulfilled {T} v.
Arguments Rejected {T} e.

(** A promise in flight: the time it takes to settle, counted from the call
    that awaits it, and what it settles to; [None] never settles. *)
Definition Promise (T : Type) : Type := option (Z * Settled T).

(** The argument of the progress callback. *)
Record SeparationStatus : Type := mkSeparationStatus {
  st_hash : string;
  st_status : jsval;
  st_data : jsval
}.

(** [now] is [Date.now()]; [fetches] counts the calls of [fetch]; [timers]
    holds the pending timers with their due time; [sleeps] and [progress]
    log the arguments of [sleep] and of [onProgress], oldest first. *)
Record World : Type := mkWorld {
  now : Z;
  fetches : nat;
  timers : list (nat * Z);
  nextTimer : nat;
  sleeps : list jsNumber;
  progress : list SeparationStatus
}.

Definition elapse (dt : Z) (w : World) : World :=
  {| now := now w + dt; fetches := fetches w; timers := timers w;
     nextTimer := nextTimer w; sleeps := sleeps w; progress := progress w |}.

Definition countFetch (w : World) : World :=
  {| now := now w; fetches := S (fetches w); timers := timers w;
     nextTimer := nextTimer w; sleeps := sleeps w; progress := progress w |}.

Definition logSleep (ms : jsNumber) (w : World) : World :=
  {| now := now w; fetches := fetches w; timers := timers w;
     nextTimer := nextTimer w; sleeps := sleeps w ++ [ms]; progress := progress w |}.

Definition logProgress (s : SeparationStatus) (w : World) : World :=
  {| now := now w; fetches := fetches w; timers := timers w;
     nextTimer := nextTimer w; sleeps := sleeps w; progress := progress w ++ [s] |}.

Definition addTimer (due : Z) (w : World) : World :=
  {| now := now w; fetches := fetches w;
     timers := (nextTimer w, due) :: timers w;
     nextTimer := S (nextTimer w); sleeps := sleeps w; progress := progress w |}.

(** [clearTimeout(id)]; also what firing does to the table.  Clearing a
    timer that is not pending does nothing. *)
Definition clearTimeout (id : nat) (w : World) : World :=
  {| now := now w; fetches := fetches w;
     timers := filter (fun t => negb (Nat.eqb (fst t) id)) (timers w);
     nextTimer := nextTimer w; sleeps := sleeps w; progress := progress w |}.

(** Timer identifiers are handed out in increasing order. *)
Definition timersFresh (w : World) : Prop :=
  Forall (fun t => (fst t < nextTimer w)%nat) (timers w).

(** How an asynchronous call ends.  [ThrowUndefined] is [throw undefined];
    [OutOfFuel] marks a loop cut off by the fuel of the model. *)
Inductive Outcome (A : Type) : Type :=
| Return (a : A)
| Throw (e : JsError)
| ThrowUndefined
| OutOfFuel.
Arguments Return {A} a.
Arguments Throw {A} e.
Arguments ThrowUndefined {A}.
Arguments OutOfFuel {A}.

Definition M (A : Type) : Type := World -> Outcome A * World.

Definition ret {A : Type} (a : A) : M A := fun w => (Return a, w).

Definition throw {A : Type} (e : JsError) : M A := fun w => (Throw e, w).

Definition bind {A B : Type} (m : M A) (k : A -> M B) : M B :=
  fun w =>
    match m w with
    | (Return a, w1) => k a w1
    | (Throw e, w1) => (Throw e, w1)
    | (ThrowUndefined, w1) => (ThrowUndefined, w1)
    | (OutOfFuel, w1) => (OutOfFuel, w1)
    end.

(** [try { m } catch (error) { handler(error) }]; the handler receives
    [None] for a thrown [undefined]. *)
Definition tryCatch {A : Type} (m : M A) (handler : option JsError -> M A) : M A :=
  fun w =>
    match m w with
    | (Throw e, w1) => handler (Some e) w1
    | (ThrowUndefined, w1) => handler None w1
    | other => other
    end.

(** [try { m } finally { fin }] for a [finally] block that cannot throw. *)
Definition tryFinally {A : Type} (m : M A) (fin : World -> World) : M A :=
  fun w => let (r, w1) := m w in (r, fin w1).

Declare Scope js_scope.
Delimit Scope js_scope with js.
Notation "x <- m ;; k" := (bind m (fun x => k))
  (at level 61, m at next level, right associativity) : js_scope.
Notation "m ;;; k" := (bind m (fun _ => k))
  (at level 61, right associativity) : js_scope.
Local Open Scope js_scope.

Definition settle {T : Type} (r : Settled T) : Outcome T :=
  match r with
  | Fulfilled v => Return v
  | Rejected e => Throw e
  end.

(** The [TypeError] of a property read on [null] or [undefined]. *)
Definition typeErrorReading (what key : string) : JsError :=
  plainError (NativeError "TypeError")
    (JStr ("Cannot read properties of " ++ what ++ " (reading '" ++ key ++ "')"))
    None.

Definition syntaxError : JsError :=
  plainError (NativeError "SyntaxError") (JStr "Unexpected end of JSON input") None.

(** [data.key] on a value that is not [null], for the property names the
    client reads ([message], [errors], [status], [data]): only objects
    carry them. *)
Definition prop (data : json) (key : string) : jsval :=
  match data with
  | JObj fields => assoc key fields
  | _ => None
  end.

(** [data.key]; [null] has no properties at all. *)
Definition getProp (data : json) (key : string) : M jsval :=
  match data with
  | JNull => throw (typeErrorReading "null" key)
  | _ => ret (prop data key)
  end.

(* ===================================================================== *)
(** ** client.ts: configuration *)
(* ===================================================================== *)

Definition DEFAULT_BASE_URL : string := "https://mvsep.com".
Definition DEFAULT_TIMEOUT : Z := 30000.
Definition DEFAULT_MAX_RETRIES : Z := 3.
Definition DEFAULT_RETRY_DELAY : Z := 1000.
Definition DEFAULT_POLL_INTERVAL : Z := 5000.
Definition DEFAULT_POLL_MAX_DURATION : Z := 1800000.

(** [MVSEPConfig]: every field but the token is optional. *)
Record MVSEPConfig : Type := mkMVSEPConfig {
  cfg_apiToken : option string;
  cfg_baseURL : option string;
  cfg_timeout : option Z;
  cfg_maxRetries : option Z;
  cfg_retryDelay : option Z;
  cfg_debug : option bool;
  cfg_customHeaders : option (list (string * string))
}.

(** The private fields of [MVSEPClient]. *)
Record MVSEPClient : Type := mkMVSEPClient {
  client_apiToken : string;
  client_baseURL : string;
  client_timeout : Z;
  client_maxRetries : Z;
  client_retryDelay : Z;
  client_debug : bool;
  client_customHeaders : list (string * string)
}.

(** The constructor: [inl] is the thrown [ValidationError]. *)
Definition newMVSEPClient (config : MVSEPConfig) : JsError + MVSEPClient :=
  if (orString (cfg_apiToken config) "" =? "")%string then
    inl (ValidationError (JStr "API token is required") None)
  else
    inr {| client_apiToken := orString (cfg_apiToken config) "";
           client_baseURL := orString (cfg_baseURL config) DEFAULT_BASE_URL;
           client_timeout := orNumber (cfg_timeout config) DEFAULT_TIMEOUT;
           client_maxRetries := nullish (cfg_maxRetries config) DEFAULT_MAX_RETRIES;
           client_retryDelay := orNumber (cfg_retryDelay config) DEFAULT_RETRY_DELAY;
           client_debug := nullish (cfg_debug config) false;
           client_customHeaders := nullish (cfg_customHeaders config) [] |}.

(** [PollingOptions].  The callback sees the world it is called in and
    either returns ([None]) or throws ([Some e]). *)
Record PollingOptions : Type := mkPollingOptions {
  interval : option Z;
  maxDuration : option Z;
  onProgress : option (World -> SeparationStatus -> option JsError)
}.

(* ===================================================================== *)
(** ** More of errors.ts, retry.ts and client.ts: pure parts *)
(* ===================================================================== *)

Definition FileUploadError (msg : string) : JsError :=
  plainError FileUploadErrorC (JStr msg) (Some "FILE_UPLOAD_ERROR").

(** The delays [calculateBackoff] gives for [n] attempts in a row, the
    first of them being attempt [attempt]. *)
Fixpoint backoffFrom (attempt : Z) (n : nat) (baseDelay : Z) : list jsNumber :=
  match n with
  | O => []
  | S n' => calculateBackoff attempt baseDelay :: backoffFrom (attempt + 1) n' baseDelay
  end.

(** The number that a string of decimal digits, most significant first,
    denotes after the digits [acc] read before it. *)
Fixpoint decimalValue (d : Decimal.uint) (acc : Z) : Z :=
  match d with
  | Decimal.Nil => acc
  | Decimal.D0 l => decimalValue l (10 * acc + 0)
  | Decimal.D1 l => decimalValue l (10 * acc + 1)
  | Decimal.D2 l => decimalValue l (10 * acc + 2)
  | Decimal.D3 l => decimalValue l (10 * acc + 3)
  | Decimal.D4 l => decimalValue l (10 * acc + 4)
  | Decimal.D5 l => decimalValue l (10 * acc + 5)
  | Decimal.D6 l => decimalValue l (10 * acc + 6)
  | Decimal.D7 l => decimalValue l (10 * acc + 7)
  | Decimal.D8 l => decimalValue l (10 * acc + 8)
  | Decimal.D9 l => decimalValue l (10 * acc + 9)
  end.

(** *** buildFormData *)

(** The values that callers put into request parameters: primitives,
    [Buffer]s, readable streams, arrays and objects.  A stream is an object
    with a [pipe] method; [PObject] lists the properties that can be read
    from an object, methods left out.  [PNum] holds the integers that
    [String] writes in plain decimal digits (those below 10^21 in absolute
    value). *)
Inductive jsParam : Type :=
| PUndefined
| PNull
| PBool (b : bool)
| PNum (n : Z)
| PStr (s : string)
| PBuffer (content : string)
| PStream (label : string)
| PArray (items : list jsParam)
| PObject (fields : list (string * jsParam)).

Definition truthyParam (v : jsParam) : bool :=
  match v with
  | PUndefined | PNull => false
  | PBool b => b
  | PNum n => negb (n =? 0)
  | PStr s => negb (s =? "")%string
  | _ => true
  end.

(** [value === undefined || value === null]. *)
Definition isNullish (v : jsParam) : bool :=
  match v with
  | PUndefined | PNull => true
  | _ => false
  end.

(** [Buffer.isBuffer(value) || value.pipe]. *)
Definition isBufferOrStream (v : jsParam) : bool :=
  match v with
  | PBuffer _ => true
  | PStream _ => true
  | PObject fields => truthyParam (nullish (assoc "pipe" fields) PUndefined)
  | _ => false
  end.

(** [typeof value === 'object' && 'value' in value], for a value that is
    neither [null] nor a buffer or stream. *)
Definition hasValueKey (v : jsParam) : bool :=
  match v with
  | PObject fields => match assoc "value" fields with Some _ => true | None => false end
  | _ => false
  end.

(** [String(value)]. *)
Fixpoint paramText (v : jsParam) : string :=
  match v with
  | PUndefined => "undefined"
  | PNull => "null"
  | PBool true => "true"
  | PBool false => "false"
  | PNum n => showZ n
  | PStr s => s
  | PBuffer content => content
  | PStream _ => "[object Object]"
  | PArray items =>
      (fix join (l : list jsParam) : string :=
         match l with
         | [] => ""
         | x :: rest =>
             let here := if isNullish x then "" else paramText x in
             match rest with
             | [] => here
             | _ => here ++ "," ++ join rest
             end
         end) items
  | PObject _ => "[object Object]"
  end.

(** What [formData.append] was called with: a file with its options, or a
    text field. *)
Inductive FormPart : Type :=
| FilePart (value : jsParam) (options : jsParam)
| TextPart (text : string).

(** The body of the loop of [buildFormData] for one entry that is not
    skipped. *)
Definition formPart (value : jsParam) : FormPart :=
  if isBufferOrStream value then
    FilePart value (PObject [("filename", PStr "file")])
  else if hasValueKey value then
    match value with
    | PObject fields =>
        let options := nullish (assoc "options" fields) PUndefined in
        FilePart (nullish (assoc "value" fields) PUndefined)
                 (if truthyParam options then options else PObject [])
    | _ => TextPart (paramText value)
    end
  else TextPart (paramText value).

(** [buildFormData(params)], [params] being given by its entries in the
    order of [Object.entries]. *)
Fixpoint buildFormData (params : list (string * jsParam)) : list (string * FormPart) :=
  match params with
  | [] => []
  | (key, value) :: rest =>
      if isNullish value then buildFormData rest
      else (key, formPart value) :: buildFormData rest
  end.

(** The array index that a property key denotes, if any: the keys ["0"],
    ["1"], ... up to 2^32-2 in their canonical writing.  [Object.entries]
    lists these first, in numeric order, and the other keys after them in
    the order of their creation. *)
Definition arrayIndexOf (key : string) : option Z :=
  match integerPrefix key with
  | Some n =>
      if (showZ n =? key)%string && (0 <=? n) && (n <=? 4294967294)
      then Some n else None
  | None => None
  end.

(** The new key [key] is listed before the existing key [k]. *)
Definition listedBefore (key k : string) : bool :=
  match arrayIndexOf key, arrayIndexOf k with
  | Some a, Some b => a <? b
  | Some _, None => true
  | None, _ => false
  end.

Fixpoint replaceProperty (key : string) (value : jsParam)
    (entries : list (string * jsParam)) : list (string * jsParam) :=
  match entries with
  | [] => []
  | (k, v) :: rest =>
      if (k =? key)%string then (k, value) :: rest
      else (k, v) :: replaceProperty key value rest
  end.

Fixpoint insertProperty (key : string) (value : jsParam)
    (entries : list (string * jsParam)) : list (string * jsParam) :=
  match entries with
  | [] => [(key, value)]
  | (k, v) :: rest =>
      if listedBefore key k then (key, value) :: (k, v) :: rest
      else (k, v) :: insertProperty key value rest
  end.

(** Writing the property [key] of an object, the object being given by its
    entries in the order of [Object.entries]: an existing property keeps
    its place and takes the new value, a new one is created. *)
Definition setProperty (key : string) (value : jsParam)
    (entries : list (string * jsParam)) : list (string * jsParam) :=
  match assoc key entries with
  | Some _ => replaceProperty key value entries
  | None => insertProperty key value entries
  end.

(** [{ ...base, ...extra }]. *)
Definition objectSpread (base extra : list (string * jsParam)) : list (string * jsParam) :=
  fold_left (fun acc kv => setProperty (fst kv) (snd kv) acc) extra base.

(** The form that [createSeparation] and [addQualityCheckerEntry] send:
    [buildFormData({ api_token: this.apiToken, ...params })]. *)
Definition tokenForm (this : MVSEPClient) (params : list (string * jsParam))
    : list (string * FormPart) :=
  buildFormData (objectSpread [("api_token", PStr (client_apiToken this))] params).

(* ===================================================================== *)
(** ** Concrete runtimes, servers and clients *)
(* ===================================================================== *)

(** The timers of Node.js: a delay below 1 or above 2^31-1 is set to 1. *)
Definition nodeTimerDelay (ms : Z) : Z :=
  if (ms <? 1) || (2147483647 <? ms) then 1 else ms.

(** A date parser that knows one HTTP date. *)
Definition sampleDateParse (s : string) : option Z :=
  if (s =? "Wed, 21 Oct 2015 07:28:00 GMT")%string then Some 1445412480000
  else None.

(** A server that answers the [i]-th call with the [i]-th promise of a
    script and lets every later call hang. *)
Definition scripted (script : list (Promise Response)) (i : nat) : Promise Response :=
  nth i script None.

Definition jsonHeaders : list (string * string) :=
  [("content-type", "application/json")].

(** A JSON response that arrives after [t] milliseconds. *)
Definition respondJson (t : Z) (st : Z) (data : json) : Promise Response :=
  Some (t, Fulfilled {| resp_status := st;
                        resp_statusText := if st =? 200 then "OK" else "Error";
                        resp_headers := jsonHeaders;
                        resp_json := Some data;
                        resp_text := "" |}).

(** A response that announces JSON and carries an empty body. *)
Definition respondEmpty (t : Z) (st : Z) : Promise Response :=
  Some (t, Fulfilled {| resp_status := st; resp_statusText := "Error";
                        resp_headers := jsonHeaders;
                        resp_json := None; resp_text := "" |}).

Definition errorBody (msg : string) : json :=
  JObj [("success", JBool false); ("message", JStr msg)].

Definition statusBody (st : string) (data : json) : json :=
  JObj [("success", JBool true); ("status", JStr st); ("data", data)].

Definition queueData : json :=
  JObj [("queue_count", JNum 2); ("current_order", JNum 1)].

Definition world0 : World :=
  {| now := 0; fetches := 0; timers := []; nextTimer := 0; sleeps := [];
     progress := [] |}.

Definition clientWith (retries : Z) : MVSEPClient :=
  {| client_apiToken := "test-token-123"; client_baseURL := DEFAULT_BASE_URL;
     client_timeout := DEFAULT_TIMEOUT; client_maxRetries := retries;
     client_retryDelay := DEFAULT_RETRY_DELAY; client_debug := false;
     client_customHeaders := [] |}.

Definition quietProgress (w : World) (s : SeparationStatus) : option JsError := None.

Definition failingProgress (e : JsError) (w : World) (s : SeparationStatus)
    : option JsError := Some e.

(** Three 503 answers and then a 200 with an empty list. *)
Definition busyThenOk : nat -> Promise Response :=
  scripted [respondJson 5 503 (errorBody "Service unavailable");
            respondJson 5 503 (errorBody "Service unavailable");
            respondJson 5 503 (errorBody "Service unavailable");
            respondJson 5 200 (JArr [])].

(** A job that is waiting, then processing, then done. *)
Definition jobScript : nat -> Promise Response :=
  scripted [respondJson 5 200 (statusBody "waiting" queueData);
            respondJson 5 200 (statusBody "processing" queueData);
            respondJson 5 200 (statusBody "done" (JObj []))].

(** A job that stays in processing for ever. *)
Definition stuckJob (i : nat) : Promise Response :=
  respondJson 5 200 (statusBody "processing" (JObj [])).

(** A 400 with an empty body that announces JSON, then a 400 with a
    readable body. *)
Definition emptyBody400 : nat -> Promise Response :=
  scripted [respondEmpty 5 400; respondJson 5 400 (errorBody "Bad request")].

Definition testOptions : PollingOptions :=
  {| interval := Some 10; maxDuration := None; onProgress := Some quietProgress |}.

Definition shortOptions : PollingOptions :=
  {| interval := Some 10; maxDuration := Some 50; onProgress := None |}.

Definition callbackFailure : JsError :=
  plainError (NativeError "Error") (JStr "progress handler failed") None.

Definition throwingOptions : PollingOptions :=
  {| interval := Some 10; maxDuration := None;
     onProgress := Some (failingProgress callbackFailure) |}.

Definition zeroConfig : MVSEPConfig :=
  {| cfg_apiToken := Some "test-token-123"; cfg_baseURL := Some "";
     cfg_timeout := Some 0; cfg_maxRetries := Some 0; cfg_retryDelay := Some 0;
     cfg_debug := None; cfg_customHeaders := None |}.

Definition zeroClient : MVSEPClient :=
  {| client_apiToken := "test-token-123"; client_baseURL := DEFAULT_BASE_URL;
     client_timeout := DEFAULT_TIMEOUT; client_maxRetries := 0;
     client_retryDelay := DEFAULT_RETRY_DELAY; client_debug := false;
     client_customHeaders := [] |}.

(** A server that never answers. *)
Definition deadServer (i : nat) : Promise Response := None.

Definition tooManyRequests : Response :=
  {| resp_status := 429; resp_statusText := "Too Many Requests";
     resp_headers := [("content-type", "application/json"); ("retry-after", "1")];
     resp_json := Some (errorBody "Rate limit exceeded"); resp_text := "" |}.

Definition busyFor2Minutes : Response :=
  {| resp_status := 503; resp_statusText := "Service Unavailable";
     resp_headers := [("content-type", "application/json"); ("retry-after", "120")];
     resp_json := Some (errorBody "Service unavailable"); resp_text := "" |}.

(** A body whose [message] is a number and whose [errors] are a string. *)
Definition invalidBody : json :=
  JObj [("message", JNum 123); ("errors", JStr "oops")].

Definition createdBody : json :=
  JObj [("success", JBool true); ("hash", JStr "abc123")].

(** A creation that returns a hash and a job that is done at once. *)
Definition createThenDone : nat -> Promise Response :=
  scripted [respondJson 5 200 createdBody;
            respondJson 5 200 (statusBody "done" (JObj []))].

(** A job that is processing once and then done. *)
Definition shortJobBody (i : nat) : json :=
  match i with
  | O => statusBody "processing" queueData
  | S _ => statusBody "done" (JObj [])
  end.

Definition shortJob : nat -> Promise Response :=
  scripted [respondJson 5 200 (shortJobBody 0); respondJson 5 200 (shortJobBody 1)].

Definition sampleParams : list (string * jsParam) :=
  [("audiofile", PBuffer "RIFF"); ("sep_type", PNum 25);
   ("add_opt1", PUndefined)].

(** Closed inequalities between numerals, by evaluation. *)
Ltac by_compute :=
  lazymatch goal with
  | |- _ /\ _ => split; by_compute
  | |- (_ <= _)%Z => apply Z.leb_le; reflexivity
  | |- (_ < _)%Z => apply Z.ltb_lt; reflexivity
  | |- (_ <= _)%nat => apply Nat.leb_le; reflexivity
  end.

(** A scripted answer: the response is the one of the script, it arrives
    in time, and its body is read as given. *)
Ltac show_answered :=
  hnf; eexists;
  split; [reflexivity|];
  split; [by_compute|];
  split; [reflexivity|];
  split; [reflexivity|discriminate].

(** A scripted 2xx answer whose body is [null]. *)
Ltac show_answered_null :=
  hnf; eexists;
  split; [reflexivity|];
  split; [by_compute|];
  split; reflexivity.

(** A number is not in a list of other numbers, or not in a range. *)
Ltac not_among := cbn; intuition discriminate.

Ltac not_2xx :=
  let H := fresh in
  intros [_ H]; apply Z.leb_le in H; discriminate H.

(* ===================================================================== *)
(** ** The code that depends on the runtime *)
(* ===================================================================== *)

Section Runtime.

(** [timerDelay ms] is the time after which a timer set with
    [setTimeout(f, ms)] fires; [nodeTimerDelay] is that of Node.js. *)
Variable timerDelay : Z -> Z.

(** [new Date(s).getTime()]; [None] is an invalid date. *)
Variable dateParse : string -> option Z.

(** The server: [net i] is the promise that the [i]-th call of [fetch]
    returns. *)
Variable net : nat -> Promise Response.

(** *** retry.ts *)

(** [Date.now()] is passed in as [nowMs]; [None] is [null] or [undefined]. *)
Definition parseRetryAfter (nowMs : Z) (retryAfter : option string) : jsNumber :=
  match retryAfter with
  | None => Num 0
  | Some s =>
      if (s =? "")%string then Num 0
      else
        let seconds := parseInt10 s in
        if negb (isNaN seconds) then mulNumber seconds (Num 1000)
        else
          match dateParse s with
          | Some date => maxNumber (Num 0) (toDouble (date - nowMs))
          | None => Num 0
          end
  end.

(** The time after which a timer set with the number [ms] fires.  Node.js
    and the browsers treat a delay that is [NaN] or an infinity as they
    treat 0. *)
Definition timerDelayOf (ms : jsNumber) : Z :=
  match ms with
  | Num z => timerDelay z
  | _ => timerDelay 0
  end.

Definition sleep (ms : jsNumber) : M unit :=
  fun w => (Return tt, elapse (timerDelayOf ms) (logSleep ms w)).

(** [setTimeout(() => reject(timeoutError), ms)]: the identifier of the
    new timer. *)
Definition setTimeout (ms : Z) : M nat :=
  fun w => (Return (nextTimer w), addTimer (now w + timerDelay ms) w).

(** [await Promise.race([promise, timeoutPromise])], the timer [timeoutId]
    being due [delay] from now.  The promise wins when it settles before
    the timer fires; when both fall into the same millisecond the promise
    wins too: it was there before the timer was set, and what is due
    together is served in the order in which it was set up.  A timer that
    fires leaves the table. *)
Definition awaitRace {T : Type} (promise : Promise T) (timeoutId : nat)
    (delay : Z) (timeoutError : JsError) : M T :=
  fun w =>
    match promise with
    | Some (t, r) =>
        if t <=? delay then (settle r, elapse t w)
        else (Throw timeoutError, clearTimeout timeoutId (elapse delay w))
    | None => (Throw timeoutError, clearTimeout timeoutId (elapse delay w))
    end.

Definition requestTimedOut (timeoutMs : Z) : JsError :=
  TimeoutError ("Request timed out after " ++ showZ timeoutMs ++ "ms").

Definition withTimeout {T : Type} (promise : Promise T) (timeoutMs : Z)
    (timeoutError : JsError) : M T :=
  timeoutId <- setTimeout timeoutMs ;;
  tryFinally (awaitRace promise timeoutId (timerDelay timeoutMs) timeoutError)
             (clearTimeout timeoutId).

(** The delay before the next attempt, chosen in the [catch] block. *)
Definition retryPause (error : JsError) (attempt : Z) (config : RetryConfig)
    (nowMs : Z) : jsNumber :=
  if instanceofRateLimitError error
     && truthyNumber (nullish (retryAfter error) (Num 0)) then
    nullish (retryAfter error) (Num 0)
  else
    match headers error with
    | Some hs =>
        match assoc "retry-after" hs with
        | Some h =>
            if (h =? "")%string then calculateBackoff attempt (retryDelay config)
            else parseRetryAfter nowMs (Some h)
        | None => calculateBackoff attempt (retryDelay config)
        end
    | None => calculateBackoff attempt (retryDelay config)
    end.

(** [throw lastError] after the loop. *)
Definition throwLast {T : Type} (lastError : option JsError) : M T :=
  fun w =>
    match lastError with
    | Some e => (Throw e, w)
    | None => (ThrowUndefined, w)
    end.

(** The [for] loop of [retryWithBackoff]; [fuel] bounds the iterations left.
    A thrown [undefined] makes the default predicate read [error.status] of
    [undefined], which throws a [TypeError] out of the [catch] block. *)
Fixpoint retryLoop {T : Type} (fn : M T) (config : RetryConfig)
    (isRetryable : JsError -> bool) (fuel : nat) (attempt : Z)
    (lastError : option JsError) : M T :=
  match fuel with
  | O => throwLast lastError
  | S fuel' =>
      if attempt <=? maxRetries config then
        tryCatch fn (fun thrown =>
          match thrown with
          | Some error =>
              if negb (isRetryable error) || (attempt =? maxRetries config) then
                throw error
              else
                (fun w => sleep (retryPause error attempt config (now w)) w) ;;;
                retryLoop fn config isRetryable fuel' (attempt + 1) (Some error)
          | None => throw (typeErrorReading "undefined" "status")
          end)
      else throwLast lastError
  end.

(** The loop runs for [attempt = 0 .. maxRetries]. *)
Definition retryWithBackoff {T : Type} (fn : M T) (config : RetryConfig)
    (isRetryable : JsError -> bool) : M T :=
  retryLoop fn config isRetryable (Z.to_nat (maxRetries config + 1)) 0 None.

(** *** client.ts: one request *)

(** [fetch(url, requestOptions)]: the call is counted and its promise is
    the next one of the server. *)
Definition fetchCall : M (Promise Response) :=
  fun w => (Return (net (fetches w)), countFetch w).

(** The body, by content type. *)
Definition readBody (r : Response) : M json :=
  match headersGet "content-type" r with
  | Some contentType =>
      if includes "application/json" contentType then
        match resp_json r with
        | Some data => ret data
        | None => throw syntaxError
        end
      else ret (JStr (resp_text r))
  | None => ret (JStr (resp_text r))
  end.

(** The block under [if (!response.ok)]. *)
Definition rejectResponse (r : Response) (data : json) : M json :=
  if resp_status r =? 429 then
    fun w =>
      let retryAfter := parseRetryAfter (now w) (headersGet "retry-after" r) in
      (m <- getProp data "message" ;;
       throw (RateLimitError (resp_status r) (resp_statusText r)
                (orValue m (JStr "Rate limit exceeded")) (Some data)
                (Some retryAfter))) w
  else if (resp_status r =? 401) || (resp_status r =? 403) then
    m <- getProp data "message" ;;
    throw (AuthenticationError (orValue m (JStr "Authentication failed")))
  else if (resp_status r =? 400) || (resp_status r =? 422) then
    m <- getProp data "message" ;;
    errs <- getProp data "errors" ;;
    throw (ValidationError (orValue m (JStr "Validation failed")) errs)
  else
    m <- getProp data "message" ;;
    throw (APIError (resp_status r) (resp_statusText r)
             (orValue m (JStr ("API request failed with status "
                               ++ showZ (resp_status r))))
             (Some data) (Some (resp_headers r))).

Definition nativeName (e : JsError) : string :=
  match cls e with
  | NativeError name => name
  | _ => ""
  end.

(** The [catch] block of [makeRequest]. *)
Definition normalizeError (thrown : option JsError) : M json :=
  match thrown with
  | Some error =>
      if instanceofMVSEPError error then throw error
      else if (nativeName error =? "TypeError")%string
              || (nullish (code error) "" =? "ECONNREFUSED")%string then
        throw (NetworkError ("Network request failed: " ++ messageText (message error))
                 (Some (nativeName error, messageText (message error))))
      else if instanceofTimeoutError error then throw error
      else
        throw (NetworkError ("Request failed: " ++ messageText (message error))
                 (Some (nativeName error, messageText (message error))))
  | None => throw (typeErrorReading "undefined" "name")
  end.

(** What the [try] block does once the response is there. *)
Definition handleResponse (response : Response) : M json :=
  data <- readBody response ;;
  if negb (resp_ok response) then rejectResponse response data
  else ret data.

(** One attempt.  The URL, the method and the request headers decide
    nothing here and are left out, as is the debug logging. *)
Definition makeRequest (this : MVSEPClient) : M json :=
  tryCatch
    (promise <- fetchCall ;;
     response <- withTimeout promise (client_timeout this)
                   (requestTimedOut (client_timeout this)) ;;
     handleResponse response)
    normalizeError.

Definition request (this : MVSEPClient) : M json :=
  retryWithBackoff (makeRequest this)
    {| maxRetries := client_maxRetries this;
       retryDelay := client_retryDelay this;
       timeout := client_timeout this |}
    isRetryableError.

(** *** client.ts: polling *)

(** The hash only goes into the URL of the request. *)
Definition getSeparation (this : MVSEPClient) (hash : string) : M json :=
  request this.

(** [options.onProgress({hash, status: status.status, data: status.data})]. *)
Definition callProgress (cb : World -> SeparationStatus -> option JsError)
    (s : SeparationStatus) : M unit :=
  fun w =>
    match cb w s with
    | Some e => (Throw e, logProgress s w)
    | None => (Return tt, logProgress s w)
    end.

Definition isString (v : jsval) (s : string) : bool :=
  match v with
  | Some (JStr s') => (s' =? s)%string
  | _ => false
  end.

Definition pollTimedOut (maxDuration : Z) : JsError :=
  TimeoutError ("Separation job timed out after " ++ showZ maxDuration ++ "ms").

(** The [while (true)] loop of [waitForSeparation]. *)
Fixpoint pollLoop (fuel : nat) (this : MVSEPClient) (hash : string)
    (options : PollingOptions) (interval maxDuration startTime : Z) : M json :=
  match fuel with
  | O => fun w => (OutOfFuel, w)
  | S fuel' =>
      fun w =>
        if now w - startTime >? maxDuration then
          (Throw (pollTimedOut maxDuration), w)
        else
          (status <- getSeparation this hash ;;
           match onProgress options with
           | Some cb =>
               st <- getProp status "status" ;;
               d <- getProp status "data" ;;
               callProgress cb {| st_hash := hash; st_status := st; st_data := d |}
           | None => ret tt
           end ;;;
           st <- getProp status "status" ;;
           if isString st "done" then ret status
           else if isString st "error" then
             throw (SeparationError "Separation job failed" (Some hash))
           else
             sleep (Num interval) ;;;
             pollLoop fuel' this hash options interval maxDuration startTime) w
  end.

Definition pollInterval (options : PollingOptions) : Z :=
  orNumber (interval options) DEFAULT_POLL_INTERVAL.

Definition pollMaxDuration (options : PollingOptions) : Z :=
  orNumber (maxDuration options) DEFAULT_POLL_MAX_DURATION.

Definition waitForSeparation (fuel : nat) (this : MVSEPClient) (hash : string)
    (options : PollingOptions) : M json :=
  fun w =>
    pollLoop fuel this hash options (pollInterval options)
      (pollMaxDuration options) (now w) w.

(** *** client.ts: the other callers of [request] *)

(** [getUser] and [getSeparationHistory]: [(await this.request(...)).data]. *)
Definition requestData (this : MVSEPClient) : M jsval :=
  response <- request this ;;
  getProp response "data".

(** [response.data?.hash]. *)
Definition nestedHash (response : json) : M jsval :=
  data <- getProp response "data" ;;
  match data with
  | None => ret None
  | Some JNull => ret None
  | Some d => getProp d "hash"
  end.

(** The [catch] block of [createSeparation]. *)
Definition wrapUploadError (thrown : option JsError) : M json :=
  match thrown with
  | Some error =>
      if instanceofMVSEPError error then throw error
      else throw (FileUploadError ("Failed to upload file: "
                                   ++ messageText (message error)))
  | None => throw (typeErrorReading "undefined" "message")
  end.

(** [createSeparation]: the value of [hash] in the object it returns.  The
    form is built before the [try] block and decides nothing here. *)
Definition createSeparation (this : MVSEPClient) : M json :=
  tryCatch
    (response <- request this ;;
     top <- getProp response "hash" ;;
     if truthy top then ret (nullish top JNull)
     else
       nested <- nestedHash response ;;
       if truthy nested then ret (nullish nested JNull)
       else throw (SeparationError "No hash returned from separation creation" None))
    wrapUploadError.

(** [createAndWaitForSeparation].  The hash is a string by its type; one
    that is not is known to the polling loop by its text. *)
Definition createAndWaitForSeparation (fuel : nat) (this : MVSEPClient)
    (pollingOptions : PollingOptions) : M json :=
  h <- createSeparation this ;;
  waitForSeparation fuel this (messageText h) pollingOptions.

(** *** Vocabulary of the statements *)

(** The [try] block with its [catch], once the response is there. *)
Definition settleResponse (r : Response) : M json :=
  tryCatch (handleResponse r) normalizeError.

(** The world after an attempt of [this] that started in [w] and ended
    [dt] milliseconds later: the call is counted and the timer of
    [withTimeout] has come and gone. *)
Definition afterAttempt (this : MVSEPClient) (dt : Z) (w : World) : World :=
  clearTimeout (nextTimer w)
    (elapse dt (addTimer (now w + timerDelay (client_timeout this)) (countFetch w))).

(** The argument that [waitForSeparation] hands to the callback for the
    body [data] of a status fetch. *)
Definition snapshot (hash : string) (data : json) : SeparationStatus :=
  {| st_hash := hash; st_status := prop data "status"; st_data := prop data "data" |}.

(** The world after the callback, if there is one, was called with [s]. *)
Definition notified (options : PollingOptions) (s : SeparationStatus)
    (w : World) : World :=
  match onProgress options with
  | Some _ => logProgress s w
  | None => w
  end.

(** The callback, if there is one, returns on every call. *)
Definition neverThrows (options : PollingOptions) : Prop :=
  forall cb, onProgress options = Some cb -> forall w s, cb w s = None.

(** From [w] to [w'] one call of [fetch] went out and [dt] milliseconds
    passed; nothing slept and the callback was not called. *)
Definition oneFetch (dt : Z) (w w' : World) : Prop :=
  now w' = now w + dt /\ fetches w' = S (fetches w)
  /\ sleeps w' = sleeps w /\ progress w' = progress w.

(** The [i]-th call of [fetch] is answered after [t] milliseconds, before
    the request timeout of [this], with status [st] and a body that reads
    as [data], which is not [null]. *)
Definition answered (this : MVSEPClient) (i : nat) (t st : Z) (data : json) : Prop :=
  exists r,
    net i = Some (t, Fulfilled r)
    /\ 0 <= t < timerDelay (client_timeout this)
    /\ resp_status r = st
    /\ readBody r = ret data
    /\ data <> JNull.

(** The job never leaves the running state: every status fetch is answered
    in time with a 200 whose body says [processing]. *)
Definition alwaysProcessing (this : MVSEPClient) : Prop :=
  forall i, exists t data,
    answered this i t 200 data /\ prop data "status" = Some (JStr "processing").

(** The [i]-th call of [fetch] gets no response for [this]: it hangs, or
    settles only after the request timeout has fired, or is rejected in
    time with an error that is not one of the SDK. *)
Definition unreachable (this : MVSEPClient) (i : nat) : Prop :=
  net i = None
  \/ (exists t r, net i = Some (t, r) /\ timerDelay (client_timeout this) < t)
  \/ (exists t e, net i = Some (t, Rejected e)
                  /\ t < timerDelay (client_timeout this)
                  /\ instanceofMVSEPError e = false).

(** The time that has passed when the [i]-th poll of a session is checked
    against the deadline, the [j]-th status fetch taking [lat j] and every
    sleep [pause]. *)
Fixpoint elapsedBefore (lat : nat -> Z) (pause : Z) (i : nat) : Z :=
  match i with
  | O => 0
  | S j => elapsedBefore lat pause j + lat j + pause
  end.

(** The classes of the errors that one request can end in. *)
Definition requestErrorClass (c : ErrorClass) : Prop :=
  c = NetworkErrorC \/ c = TimeoutErrorC \/ c = RateLimitErrorC
  \/ c = AuthenticationErrorC \/ c = ValidationErrorC \/ c = APIErrorC.

(** [response.data?.hash] for a response that is not [null]. *)
Definition nestedHashOf (response : json) : jsval :=
  match prop response "data" with
  | None => None
  | Some JNull => None
  | Some d => prop d "hash"
  end.

(** The [i]-th call of [fetch] is answered in time for [this] with a 2xx
    whose JSON body is [null]. *)
Definition answeredNull (this : MVSEPClient) (i : nat) (t : Z) : Prop :=
  exists r,
    net i = Some (t, Fulfilled r)
    /\ 0 <= t < timerDelay (client_timeout this)
    /\ resp_ok r = true
    /\ readBody r = ret JNull.

(* ===================================================================== *)
(** ** Properties of the retry helpers *)
(* ===================================================================== *)

Lemma includesZ_In (l : list Z) (x : Z) : In x l -> includesZ l x = true.
Proof.
  intros H. unfold includesZ. apply existsb_exists.
  exists x. split; [exact H | apply Z.eqb_refl].
Qed.

Lemma retryable_status_nonzero (s : Z) :
  In s RETRYABLE_STATUS_CODES -> (s =? 0) = false.
Proof.
  unfold RETRYABLE_STATUS_CODES. simpl.
  intros H. apply Z.eqb_neq. lia.
Qed.

Lemma statusRetryable_true (e : JsError) (s : Z) :
  status e = Some s -> In s RETRYABLE_STATUS_CODES -> isRetryableError e = true.
Proof.
  intros Hs Hin. unfold isRetryableError.
  destruct (instanceofNetworkError e || instanceofTimeoutError e); [reflexivity|].
  destruct (instanceofRateLimitError e); [reflexivity|].
  unfold statusRetryable. rewrite Hs.
  rewrite (retryable_status_nonzero s Hin), (includesZ_In _ _ Hin).
  reflexivity.
Qed.

Lemma getProp_nonnull (data : json) (key : string) :
  data <> JNull -> getProp data key = ret (prop data key).
Proof. intros H. destruct data; try reflexivity. contradiction. Qed.

Lemma getProp_defined (data : json) (key : string) :
  data <> JNull -> exists v, getProp data key = ret v.
Proof. intros H. exists (prop data key). apply getProp_nonnull. exact H. Qed.

Lemma getProp_world (data : json) (key : string) (w : World) :
  snd (getProp data key w) = w.
Proof. destruct data; reflexivity. Qed.

(** What [rejectResponse] throws when the body can be read as an object,
    a string, a number, a boolean or an array. *)
Lemma rejectResponse_nonnull (r : Response) (data : json) (w : World) :
  data <> JNull ->
  exists e,
    rejectResponse r data w = (Throw e, w) /\
    instanceofMVSEPError e = true /\
    (resp_status r = 429 -> cls e = RateLimitErrorC) /\
    (resp_status r = 401 \/ resp_status r = 403 -> e = AuthenticationError (message e)) /\
    (resp_status r = 400 \/ resp_status r = 422 ->
       exists errs, getProp data "errors" = ret errs /\
                    e = ValidationError (message e) errs) /\
    (~ In (resp_status r) [429; 401; 403; 400; 422] ->
       cls e = APIErrorC /\ status e = Some (resp_status r) /\
       headers e = Some (resp_headers r) /\ response e = Some data).
Proof.
  intros Hd.
  destruct (getProp_defined data "message" Hd) as [m Hm].
  destruct (getProp_defined data "errors" Hd) as [errs He].
  unfold rejectResponse.
  destruct (resp_status r =? 429) eqn:E429.
  { apply Z.eqb_eq in E429. unfold bind. rewrite Hm. cbn.
    eexists; split; [reflexivity|]. cbn.
    repeat split; try reflexivity; intros; simpl in *; lia. }
  apply Z.eqb_neq in E429.
  destruct ((resp_status r =? 401) || (resp_status r =? 403)) eqn:Eauth.
  { apply orb_true_iff in Eauth. rewrite !Z.eqb_eq in Eauth.
    unfold bind. rewrite Hm. cbn.
    eexists; split; [reflexivity|].
    repeat split; try reflexivity; intros; simpl in *; lia. }
  apply orb_false_iff in Eauth. rewrite !Z.eqb_neq in Eauth.
  destruct ((resp_status r =? 400) || (resp_status r =? 422)) eqn:Eval.
  { apply orb_true_iff in Eval. rewrite !Z.eqb_eq in Eval.
    unfold bind. rewrite Hm. cbn. rewrite He. cbn.
    eexists; split; [reflexivity|]. split; [reflexivity|].
    split; [intros; lia|]. split; [intros; lia|].
    split; [intros _; exists errs; split; reflexivity|].
    intros Hn. exfalso. apply Hn. simpl. lia. }
  apply orb_false_iff in Eval. rewrite !Z.eqb_neq in Eval.
  unfold bind. rewrite Hm. cbn.
  eexists; split; [reflexivity|]. split; [reflexivity|].
  split; [intros; lia|]. split; [intros; lia|]. split; [intros; lia|].
  intros _. repeat split; reflexivity.
Qed.

(** A thrown [TypeError] of a property read is not retryable. *)
Lemma typeError_not_retryable (what key : string) :
  isRetryableError (typeErrorReading what key) = false.
Proof. reflexivity. Qed.


(** *** Numbers *)

(** What rounding to a double keeps: the sign, the side of 2^53 the
    integer is on, and the integer itself below 2^53. *)
Lemma toDouble_spec (z : Z) :
  match toDouble z with
  | Num y =>
      (0 <= z -> 0 <= y) /\ (z <= 0 -> y <= 0)
      /\ (2 ^ 53 <= z -> 2 ^ 53 <= y) /\ (z <= - 2 ^ 53 -> y <= - 2 ^ 53)
      /\ (Z.abs z < 2 ^ 53 -> y = z)
  | PosInfinity => 2 ^ 53 <= z
  | NegInfinity => z <= - 2 ^ 53
  | NaN => False
  end.
Proof.
  unfold toDouble.
  destruct (Z.ltb_spec (Z.abs z) (2 ^ 53)) as [Hsmall|Hbig].
  { repeat split; lia. }
  cbv zeta.
  set (a := Z.abs z) in *.
  assert (Ha : 0 < a) by (pose proof (Z.pow_pos_nonneg 2 53); lia).
  assert (Hlog : 53 <= Z.log2 a) by (apply Z.log2_le_pow2; [exact Ha | exact Hbig]).
  set (e := Z.log2 a - 52).
  assert (He : 1 <= e) by (unfold e; lia).
  assert (Hp : 2 <= 2 ^ e).
  { change 2 with (2 ^ 1) at 1. apply Z.pow_le_mono_r; lia. }
  assert (Hq : 2 ^ 52 <= a / 2 ^ e).
  { apply Z.div_le_lower_bound; [lia|].
    rewrite <- Z.pow_add_r by lia.
    replace (e + 52) with (Z.log2 a) by (unfold e; lia).
    apply Z.log2_spec. exact Ha. }
  set (q := a / 2 ^ e) in *.
  set (up := (2 ^ (e - 1) <? a mod 2 ^ e) || ((a mod 2 ^ e =? 2 ^ (e - 1)) && Z.odd q)).
  set (m := (if up then q + 1 else q) * 2 ^ e).
  assert (Hm : 2 ^ 53 <= m).
  { change (2 ^ 53) with (2 ^ 52 * 2). unfold m.
    apply Z.mul_le_mono_nonneg; destruct up; lia. }
  destruct (Z.leb_spec (2 ^ 1024) m) as [Hinf|Hfin].
  - destruct (Z.ltb_spec 0 z); unfold a in *; lia.
  - destruct (Z.sgn_spec z) as [[Hz ->]|[[Hz ->]|[Hz ->]]]; unfold a in *;
      repeat split; lia.
Qed.

Lemma toDouble_exact (z : Z) : Z.abs z < 2 ^ 53 -> toDouble z = Num z.
Proof.
  intros H. unfold toDouble.
  destruct (Z.ltb_spec (Z.abs z) (2 ^ 53)); [reflexivity|lia].
Qed.

Lemma toDouble_not_NaN (z : Z) : isNaN (toDouble z) = false.
Proof.
  pose proof (toDouble_spec z) as H.
  destruct (toDouble z); [reflexivity | contradiction | reflexivity | reflexivity].
Qed.

Lemma toDouble_nonneg (z : Z) : 0 <= z -> leNumber (Num 0) (toDouble z) = true.
Proof.
  intros Hz. pose proof (toDouble_spec z) as H.
  destruct (toDouble z) as [y| | |]; cbn [leNumber].
  - apply Z.leb_le. apply H. exact Hz.
  - contradiction.
  - reflexivity.
  - pose proof (Z.pow_pos_nonneg 2 53). lia.
Qed.

Lemma toDouble_negative (z : Z) : z < 0 -> ltNumber (toDouble z) (Num 0) = true.
Proof.
  intros Hz. pose proof (toDouble_spec z) as H.
  destruct (toDouble z) as [y| | |]; cbn [ltNumber].
  - apply Z.ltb_lt.
    destruct (Z.lt_ge_cases (Z.abs z) (2 ^ 53)) as [Hs|Hb].
    + destruct H as (_ & _ & _ & _ & Hy). rewrite (Hy Hs). exact Hz.
    + destruct H as (_ & _ & _ & Hy & _).
      pose proof (Z.pow_pos_nonneg 2 53). lia.
  - contradiction.
  - pose proof (Z.pow_pos_nonneg 2 53). lia.
  - reflexivity.
Qed.

(** Seconds that are not negative give milliseconds that are not. *)
Lemma seconds_nonneg (z : Z) :
  0 <= z -> leNumber (Num 0) (mulNumber (toDouble z) (Num 1000)) = true.
Proof.
  intros Hz. pose proof (toDouble_spec z) as H.
  destruct (toDouble z) as [y| | |]; cbn [mulNumber].
  - apply toDouble_nonneg. apply Z.mul_nonneg_nonneg; [apply H; exact Hz | lia].
  - contradiction.
  - reflexivity.
  - pose proof (Z.pow_pos_nonneg 2 53). lia.
Qed.

(** The distance to a date, cut off at 0. *)
Lemma date_delay_nonneg (d : Z) :
  leNumber (Num 0) (maxNumber (Num 0) (toDouble d)) = true.
Proof.
  pose proof (toDouble_spec d) as H. unfold maxNumber.
  destruct (toDouble d) as [y| | |]; cbn [isNaN orb leNumber];
    [|contradiction|reflexivity|reflexivity].
  destruct (Z.leb_spec 0 y); cbn [leNumber]; apply Z.leb_le; lia.
Qed.

Lemma date_delay_past (d : Z) :
  d <= 0 -> maxNumber (Num 0) (toDouble d) = Num 0.
Proof.
  intros Hd. pose proof (toDouble_spec d) as H. unfold maxNumber.
  destruct (toDouble d) as [y| | |]; cbn [isNaN orb leNumber].
  - destruct H as (_ & Hy & _). specialize (Hy Hd).
    destruct (Z.leb_spec 0 y); [|reflexivity]. f_equal. lia.
  - contradiction.
  - pose proof (Z.pow_pos_nonneg 2 53). lia.
  - reflexivity.
Qed.

(** *** calculateBackoff *)

(** The backoff of a base that is not negative, where the product is a
    number: it is [base * 2^attempt] cut off at the cap. *)
Lemma calculateBackoff_value (attempt baseDelay : Z) :
  0 <= attempt -> 0 <= baseDelay -> (baseDelay = 0 -> attempt < 1024) ->
  calculateBackoff attempt baseDelay
  = Num (Z.min (baseDelay * 2 ^ attempt) 32000).
Proof.
  intros Ha Hb Hzero.
  assert (Hpow : 0 < 2 ^ attempt) by (apply Z.pow_pos_nonneg; lia).
  assert (Hprod : 0 <= baseDelay * 2 ^ attempt) by (apply Z.mul_nonneg_nonneg; lia).
  unfold calculateBackoff, pow2Number.
  destruct (Z.ltb_spec attempt 1024) as [Hin|Hout].
  - cbn [mulNumber].
    pose proof (toDouble_spec (baseDelay * 2 ^ attempt)) as H.
    pose proof (Z.pow_pos_nonneg 2 53 ltac:(lia) ltac:(lia)) as H53.
    assert (Hcap : 32000 < 2 ^ 53) by (apply Z.ltb_lt; reflexivity).
    destruct (toDouble (baseDelay * 2 ^ attempt)) as [y| | |];
      unfold minNumber; cbn [isNaN orb leNumber].
    + destruct H as (_ & _ & Hbig & _ & Hsmall).
      destruct (Z.lt_ge_cases (baseDelay * 2 ^ attempt) (2 ^ 53)) as [Hs|Hl].
      * rewrite (Hsmall ltac:(lia)).
        destruct (Z.leb_spec (baseDelay * 2 ^ attempt) 32000); f_equal; lia.
      * specialize (Hbig Hl).
        destruct (Z.leb_spec y 32000); [lia|]. f_equal. lia.
    + contradiction.
    + f_equal. lia.
    + lia.
  - assert (Hbase : 1 <= baseDelay) by lia.
    cbn [mulNumber]. unfold timesInfinity.
    destruct (Z.eqb_spec baseDelay 0); [lia|].
    destruct (Z.ltb_spec 0 baseDelay); [|lia].
    cbn [Bool.eqb]. unfold minNumber. cbn [isNaN orb leNumber].
    assert (H15 : 2 ^ 15 <= 2 ^ attempt) by (apply Z.pow_le_mono_r; lia).
    change (2 ^ 15) with 32768 in H15.
    f_equal. nia.
Qed.

(** C4, as the code has it.  For a base delay that is not negative the
    backoff does not decrease with the attempt index, never exceeds
    32000 ms, and is [base * 2^attempt] cut off at that cap, as long as
    the product is a number: a base of 0 with an attempt index from 1024
    on, where [Math.pow] gives [Infinity], is left out. *)
Theorem calculateBackoff_monotone_capped (b i j : Z) :
  0 <= b -> 0 <= i -> i <= j -> (b = 0 -> j < 1024) ->
  leNumber (calculateBackoff i b) (calculateBackoff j b) = true
  /\ leNumber (calculateBackoff i b) (Num 32000) = true
  /\ leNumber (calculateBackoff j b) (Num 32000) = true
  /\ calculateBackoff j b = Num (Z.min (b * 2 ^ j) 32000)
  /\ (b * 2 ^ j <= 32000 -> calculateBackoff j b = Num (b * 2 ^ j)).
Proof.
  intros Hb Hi Hij Hzero.
  rewrite (calculateBackoff_value i b Hi Hb ltac:(intros H0; specialize (Hzero H0); lia)).
  rewrite (calculateBackoff_value j b ltac:(lia) Hb Hzero).
  cbn [leNumber].
  assert (Hpow : 2 ^ i <= 2 ^ j) by (apply Z.pow_le_mono_r; lia).
  assert (Hmul : b * 2 ^ i <= b * 2 ^ j) by (apply Z.mul_le_mono_nonneg_l; lia).
  repeat split; try (apply Z.leb_le; lia).
  intros Hcap. f_equal. lia.
Qed.

(** *** parseRetryAfter *)

Lemma parseRetryAfter_seconds (nowMs : Z) (s : string) (seconds : Z) :
  s <> "" -> integerPrefix s = Some seconds ->
  parseRetryAfter nowMs (Some s) = mulNumber (toDouble seconds) (Num 1000).
Proof.
  intros Hs Hp. unfold parseRetryAfter, parseInt10.
  destruct (String.eqb_spec s ""); [contradiction|].
  rewrite Hp. cbv zeta. rewrite toDouble_not_NaN. reflexivity.
Qed.

Lemma parseRetryAfter_no_seconds (nowMs : Z) (s : string) :
  s <> "" -> integerPrefix s = None ->
  parseRetryAfter nowMs (Some s)
  = match dateParse s with
    | Some date => maxNumber (Num 0) (toDouble (date - nowMs))
    | None => Num 0
    end.
Proof.
  intros Hs Hp. unfold parseRetryAfter, parseInt10.
  destruct (String.eqb_spec s ""); [contradiction|].
  rewrite Hp. reflexivity.
Qed.

(** The parts of the contract of [parseRetryAfter] that hold: seconds
    become milliseconds, an absent or unparseable value gives 0, a date
    gives its distance from now and never less than 0. *)
Lemma parseRetryAfter_cases (nowMs : Z) :
  parseRetryAfter nowMs (Some "5") = Num 5000
  /\ parseRetryAfter nowMs None = Num 0
  /\ parseRetryAfter nowMs (Some "") = Num 0
  /\ (forall s, integerPrefix s = None -> dateParse s = None ->
                parseRetryAfter nowMs (Some s) = Num 0)
  /\ (forall s date, s <> "" -> integerPrefix s = None -> dateParse s = Some date ->
                     parseRetryAfter nowMs (Some s)
                     = maxNumber (Num 0) (toDouble (date - nowMs)))
  /\ (forall s date, integerPrefix s = None -> dateParse s = Some date ->
                     date <= nowMs -> parseRetryAfter nowMs (Some s) = Num 0)
  /\ (forall s, integerPrefix s = None ->
                leNumber (Num 0) (parseRetryAfter nowMs (Some s)) = true)
  /\ (forall s seconds, integerPrefix s = Some seconds -> 0 <= seconds ->
                        leNumber (Num 0) (parseRetryAfter nowMs (Some s)) = true).
Proof.
  split; [reflexivity|]. split; [reflexivity|]. split; [reflexivity|].
  split; [|split; [|split; [|split]]].
  - intros s Hp Hd. destruct (String.eqb_spec s "") as [->|Hs]; [reflexivity|].
    rewrite (parseRetryAfter_no_seconds nowMs s Hs Hp), Hd. reflexivity.
  - intros s date Hs Hp Hd.
    rewrite (parseRetryAfter_no_seconds nowMs s Hs Hp), Hd. reflexivity.
  - intros s date Hp Hd Hle.
    destruct (String.eqb_spec s "") as [->|Hs]; [reflexivity|].
    rewrite (parseRetryAfter_no_seconds nowMs s Hs Hp), Hd.
    apply date_delay_past. lia.
  - intros s Hp. destruct (String.eqb_spec s "") as [->|Hs]; [reflexivity|].
    rewrite (parseRetryAfter_no_seconds nowMs s Hs Hp).
    destruct (dateParse s); [apply date_delay_nonneg | reflexivity].
  - intros s seconds Hp Hle.
    destruct (String.eqb_spec s "") as [->|Hs]; [discriminate Hp|].
    rewrite (parseRetryAfter_seconds nowMs s seconds Hs Hp).
    apply seconds_nonneg. exact Hle.
Qed.

(** An HTTP date starts with the name of a day, so [parseInt] gives [NaN]
    and the date branch decides. *)
Lemma parseRetryAfter_http_date (nowMs date : Z) :
  dateParse "Wed, 21 Oct 2015 07:28:00 GMT" = Some date ->
  date <= nowMs ->
  parseRetryAfter nowMs (Some "Wed, 21 Oct 2015 07:28:00 GMT") = Num 0.
Proof.
  intros Hd Hle.
  rewrite parseRetryAfter_no_seconds by (discriminate || reflexivity).
  rewrite Hd. apply date_delay_past. lia.
Qed.

(** C5. The seconds branch has no lower bound: [parseRetryAfter("-5")] is
    -5000, a negative delay. *)
Theorem parseRetryAfter_negative_seconds (nowMs : Z) :
  parseRetryAfter nowMs (Some "-5") = Num (-5000)
  /\ ltNumber (parseRetryAfter nowMs (Some "-5")) (Num 0) = true.
Proof. split; reflexivity. Qed.

(** *** withTimeout *)

Lemma filter_fresh (id : nat) (l : list (nat * Z)) :
  Forall (fun t => (fst t < id)%nat) l ->
  filter (fun t => negb (Nat.eqb (fst t) id)) l = l.
Proof.
  induction 1 as [|x l Hx _ IH]; [reflexivity|].
  simpl. destruct (Nat.eqb_spec (fst x) id); [lia|].
  simpl. rewrite IH. reflexivity.
Qed.

Lemma filter_own_timer (id : nat) (due : Z) (l : list (nat * Z)) :
  filter (fun t => negb (Nat.eqb (fst t) id)) ((id, due) :: l)
  = filter (fun t => negb (Nat.eqb (fst t) id)) l.
Proof. simpl. rewrite Nat.eqb_refl. reflexivity. Qed.

Lemma filter_twice (id : nat) (l : list (nat * Z)) :
  filter (fun t => negb (Nat.eqb (fst t) id))
         (filter (fun t => negb (Nat.eqb (fst t) id)) l)
  = filter (fun t => negb (Nat.eqb (fst t) id)) l.
Proof.
  induction l as [|x l IH]; [reflexivity|].
  simpl. destruct (negb (Nat.eqb (fst x) id)) eqn:E; simpl.
  - rewrite E, IH. reflexivity.
  - exact IH.
Qed.

(** Within the range of a Node.js timer the delay is the one asked for. *)
Lemma nodeTimerDelay_in_range (ms : Z) :
  1 <= ms <= 2147483647 -> nodeTimerDelay ms = ms.
Proof.
  intros H. unfold nodeTimerDelay.
  destruct (Z.ltb_spec ms 1); [lia|].
  destruct (Z.ltb_spec 2147483647 ms); [lia|reflexivity].
Qed.

Lemma nodeTimerDelay_positive (ms : Z) : 0 < nodeTimerDelay ms.
Proof.
  unfold nodeTimerDelay.
  destruct (Z.ltb_spec ms 1); [cbn; lia|].
  destruct (Z.ltb_spec 2147483647 ms); cbn; lia.
Qed.

(** The run of [withTimeout], case by case. *)
Lemma withTimeout_unfold (T : Type) (promise : Promise T) (timeoutMs : Z)
    (timeoutError : JsError) (w : World) :
  withTimeout promise timeoutMs timeoutError w =
  let armed := addTimer (now w + timerDelay timeoutMs) w in
  match promise with
  | Some (t, r) =>
      if t <=? timerDelay timeoutMs then
        (settle r, clearTimeout (nextTimer w) (elapse t armed))
      else
        (Throw timeoutError,
         clearTimeout (nextTimer w)
           (clearTimeout (nextTimer w) (elapse (timerDelay timeoutMs) armed)))
  | None =>
      (Throw timeoutError,
       clearTimeout (nextTimer w)
         (clearTimeout (nextTimer w) (elapse (timerDelay timeoutMs) armed)))
  end.
Proof.
  unfold withTimeout, bind, setTimeout, tryFinally, awaitRace.
  destruct promise as [[t r]|]; [|reflexivity].
  destruct (t <=? timerDelay timeoutMs); reflexivity.
Qed.

(** The timer of [withTimeout] is gone when it returns or throws. *)
Lemma withTimeout_timers (T : Type) (promise : Promise T) (timeoutMs : Z)
    (timeoutError : JsError) (w : World) :
  timersFresh w ->
  timers (snd (withTimeout promise timeoutMs timeoutError w)) = timers w
  /\ nextTimer (snd (withTimeout promise timeoutMs timeoutError w))
     = S (nextTimer w).
Proof.
  intros Hfresh. rewrite withTimeout_unfold. cbv zeta.
  assert (Hone : filter (fun t => negb (Nat.eqb (fst t) (nextTimer w)))
                   ((nextTimer w, now w + timerDelay timeoutMs) :: timers w)
                 = timers w).
  { rewrite filter_own_timer. apply filter_fresh. exact Hfresh. }
  destruct promise as [[t r]|]; [destruct (t <=? timerDelay timeoutMs)|];
    cbn [snd timers nextTimer clearTimeout elapse addTimer];
    rewrite ?filter_twice; (split; [exact Hone | reflexivity]).
Qed.

(** Identifiers stay fresh across [withTimeout]. *)
Lemma withTimeout_fresh (T : Type) (promise : Promise T) (timeoutMs : Z)
    (timeoutError : JsError) (w : World) :
  timersFresh w ->
  timersFresh (snd (withTimeout promise timeoutMs timeoutError w)).
Proof.
  intros Hfresh.
  destruct (withTimeout_timers T promise timeoutMs timeoutError w Hfresh)
    as [Ht Hn].
  unfold timersFresh. rewrite Ht, Hn.
  eapply Forall_impl; [|exact Hfresh].
  intros a Ha. cbn in Ha |- *. lia.
Qed.


(** *** One attempt *)

Lemma rejectResponse_world (r : Response) (data : json) (w : World) :
  snd (rejectResponse r data w) = w.
Proof.
  unfold rejectResponse.
  repeat match goal with |- context [if ?b then _ else _] => destruct b end;
    destruct data; reflexivity.
Qed.

Lemma handleResponse_world (r : Response) (w : World) :
  snd (handleResponse r w) = w.
Proof.
  unfold handleResponse, bind.
  destruct (readBody r w) as [[d| | |] w1] eqn:E;
    assert (Hw : w1 = w)
      by (revert E; unfold readBody;
          repeat match goal with
                 | |- context [match ?x with _ => _ end] => destruct x
                 end; cbn; intros E; inversion E; reflexivity);
    subst w1; try reflexivity.
  destruct (negb (resp_ok r)); [apply rejectResponse_world | reflexivity].
Qed.

Lemma normalizeError_world (thrown : option JsError) (w : World) :
  snd (normalizeError thrown w) = w.
Proof.
  unfold normalizeError. destruct thrown as [e|]; [|reflexivity].
  repeat match goal with |- context [if ?b then _ else _] => destruct b end;
    reflexivity.
Qed.

Lemma normalizeError_MVSEP (e : JsError) (w : World) :
  instanceofMVSEPError e = true -> normalizeError (Some e) w = (Throw e, w).
Proof. intros H. unfold normalizeError. rewrite H. reflexivity. Qed.

Lemma settleResponse_world (r : Response) (w : World) :
  snd (settleResponse r w) = w.
Proof.
  unfold settleResponse, tryCatch.
  pose proof (handleResponse_world r w) as H.
  destruct (handleResponse r w) as [[d|e| |] w1]; simpl in H; subst w1;
    try reflexivity; apply normalizeError_world.
Qed.

Lemma afterAttempt_oneFetch (this : MVSEPClient) (dt : Z) (w : World) :
  oneFetch dt w (afterAttempt this dt w).
Proof. repeat split. Qed.

Lemma clearTimeout_idem (id : nat) (w : World) :
  clearTimeout id (clearTimeout id w) = clearTimeout id w.
Proof. unfold clearTimeout. cbn. rewrite filter_twice. reflexivity. Qed.

(** The run of one attempt, by what the server does with the call. *)
Lemma makeRequest_unfold (this : MVSEPClient) (w : World) :
  makeRequest this w =
  match net (fetches w) with
  | Some (t, r) =>
      if t <=? timerDelay (client_timeout this) then
        match r with
        | Fulfilled resp => settleResponse resp (afterAttempt this t w)
        | Rejected e => normalizeError (Some e) (afterAttempt this t w)
        end
      else
        (Throw (requestTimedOut (client_timeout this)),
         afterAttempt this (timerDelay (client_timeout this)) w)
  | None =>
      (Throw (requestTimedOut (client_timeout this)),
       afterAttempt this (timerDelay (client_timeout this)) w)
  end.
Proof.
  unfold makeRequest, tryCatch at 1, bind at 1, fetchCall.
  unfold bind at 1. rewrite withTimeout_unfold. cbv zeta.
  unfold afterAttempt, settleResponse.
  cbn [now nextTimer countFetch fetches].
  destruct (net (fetches w)) as [[t r]|].
  - destruct (t <=? timerDelay (client_timeout this)).
    + destruct r as [resp|e]; cbn [settle].
      * unfold tryCatch. reflexivity.
      * reflexivity.
    + rewrite clearTimeout_idem. reflexivity.
  - rewrite clearTimeout_idem. reflexivity.
Qed.

(** Every attempt is one call of [fetch], and leaves the logs alone. *)
Lemma makeRequest_oneFetch (this : MVSEPClient) (w : World) :
  exists dt, oneFetch dt w (snd (makeRequest this w)).
Proof.
  rewrite makeRequest_unfold.
  destruct (net (fetches w)) as [[t r]|].
  - destruct (t <=? timerDelay (client_timeout this)).
    + exists t. destruct r as [resp|e].
      * rewrite settleResponse_world. apply afterAttempt_oneFetch.
      * rewrite normalizeError_world. apply afterAttempt_oneFetch.
    + eexists. apply afterAttempt_oneFetch.
  - eexists. apply afterAttempt_oneFetch.
Qed.

Lemma settleResponse_ok (r : Response) (data : json) (w : World) :
  resp_ok r = true -> readBody r = ret data ->
  settleResponse r w = (Return data, w).
Proof.
  intros Hok Hbody. unfold settleResponse, tryCatch, handleResponse, bind.
  rewrite Hbody. cbn. rewrite Hok. reflexivity.
Qed.

Lemma settleResponse_rejected (r : Response) (data : json) (w : World) :
  resp_ok r = false -> readBody r = ret data -> data <> JNull ->
  exists e, rejectResponse r data w = (Throw e, w)
            /\ settleResponse r w = (Throw e, w).
Proof.
  intros Hok Hbody Hd.
  destruct (rejectResponse_nonnull r data w Hd) as (e & Hrun & Hsdk & _).
  exists e. split; [exact Hrun|].
  unfold settleResponse, tryCatch, handleResponse, bind.
  rewrite Hbody. cbn. rewrite Hok. cbn. rewrite Hrun.
  apply normalizeError_MVSEP. exact Hsdk.
Qed.

(** A body that announces JSON and is not JSON ends in a [NetworkError],
    whatever the status of the response. *)
Lemma settleResponse_unreadable (r : Response) (w : World) :
  readBody r = throw syntaxError ->
  settleResponse r w =
    (Throw (NetworkError "Request failed: Unexpected end of JSON input"
              (Some ("SyntaxError", "Unexpected end of JSON input"))), w).
Proof.
  intros Hbody. unfold settleResponse, tryCatch, handleResponse, bind.
  rewrite Hbody. reflexivity.
Qed.

(** A [null] body of a response that is not ok ends in a [NetworkError]
    too: reading [data.message] throws a [TypeError]. *)
Lemma settleResponse_null (r : Response) (w : World) :
  resp_ok r = false -> readBody r = ret JNull ->
  exists e, settleResponse r w = (Throw e, w) /\ cls e = NetworkErrorC.
Proof.
  intros Hok Hbody. unfold settleResponse, tryCatch, handleResponse, bind.
  rewrite Hbody. cbn. rewrite Hok. cbn. unfold rejectResponse.
  repeat match goal with |- context [if ?b then _ else _] => destruct b end;
    cbn; eexists; split; reflexivity.
Qed.

(** An attempt that is answered in time. *)
Lemma makeRequest_answered (this : MVSEPClient) (w : World) (t st : Z)
    (data : json) :
  answered this (fetches w) t st data ->
  exists r,
    resp_status r = st /\ readBody r = ret data
    /\ makeRequest this w = settleResponse r (afterAttempt this t w).
Proof.
  intros (r & Hnet & [_ Hlt] & Hst & Hbody & _).
  exists r. split; [exact Hst|]. split; [exact Hbody|].
  rewrite makeRequest_unfold, Hnet.
  destruct (Z.leb_spec t (timerDelay (client_timeout this))); [reflexivity|lia].
Qed.

Lemma resp_ok_iff (r : Response) :
  resp_ok r = true <-> 200 <= resp_status r <= 299.
Proof. unfold resp_ok. rewrite andb_true_iff, !Z.leb_le. tauto. Qed.

Lemma makeRequest_success (this : MVSEPClient) (w : World) (t st : Z)
    (data : json) :
  answered this (fetches w) t st data -> 200 <= st <= 299 ->
  makeRequest this w = (Return data, afterAttempt this t w).
Proof.
  intros Ha Hst.
  destruct (makeRequest_answered this w t st data Ha) as (r & Hr & Hbody & ->).
  apply settleResponse_ok; [|exact Hbody].
  apply resp_ok_iff. lia.
Qed.

Lemma makeRequest_failure (this : MVSEPClient) (w : World) (t st : Z)
    (data : json) :
  answered this (fetches w) t st data -> ~ 200 <= st <= 299 ->
  exists r e,
    resp_status r = st
    /\ rejectResponse r data (afterAttempt this t w)
       = (Throw e, afterAttempt this t w)
    /\ makeRequest this w = (Throw e, afterAttempt this t w).
Proof.
  intros Ha Hst.
  destruct (makeRequest_answered this w t st data Ha) as (r & Hr & Hbody & ->).
  destruct Ha as (_ & _ & _ & _ & _ & Hd).
  assert (Hok : resp_ok r = false).
  { destruct (resp_ok r) eqn:E; [|reflexivity].
    apply resp_ok_iff in E. lia. }
  destruct (settleResponse_rejected r data (afterAttempt this t w) Hok Hbody Hd)
    as (e & Hrun & Hsettle).
  exists r, e. repeat split; assumption.
Qed.

(** *** The retry loop *)

Lemma sleep_world (ms : jsNumber) (w : World) :
  now (snd (sleep ms w)) = now w + timerDelayOf ms
  /\ fetches (snd (sleep ms w)) = fetches w
  /\ sleeps (snd (sleep ms w)) = (sleeps w ++ [ms])%list
  /\ progress (snd (sleep ms w)) = progress w.
Proof. repeat split. Qed.

(** One iteration of the loop of [retryWithBackoff]. *)
Lemma retryLoop_step (T : Type) (fn : M T) (config : RetryConfig)
    (isRetryable : JsError -> bool) (n : nat) (attempt : Z)
    (lastError : option JsError) (w : World) :
  attempt <= maxRetries config ->
  retryLoop fn config isRetryable (S n) attempt lastError w =
  match fn w with
  | (Return v, w1) => (Return v, w1)
  | (Throw e, w1) =>
      if negb (isRetryable e) || (attempt =? maxRetries config) then (Throw e, w1)
      else retryLoop fn config isRetryable n (attempt + 1) (Some e)
             (snd (sleep (retryPause e attempt config (now w1)) w1))
  | (ThrowUndefined, w1) => (Throw (typeErrorReading "undefined" "status"), w1)
  | (OutOfFuel, w1) => (OutOfFuel, w1)
  end.
Proof.
  intros Hle. cbn [retryLoop].
  destruct (Z.leb_spec attempt (maxRetries config)); [|lia].
  unfold tryCatch.
  destruct (fn w) as [[v|e| |] w1]; try reflexivity.
  destruct (negb (isRetryable e) || (attempt =? maxRetries config)); reflexivity.
Qed.

Lemma retryLoop_return (T : Type) (fn : M T) (config : RetryConfig)
    (isRetryable : JsError -> bool) (n : nat) (attempt : Z)
    (lastError : option JsError) (w w1 : World) (v : T) :
  attempt <= maxRetries config -> fn w = (Return v, w1) ->
  retryLoop fn config isRetryable (S n) attempt lastError w = (Return v, w1).
Proof. intros Hle Hfn. rewrite retryLoop_step, Hfn by exact Hle. reflexivity. Qed.

Lemma retryLoop_giveUp (T : Type) (fn : M T) (config : RetryConfig)
    (isRetryable : JsError -> bool) (n : nat) (attempt : Z)
    (lastError : option JsError) (w w1 : World) (e : JsError) :
  attempt <= maxRetries config -> fn w = (Throw e, w1) ->
  isRetryable e = false \/ attempt = maxRetries config ->
  retryLoop fn config isRetryable (S n) attempt lastError w = (Throw e, w1).
Proof.
  intros Hle Hfn Hstop. rewrite retryLoop_step, Hfn by exact Hle.
  destruct Hstop as [->| ->]; [reflexivity|].
  rewrite Z.eqb_refl, orb_true_r. reflexivity.
Qed.

Lemma retryLoop_again (T : Type) (fn : M T) (config : RetryConfig)
    (isRetryable : JsError -> bool) (n : nat) (attempt : Z)
    (lastError : option JsError) (w w1 : World) (e : JsError) :
  attempt < maxRetries config -> fn w = (Throw e, w1) ->
  isRetryable e = true ->
  retryLoop fn config isRetryable (S n) attempt lastError w =
  retryLoop fn config isRetryable n (attempt + 1) (Some e)
    (snd (sleep (retryPause e attempt config (now w1)) w1)).
Proof.
  intros Hlt Hfn Hre. rewrite retryLoop_step, Hfn by lia.
  rewrite Hre. destruct (Z.eqb_spec attempt (maxRetries config)); [lia|].
  reflexivity.
Qed.

(** The fuel that [retryWithBackoff] hands to the loop never cuts it short:
    any fuel that covers the attempts left gives the same run. *)
Lemma retryLoop_enough_fuel (T : Type) (fn : M T) (config : RetryConfig)
    (isRetryable : JsError -> bool) (n : nat) :
  forall (attempt : Z) (lastError : option JsError) (w : World),
    maxRetries config + 1 - attempt <= Z.of_nat n ->
    retryLoop fn config isRetryable n attempt lastError w
    = retryLoop fn config isRetryable
        (Z.to_nat (maxRetries config + 1 - attempt)) attempt lastError w.
Proof.
  induction n as [|n IH]; intros attempt lastError w Hn.
  - replace (Z.to_nat (maxRetries config + 1 - attempt)) with 0%nat by lia.
    reflexivity.
  - destruct (Z.leb_spec attempt (maxRetries config)) as [Hle|Hgt].
    + replace (Z.to_nat (maxRetries config + 1 - attempt))
        with (S (Z.to_nat (maxRetries config + 1 - (attempt + 1)))) by lia.
      rewrite !retryLoop_step by exact Hle.
      destruct (fn w) as [[v|e| |] w1]; try reflexivity.
      destruct (negb (isRetryable e) || (attempt =? maxRetries config));
        [reflexivity|].
      apply IH. lia.
    + replace (Z.to_nat (maxRetries config + 1 - attempt)) with 0%nat by lia.
      cbn [retryLoop].
      destruct (Z.leb_spec attempt (maxRetries config)); [lia|reflexivity].
Qed.

(** The loop never takes a call of [fetch] back, and an iteration that
    runs makes one. *)
Lemma retryLoop_fetches_mono (this : MVSEPClient) (config : RetryConfig)
    (n : nat) :
  forall (attempt : Z) (lastError : option JsError) (w : World),
    (fetches w <=
     fetches (snd (retryLoop (makeRequest this) config isRetryableError n
                     attempt lastError w)))%nat.
Proof.
  induction n as [|n IH]; intros attempt lastError w.
  - destruct lastError; cbn; lia.
  - destruct (Z.leb_spec attempt (maxRetries config)) as [Hle|Hgt].
    + rewrite retryLoop_step by exact Hle.
      destruct (makeRequest_oneFetch this w) as (dt & _ & Hf & _).
      destruct (makeRequest this w) as [[v|e| |] w1]; cbn [snd] in *; try lia.
      destruct (negb (isRetryableError e) || (attempt =? maxRetries config));
        cbn [snd]; [lia|].
      etransitivity; [|apply IH]. cbn. lia.
    + cbn [retryLoop].
      destruct (Z.leb_spec attempt (maxRetries config)); [lia|].
      destruct lastError; cbn; lia.
Qed.

Lemma retryLoop_fetches_first (this : MVSEPClient) (config : RetryConfig)
    (n : nat) (attempt : Z) (lastError : option JsError) (w : World) :
  attempt <= maxRetries config ->
  (S (fetches w) <=
   fetches (snd (retryLoop (makeRequest this) config isRetryableError (S n)
                   attempt lastError w)))%nat.
Proof.
  intros Hle. rewrite retryLoop_step by exact Hle.
  destruct (makeRequest_oneFetch this w) as (dt & _ & Hf & _).
  destruct (makeRequest this w) as [[v|e| |] w1]; cbn [snd] in *; try lia.
  destruct (negb (isRetryableError e) || (attempt =? maxRetries config));
    cbn [snd]; [lia|].
  etransitivity; [|apply retryLoop_fetches_mono]. cbn. lia.
Qed.

(** With [maxRetries = 0] a request is one attempt. *)
Lemma request_no_retries (this : MVSEPClient) (w : World) :
  client_maxRetries this = 0 ->
  fetches (snd (request this w)) = S (fetches w)
  /\ sleeps (snd (request this w)) = sleeps w
  /\ (forall v w1, makeRequest this w = (Return v, w1) ->
                   request this w = (Return v, w1))
  /\ (forall e w1, makeRequest this w = (Throw e, w1) ->
                   request this w = (Throw e, w1)).
Proof.
  intros H0. unfold request, retryWithBackoff. cbn [maxRetries].
  rewrite H0. change (Z.to_nat (0 + 1)) with 1%nat.
  rewrite retryLoop_step by (cbn; lia). cbn [maxRetries]. rewrite ?H0.
  destruct (makeRequest_oneFetch this w) as (dt & _ & Hf & Hs & _).
  destruct (makeRequest this w) as [[v|e| |] w1]; cbn [snd] in *;
    rewrite ?orb_true_r; cbn [snd];
    (split; [exact Hf|]); (split; [exact Hs|]);
    split; intros ? ? Heq; inversion Heq; reflexivity.
Qed.

(** *** Requests *)

(** A response outside 2xx whose status has no class of its own becomes
    an [APIError] that carries the status, the body and the headers. *)
Lemma makeRequest_api_error (this : MVSEPClient) (w : World) (t st : Z)
    (data : json) :
  answered this (fetches w) t st data ->
  ~ 200 <= st <= 299 -> ~ In st [429; 401; 403; 400; 422] ->
  exists e,
    makeRequest this w = (Throw e, afterAttempt this t w)
    /\ cls e = APIErrorC /\ status e = Some st /\ response e = Some data.
Proof.
  intros Ha Hst Hother.
  destruct (makeRequest_failure this w t st data Ha Hst)
    as (r & e & Hr & Hrej & Hmk).
  destruct Ha as (_ & _ & _ & _ & _ & Hd).
  destruct (rejectResponse_nonnull r data (afterAttempt this t w) Hd)
    as (e' & Hrun & _ & _ & _ & _ & Hapi).
  rewrite Hrun in Hrej. inversion Hrej; subst e'.
  rewrite Hr in Hapi. destruct (Hapi Hother) as (Hc & Hs & _ & Hresp).
  exists e. repeat split; assumption.
Qed.


(** What the spec asks of a 400 holds when the body can be read: one
    attempt, no pause, and a [ValidationError] with the [errors] of the
    body. *)
Lemma request_400_validation (this : MVSEPClient) (w : World) (t : Z)
    (data : json) :
  0 <= client_maxRetries this ->
  answered this (fetches w) t 400 data ->
  exists errs e,
    getProp data "errors" = ret errs
    /\ e = ValidationError (message e) errs
    /\ request this w = (Throw e, afterAttempt this t w).
Proof.
  intros Hmax Ha.
  destruct (makeRequest_failure this w t 400 data Ha ltac:(lia))
    as (r & e & Hr & Hrej & Hmk).
  destruct Ha as (_ & _ & _ & _ & _ & Hd).
  destruct (rejectResponse_nonnull r data (afterAttempt this t w) Hd)
    as (e' & Hrun & _ & _ & _ & Hval & _).
  rewrite Hrun in Hrej. inversion Hrej; subst e'.
  destruct Hval as (errs & Herrs & He); [left; exact Hr|].
  exists errs, e. split; [exact Herrs|]. split; [exact He|].
  unfold request, retryWithBackoff. cbn [maxRetries].
  destruct (Z.to_nat (client_maxRetries this + 1)) as [|n] eqn:En; [lia|].
  apply retryLoop_giveUp; [cbn; lia | exact Hmk |].
  left. rewrite He. reflexivity.
Qed.

(** C6. A 400 whose body announces JSON and is not JSON (an empty body,
    say) is not classified as a [ValidationError]: [response.json()]
    rejects before the status is looked at, the [catch] block turns the
    [SyntaxError] into a retryable [NetworkError], and with
    [maxRetries >= 1] a second attempt goes out. *)
Theorem request_400_unreadable_body_retried (this : MVSEPClient) (w : World)
    (t : Z) (r : Response) :
  1 <= client_maxRetries this ->
  net (fetches w) = Some (t, Fulfilled r) ->
  t < timerDelay (client_timeout this) ->
  resp_status r = 400 ->
  readBody r = throw syntaxError ->
  (exists e, makeRequest this w = (Throw e, afterAttempt this t w)
             /\ cls e = NetworkErrorC /\ isRetryableError e = true)
  /\ (2 + fetches w <= fetches (snd (request this w)))%nat.
Proof.
  intros Hmax Hnet Hlt Hst Hbody.
  assert (Hmk : makeRequest this w =
                (Throw (NetworkError "Request failed: Unexpected end of JSON input"
                          (Some ("SyntaxError", "Unexpected end of JSON input"))),
                 afterAttempt this t w)).
  { rewrite makeRequest_unfold, Hnet.
    destruct (Z.leb_spec t (timerDelay (client_timeout this))); [|lia].
    apply settleResponse_unreadable. exact Hbody. }
  split.
  { eexists. split; [exact Hmk|]. split; reflexivity. }
  unfold request, retryWithBackoff. cbn [maxRetries].
  destruct (Z.to_nat (client_maxRetries this + 1)) as [|[|n]] eqn:En; try lia.
  erewrite retryLoop_again; [| cbn; lia | exact Hmk | reflexivity].
  etransitivity; [|apply retryLoop_fetches_first; cbn; lia].
  cbn. lia.
Qed.

(** *** Polling *)

Lemma bind_return (A B : Type) (m : M A) (k : A -> M B) (w w1 : World) (a : A) :
  m w = (Return a, w1) -> bind m k w = k a w1.
Proof. intros H. unfold bind. rewrite H. reflexivity. Qed.

Lemma bind_throw (A B : Type) (m : M A) (k : A -> M B) (w w1 : World)
    (e : JsError) :
  m w = (Throw e, w1) -> bind m k w = (Throw e, w1).
Proof. intros H. unfold bind. rewrite H. reflexivity. Qed.

Lemma getProp_run (data : json) (key : string) (w : World) :
  data <> JNull -> getProp data key w = (Return (prop data key), w).
Proof. intros H. rewrite (getProp_nonnull data key H). reflexivity. Qed.

Lemma request_success (this : MVSEPClient) (w : World) (t st : Z) (data : json) :
  0 <= client_maxRetries this ->
  answered this (fetches w) t st data -> 200 <= st <= 299 ->
  request this w = (Return data, afterAttempt this t w).
Proof.
  intros Hmax Ha Hst. unfold request, retryWithBackoff. cbn [maxRetries].
  destruct (Z.to_nat (client_maxRetries this + 1)) as [|n] eqn:En; [lia|].
  apply retryLoop_return; [cbn; lia|].
  apply (makeRequest_success this w t st data Ha Hst).
Qed.

(** One iteration of the polling loop whose status fetch is answered with
    a 2xx and whose callback returns. *)
Lemma pollLoop_poll (n : nat) (this : MVSEPClient) (hash : string)
    (options : PollingOptions) (interval maxDuration startTime : Z)
    (w : World) (t st : Z) (data : json) :
  0 <= client_maxRetries this ->
  now w - startTime <= maxDuration ->
  answered this (fetches w) t st data -> 200 <= st <= 299 ->
  neverThrows options ->
  pollLoop (S n) this hash options interval maxDuration startTime w =
  if isString (prop data "status") "done" then
    (Return data, notified options (snapshot hash data) (afterAttempt this t w))
  else if isString (prop data "status") "error" then
    (Throw (SeparationError "Separation job failed" (Some hash)),
     notified options (snapshot hash data) (afterAttempt this t w))
  else
    pollLoop n this hash options interval maxDuration startTime
      (snd (sleep (Num interval)
              (notified options (snapshot hash data) (afterAttempt this t w)))).
Proof.
  intros Hmax Hnow Ha Hst Hquiet.
  cbn [pollLoop]. rewrite Z.gtb_ltb.
  destruct (Z.ltb_spec maxDuration (now w - startTime)); [lia|].
  pose proof (request_success this w t st data Hmax Ha Hst) as Hreq.
  destruct Ha as (_ & _ & _ & _ & _ & Hd).
  set (w1 := afterAttempt this t w) in *.
  rewrite (bind_return _ _ _ _ _ _ _ Hreq).
  assert (Hcall :
    match onProgress options with
    | Some cb =>
        st0 <- getProp data "status" ;;
        d <- getProp data "data" ;;
        callProgress cb {| st_hash := hash; st_status := st0; st_data := d |}
    | None => ret tt
    end w1 = (Return tt, notified options (snapshot hash data) w1)).
  { unfold notified. destruct (onProgress options) as [cb|] eqn:Ecb; [|reflexivity].
    rewrite (bind_return _ _ _ _ _ _ _ (getProp_run data "status" w1 Hd)).
    rewrite (bind_return _ _ _ _ _ _ _ (getProp_run data "data" w1 Hd)).
    unfold callProgress. rewrite (Hquiet cb Ecb). reflexivity. }
  rewrite (bind_return _ _ _ _ _ _ _ Hcall).
  rewrite (bind_return _ _ _ _ _ _ _ (getProp_run data "status" _ Hd)).
  destruct (isString (prop data "status") "done"); [reflexivity|].
  destruct (isString (prop data "status") "error"); reflexivity.
Qed.

Lemma notified_callback (options : PollingOptions)
    (cb : World -> SeparationStatus -> option JsError) (s : SeparationStatus)
    (w : World) :
  onProgress options = Some cb -> notified options s w = logProgress s w.
Proof. intros H. unfold notified. rewrite H. reflexivity. Qed.

(** C1, as the code has it.  When the status fetches return [waiting],
    [processing] and [done], [waitForSeparation] makes exactly 3 fetches,
    calls the callback 3 times, for the waiting, the processing and the
    done snapshot in this order, sleeps twice, and returns the done
    snapshot. *)
Theorem waitForSeparation_waiting_processing_done (fuel : nat)
    (this : MVSEPClient) (hash : string) (options : PollingOptions)
    (cb : World -> SeparationStatus -> option JsError) (w : World)
    (t0 t1 t2 : Z) (d0 d1 d2 : json) :
  (3 <= fuel)%nat ->
  0 <= client_maxRetries this ->
  onProgress options = Some cb -> neverThrows options ->
  answered this (fetches w) t0 200 d0 ->
  prop d0 "status" = Some (JStr "waiting") ->
  answered this (1 + fetches w) t1 200 d1 ->
  prop d1 "status" = Some (JStr "processing") ->
  answered this (2 + fetches w) t2 200 d2 ->
  prop d2 "status" = Some (JStr "done") ->
  0 <= timerDelay (pollInterval options) ->
  t0 + t1 + 2 * timerDelay (pollInterval options) <= pollMaxDuration options ->
  exists w',
    waitForSeparation fuel this hash options w = (Return d2, w')
    /\ fetches w' = (3 + fetches w)%nat
    /\ progress w' = (progress w ++ [snapshot hash d0; snapshot hash d1;
                                     snapshot hash d2])%list
    /\ sleeps w' = (sleeps w ++ [Num (pollInterval options);
                                 Num (pollInterval options)])%list.
Proof.
  intros Hfuel Hmax Hcb Hquiet Ha0 Hs0 Ha1 Hs1 Ha2 Hs2 Htd Hdur.
  destruct fuel as [|[|[|n]]]; try lia. clear Hfuel.
  assert (Ht0 : 0 <= t0) by (destruct Ha0 as (? & _ & [? _] & _); assumption).
  assert (Ht1 : 0 <= t1) by (destruct Ha1 as (? & _ & [? _] & _); assumption).
  assert (H200 : 200 <= 200 <= 299) by lia.
  unfold waitForSeparation.
  set (sl := pollInterval options) in *.
  set (maxD := pollMaxDuration options) in *.
  (* first poll: waiting *)
  rewrite (pollLoop_poll _ this hash options sl maxD (now w) w t0 200 d0
             Hmax ltac:(lia) Ha0 H200 Hquiet).
  rewrite Hs0. cbn [isString String.eqb Ascii.eqb Bool.eqb].
  rewrite (notified_callback options cb _ _ Hcb).
  set (w1 := snd (sleep (Num sl) (logProgress (snapshot hash d0) (afterAttempt this t0 w)))).
  assert (Hf1 : fetches w1 = (1 + fetches w)%nat) by reflexivity.
  assert (Hn1 : now w1 = now w + t0 + timerDelay sl) by reflexivity.
  rewrite <- Hf1 in Ha1.
  (* second poll: processing *)
  rewrite (pollLoop_poll _ this hash options sl maxD (now w) w1 t1 200 d1
             Hmax ltac:(lia) Ha1 H200 Hquiet).
  rewrite Hs1. cbn [isString String.eqb Ascii.eqb Bool.eqb].
  rewrite (notified_callback options cb _ _ Hcb).
  set (w2 := snd (sleep (Num sl) (logProgress (snapshot hash d1) (afterAttempt this t1 w1)))).
  assert (Hf2 : fetches w2 = (2 + fetches w)%nat) by reflexivity.
  assert (Hn2 : now w2 = now w + t0 + timerDelay sl + t1 + timerDelay sl)
    by reflexivity.
  rewrite <- Hf2 in Ha2.
  (* third poll: done *)
  rewrite (pollLoop_poll _ this hash options sl maxD (now w) w2 t2 200 d2
             Hmax ltac:(lia) Ha2 H200 Hquiet).
  rewrite Hs2. cbn [isString String.eqb Ascii.eqb Bool.eqb].
  rewrite (notified_callback options cb _ _ Hcb).
  eexists. split; [reflexivity|].
  split; [reflexivity|].
  split; cbn; rewrite <- !app_assoc; reflexivity.
Qed.

(** C9. An error thrown by the callback leaves [waitForSeparation] as it
    is: in whatever iteration it happens the loop ends with this error,
    right after the call, with no sleep and no further fetch. *)
Theorem onProgress_error_propagates (fuel : nat) (this : MVSEPClient)
    (hash : string) (options : PollingOptions)
    (cb : World -> SeparationStatus -> option JsError) (w : World)
    (t st : Z) (data : json) (e : JsError) :
  0 <= client_maxRetries this ->
  answered this (fetches w) t st data -> 200 <= st <= 299 ->
  onProgress options = Some cb ->
  cb (afterAttempt this t w) (snapshot hash data) = Some e ->
  (forall interval maxDuration startTime,
      now w - startTime <= maxDuration ->
      pollLoop (S fuel) this hash options interval maxDuration startTime w
      = (Throw e, logProgress (snapshot hash data) (afterAttempt this t w)))
  /\ (0 <= pollMaxDuration options ->
      waitForSeparation (S fuel) this hash options w
      = (Throw e, logProgress (snapshot hash data) (afterAttempt this t w)))
  /\ fetches (logProgress (snapshot hash data) (afterAttempt this t w))
     = S (fetches w)
  /\ sleeps (logProgress (snapshot hash data) (afterAttempt this t w))
     = sleeps w.
Proof.
  intros Hmax Ha Hst Hcb Hthrows.
  assert (Hloop : forall interval maxDuration startTime,
      now w - startTime <= maxDuration ->
      pollLoop (S fuel) this hash options interval maxDuration startTime w
      = (Throw e, logProgress (snapshot hash data) (afterAttempt this t w))).
  { intros interval maxDuration startTime Hnow.
    cbn [pollLoop]. rewrite Z.gtb_ltb.
    destruct (Z.ltb_spec maxDuration (now w - startTime)); [lia|].
    pose proof (request_success this w t st data Hmax Ha Hst) as Hreq.
    destruct Ha as (_ & _ & _ & _ & _ & Hd).
    rewrite (bind_return _ _ _ _ _ _ _ Hreq).
    apply bind_throw. rewrite Hcb.
    rewrite (bind_return _ _ _ _ _ _ _ (getProp_run data "status" _ Hd)).
    rewrite (bind_return _ _ _ _ _ _ _ (getProp_run data "data" _ Hd)).
    unfold callProgress. fold (snapshot hash data). rewrite Hthrows.
    reflexivity. }
  split; [exact Hloop|].
  split; [|split; reflexivity].
  intros Hdur. unfold waitForSeparation. apply Hloop. lia.
Qed.

(** The deadline check at the head of the loop. *)
Lemma pollLoop_deadline (fuel : nat) (this : MVSEPClient) (hash : string)
    (options : PollingOptions) (interval maxDuration startTime : Z) (w : World) :
  maxDuration < now w - startTime ->
  pollLoop (S fuel) this hash options interval maxDuration startTime w
  = (Throw (pollTimedOut maxDuration), w).
Proof.
  intros Hlate. cbn [pollLoop]. rewrite Z.gtb_ltb.
  destruct (Z.ltb_spec maxDuration (now w - startTime)); [reflexivity|lia].
Qed.

Lemma now_after_poll (this : MVSEPClient) (options : PollingOptions)
    (s : SeparationStatus) (interval t : Z) (w : World) :
  now (snd (sleep (Num interval) (notified options s (afterAttempt this t w))))
  = now w + t + timerDelay interval.
Proof. unfold notified. destruct (onProgress options); reflexivity. Qed.

Section StuckJob.

Variable this : MVSEPClient.
Variable hash : string.
Variable options : PollingOptions.
Variables interval maxDuration startTime : Z.

Hypothesis retries_nonneg : 0 <= client_maxRetries this.
Hypothesis callback_quiet : neverThrows options.
Hypothesis job_stuck : alwaysProcessing this.
Hypothesis sleep_takes_time : 0 < timerDelay interval.

(** One round of a stuck job: a fetch, the callback, a sleep. *)
Lemma pollLoop_stuck_round (n : nat) (w : World) :
  now w - startTime <= maxDuration ->
  exists t data,
    0 <= t
    /\ pollLoop (S n) this hash options interval maxDuration startTime w
       = pollLoop n this hash options interval maxDuration startTime
           (snd (sleep (Num interval)
                   (notified options (snapshot hash data) (afterAttempt this t w)))).
Proof.
  intros Hin.
  destruct (job_stuck (fetches w)) as (t & data & Ha & Hs).
  exists t, data. split; [destruct Ha as (? & _ & [? _] & _); assumption|].
  rewrite (pollLoop_poll n this hash options interval maxDuration startTime
             w t 200 data retries_nonneg Hin Ha ltac:(lia) callback_quiet).
  rewrite Hs. reflexivity.
Qed.

(** The time left before the deadline bounds the rounds that are left. *)
Lemma pollLoop_stuck_times_out (fuel : nat) :
  forall w : World,
    Z.max 0 (maxDuration - (now w - startTime) + 1) < Z.of_nat fuel ->
    exists w',
      pollLoop fuel this hash options interval maxDuration startTime w
      = (Throw (pollTimedOut maxDuration), w').
Proof.
  induction fuel as [|n IH]; intros w Hfuel; [lia|].
  destruct (Z.ltb_spec maxDuration (now w - startTime)) as [Hlate|Hin].
  - exists w. apply pollLoop_deadline. exact Hlate.
  - destruct (pollLoop_stuck_round n w Hin) as (t & data & Ht & ->).
    apply IH. rewrite now_after_poll. lia.
Qed.

Lemma pollLoop_stuck_never_returns (fuel : nat) :
  forall (w w' : World) (v : json),
    pollLoop fuel this hash options interval maxDuration startTime w
    <> (Return v, w').
Proof.
  induction fuel as [|n IH]; intros w w' v; [discriminate|].
  destruct (Z.ltb_spec maxDuration (now w - startTime)) as [Hlate|Hin].
  - rewrite pollLoop_deadline by exact Hlate. discriminate.
  - destruct (pollLoop_stuck_round n w Hin) as (t & data & Ht & ->).
    apply IH.
Qed.

End StuckJob.

(** A request of a client with [maxRetries >= 0] makes a call, and no
    request takes one back. *)
Lemma request_fetches (this : MVSEPClient) (w : World) :
  (fetches w <= fetches (snd (request this w)))%nat
  /\ (0 <= client_maxRetries this ->
      (S (fetches w) <= fetches (snd (request this w)))%nat).
Proof.
  unfold request, retryWithBackoff. cbn [maxRetries].
  split; [apply retryLoop_fetches_mono|].
  intros Hmax.
  destruct (Z.to_nat (client_maxRetries this + 1)) as [|n] eqn:En; [lia|].
  apply retryLoop_fetches_first. cbn. lia.
Qed.

(** Calling the callback makes no call of [fetch]. *)
Lemma callProgress_fetches (options : PollingOptions) (hash : string)
    (status : json) (w : World) :
  fetches
    (snd (match onProgress options with
          | Some cb =>
              st <- getProp status "status" ;;
              d <- getProp status "data" ;;
              callProgress cb {| st_hash := hash; st_status := st; st_data := d |}
          | None => ret tt
          end w))
  = fetches w.
Proof.
  destruct (onProgress options) as [cb|]; [|reflexivity].
  unfold bind, callProgress.
  destruct status; cbn; try reflexivity;
    match goal with |- context [cb ?w0 ?s] => destruct (cb w0 s) end;
    reflexivity.
Qed.

(** The polling loop never takes a call of [fetch] back. *)
Lemma pollLoop_fetches_mono (this : MVSEPClient) (hash : string)
    (options : PollingOptions) (interval maxDuration startTime : Z)
    (fuel : nat) :
  forall w : World,
    (fetches w <=
     fetches (snd (pollLoop fuel this hash options interval maxDuration
                     startTime w)))%nat.
Proof.
  induction fuel as [|n IH]; intros w; [cbn; lia|].
  cbn [pollLoop].
  destruct (now w - startTime >? maxDuration); [cbn; lia|].
  unfold bind at 1. unfold getSeparation.
  pose proof (proj1 (request_fetches this w)) as Hreq.
  destruct (request this w) as [[status|e| |] w1]; cbn [snd] in *;
    try exact Hreq.
  unfold bind at 1.
  pose proof (callProgress_fetches options hash status w1) as Hcb.
  match goal with
  | |- context [match ?m with _ => _ end] =>
      match m with
      | context [onProgress options] =>
          destruct m as [[u|e| |] w2]
      end
  end; cbn [snd] in *; try lia.
  unfold bind at 1.
  pose proof (getProp_world status "status" w2) as Hg.
  destruct (getProp status "status" w2) as [[st|e| |] w3]; cbn [snd] in *;
    subst w3; try lia.
  destruct (isString st "done"); [cbn; lia|].
  destruct (isString st "error"); [cbn; lia|].
  unfold bind. cbn [sleep].
  etransitivity; [|apply IH]. cbn. lia.
Qed.

(** The head of an iteration: the deadline check comes first and decides
    whether the status fetch is made. *)
Lemma pollLoop_head (fuel : nat) (this : MVSEPClient) (hash : string)
    (options : PollingOptions) (interval maxDuration startTime : Z) (w : World) :
  (maxDuration < now w - startTime ->
   pollLoop (S fuel) this hash options interval maxDuration startTime w
   = (Throw (pollTimedOut maxDuration), w))
  /\ (now w - startTime <= maxDuration ->
      0 <= client_maxRetries this ->
      (S (fetches w) <=
       fetches (snd (pollLoop (S fuel) this hash options interval maxDuration
                       startTime w)))%nat).
Proof.
  split; [apply pollLoop_deadline|].
  intros Hin Hmax.
  pose proof (pollLoop_fetches_mono this hash options interval maxDuration
                startTime) as Hmono.
  cbn [pollLoop]. rewrite Z.gtb_ltb.
  destruct (Z.ltb_spec maxDuration (now w - startTime)); [lia|].
  unfold bind at 1. unfold getSeparation.
  pose proof (proj2 (request_fetches this w) Hmax) as Hreq.
  destruct (request this w) as [[status|e| |] w1]; cbn [snd] in *;
    try exact Hreq.
  unfold bind at 1.
  pose proof (callProgress_fetches options hash status w1) as Hcb.
  match goal with
  | |- context [match ?m with _ => _ end] =>
      match m with
      | context [onProgress options] =>
          destruct m as [[u|e| |] w2]
      end
  end; cbn [snd] in *; try lia.
  unfold bind at 1.
  pose proof (getProp_world status "status" w2) as Hg.
  destruct (getProp status "status" w2) as [[st|e| |] w3]; cbn [snd] in *;
    subst w3; try lia.
  destruct (isString st "done"); [cbn; lia|].
  destruct (isString st "error"); [cbn; lia|].
  unfold bind. cbn [sleep].
  etransitivity; [|apply Hmono]. cbn. lia.
Qed.


(** The loop reads nothing of [options] but the callback. *)
Lemma pollLoop_same_callback (this : MVSEPClient) (hash : string)
    (o1 o2 : PollingOptions) (interval maxDuration startTime : Z) (fuel : nat) :
  onProgress o1 = onProgress o2 ->
  forall w,
    pollLoop fuel this hash o1 interval maxDuration startTime w
    = pollLoop fuel this hash o2 interval maxDuration startTime w.
Proof.
  intros Hcb. induction fuel as [|n IH]; intros w; [reflexivity|].
  cbn [pollLoop].
  destruct (now w - startTime >? maxDuration); [reflexivity|].
  unfold bind.
  destruct (getSeparation this hash w) as [[status|e| |] w1]; try reflexivity.
  rewrite Hcb.
  match goal with
  | |- match ?m with _ => _ end = _ => destruct m as [[u|e| |] w2]
  end; try reflexivity.
  destruct (getProp status "status" w2) as [[st|e| |] w3]; try reflexivity.
  destruct (isString st "done"); [reflexivity|].
  destruct (isString st "error"); [reflexivity|].
  cbn. apply IH.
Qed.

(** C10. [maxRetries: 0] is kept, and a request of such a client is
    exactly one attempt; a zero [timeout] or [retryDelay], an empty
    [baseURL], and a zero polling [interval] or [maxDuration] give way to
    the defaults, so that polling with a zero runs as polling with the
    default does. *)
Theorem zero_options_and_defaults (config : MVSEPConfig) (this : MVSEPClient) :
  newMVSEPClient config = inr this ->
  (cfg_maxRetries config = Some 0 ->
     client_maxRetries this = 0
     /\ forall w, fetches (snd (request this w)) = S (fetches w))
  /\ (cfg_timeout config = Some 0 -> client_timeout this = 30000)
  /\ (cfg_retryDelay config = Some 0 -> client_retryDelay this = 1000)
  /\ (cfg_baseURL config = Some "" -> client_baseURL this = "https://mvsep.com")
  /\ (forall options, interval options = Some 0 -> pollInterval options = 5000)
  /\ (forall options, maxDuration options = Some 0 ->
                      pollMaxDuration options = 1800000)
  /\ (forall fuel hash duration cb w,
        waitForSeparation fuel this hash
          {| interval := Some 0; maxDuration := duration; onProgress := cb |} w
        = waitForSeparation fuel this hash
            {| interval := Some 5000; maxDuration := duration; onProgress := cb |} w)
  /\ (forall fuel hash pause cb w,
        waitForSeparation fuel this hash
          {| interval := pause; maxDuration := Some 0; onProgress := cb |} w
        = waitForSeparation fuel this hash
            {| interval := pause; maxDuration := Some 1800000; onProgress := cb |} w).
Proof.
  unfold newMVSEPClient.
  destruct (orString (cfg_apiToken config) "" =? "")%string; [discriminate|].
  intros Hnew. inversion Hnew as [Hthis]. clear Hnew.
  split.
  { intros H0.
    assert (Hm : client_maxRetries this = 0)
      by (rewrite <- Hthis; cbn; rewrite H0; reflexivity).
    rewrite Hthis. split; [exact Hm|].
    intros w. apply request_no_retries. exact Hm. }
  rewrite Hthis.
  split; [intros H; rewrite <- Hthis; cbn; rewrite H; reflexivity|].
  split; [intros H; rewrite <- Hthis; cbn; rewrite H; reflexivity|].
  split; [intros H; rewrite <- Hthis; cbn; rewrite H; reflexivity|].
  split; [intros options H; unfold pollInterval; rewrite H; reflexivity|].
  split; [intros options H; unfold pollMaxDuration; rewrite H; reflexivity|].
  split; intros; unfold waitForSeparation;
    apply pollLoop_same_callback; reflexivity.
Qed.

(* ===================================================================== *)
(** ** Further properties of the retry loop and of one request *)
(* ===================================================================== *)

(** The configuration that [request] hands to [retryWithBackoff]. *)
Lemma request_unfold (this : MVSEPClient) (w : World) :
  request this w =
  retryLoop (makeRequest this)
    {| maxRetries := client_maxRetries this;
       retryDelay := client_retryDelay this;
       timeout := client_timeout this |}
    isRetryableError (Z.to_nat (client_maxRetries this + 1)) 0 None w.
Proof. reflexivity. Qed.

Lemma json_null_dec (data : json) : {data = JNull} + {data <> JNull}.
Proof. destruct data; first [left; reflexivity | right; discriminate]. Qed.

(** With exactly the fuel of the attempts left, the loop makes between one
    and all of them, and sleeps once between two attempts. *)
Lemma retryLoop_counts (this : MVSEPClient) (config : RetryConfig) (n : nat) :
  forall (attempt : Z) (lastError : option JsError) (w : World),
    (1 <= n)%nat ->
    Z.of_nat n = maxRetries config + 1 - attempt ->
    exists k,
      (1 <= k <= n)%nat
      /\ fetches (snd (retryLoop (makeRequest this) config isRetryableError n
                         attempt lastError w)) = (fetches w + k)%nat
      /\ List.length (sleeps (snd (retryLoop (makeRequest this) config
                                     isRetryableError n attempt lastError w)))
         = (List.length (sleeps w) + (k - 1))%nat
      /\ progress (snd (retryLoop (makeRequest this) config isRetryableError n
                          attempt lastError w)) = progress w.
Proof.
  induction n as [|n IH]; intros attempt lastError w Hn Hfuel; [lia|].
  assert (Hle : attempt <= maxRetries config) by lia.
  rewrite retryLoop_step by exact Hle.
  destruct (makeRequest_oneFetch this w) as (dt & _ & Hf & Hs & Hp).
  destruct (makeRequest this w) as [[v|e| |] w1]; cbn [snd] in *;
    try (exists 1%nat; rewrite Hf, Hs, Hp; repeat split; lia).
  destruct (negb (isRetryableError e)); cbn [orb].
  { exists 1%nat. cbn [snd]. rewrite Hf, Hs, Hp. repeat split; lia. }
  destruct (Z.eqb_spec attempt (maxRetries config)) as [Hlast|Hmore].
  { exists 1%nat. cbn [snd]. rewrite Hf, Hs, Hp. repeat split; lia. }
  destruct (IH (attempt + 1) (Some e)
              (snd (sleep (retryPause e attempt config (now w1)) w1))
              ltac:(lia) ltac:(lia)) as (k & Hk & Hfk & Hsk & Hpk).
  exists (S k). rewrite Hfk, Hsk, Hpk. cbn [snd sleep elapse logSleep fetches sleeps progress].
  rewrite Hf, Hs, Hp, length_app. cbn [List.length].
  repeat split; lia.
Qed.

(** X1. A request of a client with [maxRetries >= 0] calls [fetch] at
    least once and at most [maxRetries + 1] times, sleeps exactly once
    between two calls, and never calls the progress callback. *)
Theorem request_attempts_bounded (this : MVSEPClient) (w : World) :
  0 <= client_maxRetries this ->
  exists k,
    (1 <= k)%nat /\ Z.of_nat k <= client_maxRetries this + 1
    /\ fetches (snd (request this w)) = (fetches w + k)%nat
    /\ List.length (sleeps (snd (request this w)))
       = (List.length (sleeps w) + (k - 1))%nat
    /\ progress (snd (request this w)) = progress w.
Proof.
  intros Hmax. rewrite request_unfold.
  destruct (retryLoop_counts this
              {| maxRetries := client_maxRetries this;
                 retryDelay := client_retryDelay this;
                 timeout := client_timeout this |}
              (Z.to_nat (client_maxRetries this + 1)) 0 None w
              ltac:(lia) ltac:(cbn; lia)) as (k & Hk & Hf & Hs & Hp).
  exists k. repeat split; try assumption; lia.
Qed.

(** X2. With a negative [maxRetries] the loop body never runs: the request
    makes no call at all and rejects with [undefined], the initial value of
    [lastError]. *)
Theorem request_negative_maxRetries (this : MVSEPClient) (w : World) :
  client_maxRetries this < 0 ->
  request this w = (ThrowUndefined, w).
Proof.
  intros Hneg. rewrite request_unfold.
  replace (Z.to_nat (client_maxRetries this + 1)) with 0%nat by lia.
  reflexivity.
Qed.

(** The body is read, or it announces JSON and is not JSON. *)
Lemma readBody_cases (r : Response) (w : World) :
  (exists data, readBody r = ret data) \/ readBody r = throw syntaxError.
Proof.
  unfold readBody.
  destruct (headersGet "content-type" r) as [contentType|];
    [destruct (includes "application/json" contentType);
     [destruct (resp_json r) as [data|]|]|];
    first [right; reflexivity | left; eexists; reflexivity].
Qed.

(** What one attempt can end in, once the response is there. *)
Lemma settleResponse_class (r : Response) (w : World) :
  match fst (settleResponse r w) with
  | Return _ => True
  | Throw e => instanceofMVSEPError e = true /\ requestErrorClass (cls e)
  | _ => False
  end.
Proof.
  destruct (readBody_cases r w) as [[data Hbody]|Hbody].
  2: { rewrite (settleResponse_unreadable r w Hbody). cbn.
       split; [reflexivity|]. unfold requestErrorClass. tauto. }
  destruct (resp_ok r) eqn:Hok.
  { rewrite (settleResponse_ok r data w Hok Hbody). exact I. }
  destruct (json_null_dec data) as [Hnull|Hd].
  { subst data.
    destruct (settleResponse_null r w Hok Hbody) as (e & -> & Hc).
    cbn [fst]. unfold instanceofMVSEPError, requestErrorClass.
    rewrite Hc. tauto. }
  destruct (settleResponse_rejected r data w Hok Hbody Hd) as (e & Hrun & ->).
  cbn [fst].
  destruct (rejectResponse_nonnull r data w Hd)
    as (e' & Hrun' & Hsdk & H429 & Hauth & Hval & Hapi).
  rewrite Hrun' in Hrun. inversion Hrun; subst e'.
  split; [exact Hsdk|].
  unfold requestErrorClass.
  destruct (Z.eq_dec (resp_status r) 429) as [E1|E1];
    [rewrite (H429 E1); tauto|].
  destruct (Z.eq_dec (resp_status r) 401) as [E2|E2];
    [rewrite (Hauth (or_introl E2)); cbn; tauto|].
  destruct (Z.eq_dec (resp_status r) 403) as [E3|E3];
    [rewrite (Hauth (or_intror E3)); cbn; tauto|].
  destruct (Z.eq_dec (resp_status r) 400) as [E4|E4];
    [destruct (Hval (or_introl E4)) as (errs & _ & ->); cbn; tauto|].
  destruct (Z.eq_dec (resp_status r) 422) as [E5|E5];
    [destruct (Hval (or_intror E5)) as (errs & _ & ->); cbn; tauto|].
  destruct Hapi as (Hc & _); [simpl; lia|]. rewrite Hc. tauto.
Qed.

Lemma normalizeError_native (e : JsError) (w : World) :
  instanceofMVSEPError e = false ->
  exists e', normalizeError (Some e) w = (Throw e', w)
             /\ cls e' = NetworkErrorC
             /\ cause e' = Some (nativeName e, messageText (message e))
             /\ headers e' = None.
Proof.
  intros Hnative. unfold normalizeError. rewrite Hnative.
  assert (Hto : instanceofTimeoutError e = false).
  { revert Hnative. unfold instanceofMVSEPError, instanceofTimeoutError.
    destruct (cls e); congruence. }
  rewrite Hto.
  destruct ((nativeName e =? "TypeError")%string
            || (nullish (code e) "" =? "ECONNREFUSED")%string);
    eexists; repeat split.
Qed.

(** What one attempt can end in. *)
Lemma makeRequest_class (this : MVSEPClient) (w : World) :
  match fst (makeRequest this w) with
  | Return _ => True
  | Throw e =>
      instanceofMVSEPError e = true
      /\ ((forall t e0, net (fetches w) = Some (t, Rejected e0) ->
                        instanceofMVSEPError e0 = false) ->
          requestErrorClass (cls e))
  | _ => False
  end.
Proof.
  rewrite makeRequest_unfold.
  destruct (net (fetches w)) as [[t [resp|e0]]|] eqn:Hnet.
  - destruct (t <=? timerDelay (client_timeout this)).
    + pose proof (settleResponse_class resp (afterAttempt this t w)) as H.
      destruct (fst (settleResponse resp (afterAttempt this t w))); try exact H.
      split; [apply H | intros _; apply H].
    + cbn. split; [reflexivity|]. intros _. unfold requestErrorClass. tauto.
  - destruct (t <=? timerDelay (client_timeout this)).
    + destruct (instanceofMVSEPError e0) eqn:Hsdk.
      * rewrite (normalizeError_MVSEP e0 _ Hsdk). cbn [fst].
        split; [exact Hsdk|]. intros Hnat.
        rewrite (Hnat t e0 eq_refl) in Hsdk. discriminate.
      * destruct (normalizeError_native e0 (afterAttempt this t w) Hsdk)
          as (e' & -> & Hc & _).
        cbn [fst]. unfold instanceofMVSEPError, requestErrorClass.
        rewrite Hc. tauto.
    + cbn. split; [reflexivity|]. intros _. unfold requestErrorClass. tauto.
  - cbn. split; [reflexivity|]. intros _. unfold requestErrorClass. tauto.
Qed.

(** The loop passes on what an attempt ends in. *)
Lemma retryLoop_outcome (T : Type) (fn : M T) (config : RetryConfig)
    (isRetryable : JsError -> bool) (P : JsError -> Prop) :
  (forall w, match fst (fn w) with
             | Return _ => True
             | Throw e => P e
             | _ => False
             end) ->
  forall (n : nat) (attempt : Z) (lastError : option JsError) (w : World),
    (1 <= n)%nat ->
    Z.of_nat n = maxRetries config + 1 - attempt ->
    match fst (retryLoop fn config isRetryable n attempt lastError w) with
    | Return _ => True
    | Throw e => P e
    | _ => False
    end.
Proof.
  intros Hfn. induction n as [|n IH]; intros attempt lastError w Hn Hfuel; [lia|].
  rewrite retryLoop_step by lia.
  pose proof (Hfn w) as Hw.
  destruct (fn w) as [[v|e| |] w1]; cbn [fst] in *;
    try exact Hw; try contradiction.
  destruct (negb (isRetryable e)); cbn [orb]; [exact Hw|].
  destruct (Z.eqb_spec attempt (maxRetries config)); [exact Hw|].
  apply IH; lia.
Qed.

(** X3. Whatever the server does, a request of a client with
    [maxRetries >= 0] returns or throws an error of the SDK; and when
    [fetch] rejects only with errors of its own, the error is a Network,
    Timeout, RateLimit, Authentication, Validation or API error. *)
Theorem request_throws_sdk_errors (this : MVSEPClient) (w : World) :
  0 <= client_maxRetries this ->
  match fst (request this w) with
  | Return _ => True
  | Throw e =>
      instanceofMVSEPError e = true
      /\ ((forall i t e0, net i = Some (t, Rejected e0) ->
                          instanceofMVSEPError e0 = false) ->
          requestErrorClass (cls e))
  | _ => False
  end.
Proof.
  intros Hmax. rewrite request_unfold.
  apply (retryLoop_outcome json (makeRequest this) _ isRetryableError
           (fun e => instanceofMVSEPError e = true
                     /\ ((forall i t e0, net i = Some (t, Rejected e0) ->
                                         instanceofMVSEPError e0 = false) ->
                         requestErrorClass (cls e)))).
  - intros w0. pose proof (makeRequest_class this w0) as H.
    destruct (fst (makeRequest this w0)); try exact H.
    split; [apply H|]. intros Hnat. apply H. intros t e0. apply Hnat.
  - lia.
  - cbn. lia.
Qed.

(** *** A server that cannot be reached *)

Lemma makeRequest_unreachable (this : MVSEPClient) (w : World) :
  unreachable this (fetches w) ->
  exists e dt,
    makeRequest this w = (Throw e, afterAttempt this dt w)
    /\ (cls e = TimeoutErrorC \/ cls e = NetworkErrorC)
    /\ isRetryableError e = true
    /\ forall attempt config nowMs,
         retryPause e attempt config nowMs
         = calculateBackoff attempt (retryDelay config).
Proof.
  intros Hun. rewrite makeRequest_unfold.
  destruct Hun as [Hnet|[(t & r & Hnet & Hlate)|(t & e0 & Hnet & Hlt & Hnat)]];
    rewrite Hnet.
  - eexists _, _. split; [reflexivity|]. repeat split. left. reflexivity.
  - destruct (Z.leb_spec t (timerDelay (client_timeout this))); [lia|].
    eexists _, _. split; [reflexivity|]. repeat split. left. reflexivity.
  - destruct (Z.leb_spec t (timerDelay (client_timeout this))); [|lia].
    destruct (normalizeError_native e0 (afterAttempt this t w) Hnat)
      as (e' & -> & Hc & _ & Hh).
    exists e', t. split; [reflexivity|].
    split; [right; exact Hc|].
    split.
    + unfold isRetryableError, instanceofNetworkError. rewrite Hc. reflexivity.
    + intros attempt config nowMs. unfold retryPause, instanceofRateLimitError.
      rewrite Hc, Hh. reflexivity.
Qed.

Lemma retryLoop_unreachable (this : MVSEPClient) (config : RetryConfig) :
  (forall i, unreachable this i) ->
  forall (n : nat) (attempt : Z) (lastError : option JsError) (w : World),
    Z.of_nat (S n) = maxRetries config + 1 - attempt ->
    exists e w',
      retryLoop (makeRequest this) config isRetryableError (S n) attempt
        lastError w = (Throw e, w')
      /\ (cls e = TimeoutErrorC \/ cls e = NetworkErrorC)
      /\ fetches w' = (fetches w + S n)%nat
      /\ sleeps w' = (sleeps w ++ backoffFrom attempt n (retryDelay config))%list
      /\ progress w' = progress w.
Proof.
  intros Hun. induction n as [|n IH]; intros attempt lastError w Hfuel.
  - destruct (makeRequest_unreachable this w (Hun _))
      as (e & dt & Hmk & Hc & Hre & _).
    exists e, (afterAttempt this dt w).
    split.
    { apply retryLoop_giveUp; [lia | exact Hmk | right; lia]. }
    split; [exact Hc|]. cbn. rewrite app_nil_r, Nat.add_1_r. repeat split.
  - destruct (makeRequest_unreachable this w (Hun _))
      as (e & dt & Hmk & Hc & Hre & Hpause).
    rewrite (retryLoop_again _ _ config _ _ attempt _ _ _ e ltac:(lia) Hmk Hre).
    rewrite Hpause.
    destruct (IH (attempt + 1) (Some e)
                (snd (sleep (calculateBackoff attempt (retryDelay config))
                        (afterAttempt this dt w)))
                ltac:(lia)) as (e' & w' & Hrun & Hc' & Hf & Hs & Hp).
    exists e', w'. split; [exact Hrun|]. split; [exact Hc'|].
    rewrite Hf, Hs, Hp. cbn. rewrite <- app_assoc. repeat split. lia.
Qed.

(** X4. Against a server that cannot be reached (every call hangs, comes
    back only after the request timeout has fired, or is rejected by
    [fetch] with an error of its own), a request
    with [maxRetries >= 0] makes exactly [maxRetries + 1] calls, sleeps the
    exponential backoff of attempt 0, 1, ..., [maxRetries - 1] between
    them, and ends in a Timeout or Network error. *)
Theorem request_unreachable_server (this : MVSEPClient) (w : World) :
  0 <= client_maxRetries this ->
  (forall i, unreachable this i) ->
  exists e w',
    request this w = (Throw e, w')
    /\ (cls e = TimeoutErrorC \/ cls e = NetworkErrorC)
    /\ Z.of_nat (fetches w') = Z.of_nat (fetches w) + client_maxRetries this + 1
    /\ sleeps w'
       = (sleeps w ++ backoffFrom 0 (Z.to_nat (client_maxRetries this))
                        (client_retryDelay this))%list.
Proof.
  intros Hmax Hun. rewrite request_unfold.
  replace (Z.to_nat (client_maxRetries this + 1))
    with (S (Z.to_nat (client_maxRetries this))) by lia.
  destruct (retryLoop_unreachable this
              {| maxRetries := client_maxRetries this;
                 retryDelay := client_retryDelay this;
                 timeout := client_timeout this |}
              Hun (Z.to_nat (client_maxRetries this)) 0 None w
              ltac:(cbn; lia)) as (e & w' & Hrun & Hc & Hf & Hs & _).
  exists e, w'. split; [exact Hrun|]. split; [exact Hc|].
  split; [rewrite Hf; lia | exact Hs].
Qed.

(** *** The pause before the next attempt *)

Lemma rejectResponse_429 (r : Response) (data : json) (w : World) :
  resp_status r = 429 -> data <> JNull ->
  rejectResponse r data w =
  (Throw (RateLimitError 429 (resp_statusText r)
            (orValue (prop data "message") (JStr "Rate limit exceeded"))
            (Some data)
            (Some (parseRetryAfter (now w) (headersGet "retry-after" r)))), w).
Proof.
  intros Hst Hd. unfold rejectResponse. rewrite Hst. cbn [Z.eqb Pos.eqb].
  rewrite (bind_return _ _ _ _ _ _ _ (getProp_run data "message" w Hd)).
  reflexivity.
Qed.


Lemma rejectResponse_other (r : Response) (data : json) (w : World) :
  ~ In (resp_status r) [429; 401; 403; 400; 422] -> data <> JNull ->
  rejectResponse r data w =
  (Throw (APIError (resp_status r) (resp_statusText r)
            (orValue (prop data "message")
               (JStr ("API request failed with status " ++ showZ (resp_status r))))
            (Some data) (Some (resp_headers r))), w).
Proof.
  intros Hst Hd. unfold rejectResponse. simpl in Hst.
  destruct (Z.eqb_spec (resp_status r) 429); [lia|].
  destruct (Z.eqb_spec (resp_status r) 401); [lia|].
  destruct (Z.eqb_spec (resp_status r) 403); [lia|].
  destruct (Z.eqb_spec (resp_status r) 400); [lia|].
  destruct (Z.eqb_spec (resp_status r) 422); [lia|].
  cbn [orb].
  rewrite (bind_return _ _ _ _ _ _ _ (getProp_run data "message" w Hd)).
  reflexivity.
Qed.


(** *** Responses that are not retried *)

Lemma rejectResponse_auth (r : Response) (data : json) (w : World) :
  resp_status r = 401 \/ resp_status r = 403 -> data <> JNull ->
  rejectResponse r data w =
  (Throw (AuthenticationError
            (orValue (prop data "message") (JStr "Authentication failed"))), w).
Proof.
  intros Hst Hd. unfold rejectResponse.
  destruct (Z.eqb_spec (resp_status r) 429); [lia|].
  replace ((resp_status r =? 401) || (resp_status r =? 403)) with true
    by (symmetry; apply orb_true_iff; rewrite !Z.eqb_eq; exact Hst).
  rewrite (bind_return _ _ _ _ _ _ _ (getProp_run data "message" w Hd)).
  reflexivity.
Qed.

Lemma rejectResponse_validation (r : Response) (data : json) (w : World) :
  resp_status r = 400 \/ resp_status r = 422 -> data <> JNull ->
  rejectResponse r data w =
  (Throw (ValidationError
            (orValue (prop data "message") (JStr "Validation failed"))
            (prop data "errors")), w).
Proof.
  intros Hst Hd. unfold rejectResponse.
  destruct (Z.eqb_spec (resp_status r) 429); [lia|].
  replace ((resp_status r =? 401) || (resp_status r =? 403)) with false
    by (symmetry; apply orb_false_iff; rewrite !Z.eqb_neq; lia).
  replace ((resp_status r =? 400) || (resp_status r =? 422)) with true
    by (symmetry; apply orb_true_iff; rewrite !Z.eqb_eq; exact Hst).
  rewrite (bind_return _ _ _ _ _ _ _ (getProp_run data "message" w Hd)).
  rewrite (bind_return _ _ _ _ _ _ _ (getProp_run data "errors" w Hd)).
  reflexivity.
Qed.

(** A request whose first answer is classified as an error that is not
    retryable ends with this error after one attempt. *)
Lemma request_not_retried (this : MVSEPClient) (w : World) (t st : Z)
    (data : json) (e : JsError) :
  0 <= client_maxRetries this ->
  answered this (fetches w) t st data -> ~ 200 <= st <= 299 ->
  (forall r w0, resp_status r = st -> rejectResponse r data w0 = (Throw e, w0)) ->
  isRetryableError e = false ->
  request this w = (Throw e, afterAttempt this t w).
Proof.
  intros Hmax Ha Hst Hrej Hnot.
  destruct (makeRequest_failure this w t st data Ha Hst)
    as (r & e' & Hr & Hrun & Hmk).
  rewrite (Hrej r _ Hr) in Hrun. inversion Hrun; subst e'.
  rewrite request_unfold.
  destruct (Z.to_nat (client_maxRetries this + 1)) as [|n] eqn:En; [lia|].
  apply retryLoop_giveUp; [cbn; lia | exact Hmk | left; exact Hnot].
Qed.



Lemma includesZ_notIn (l : list Z) (x : Z) : ~ In x l -> includesZ l x = false.
Proof.
  intros H. unfold includesZ.
  destruct (existsb (Z.eqb x) l) eqn:E; [|reflexivity].
  apply existsb_exists in E. destruct E as (y & Hy & Heq).
  apply Z.eqb_eq in Heq. subst y. contradiction.
Qed.


(* ===================================================================== *)
(** ** Further properties of the pure helpers *)
(* ===================================================================== *)

Lemma digitsPrefix_digits (d : Decimal.uint) :
  forall acc : Z,
    digitsPrefix (NilEmpty.string_of_uint d) (Some acc)
    = Some (decimalValue d acc).
Proof.
  induction d; intros acc; cbn [NilEmpty.string_of_uint decimalValue];
    [reflexivity | ..];
    cbn [digitsPrefix]; rewrite <- IHd; reflexivity.
Qed.

Lemma decimalValue_of_uint_acc (d : Decimal.uint) :
  forall acc : positive,
    Zpos (Pos.of_uint_acc d acc) = decimalValue d (Zpos acc).
Proof.
  induction d; intros acc; cbn [Pos.of_uint_acc decimalValue];
    [reflexivity | ..];
    rewrite IHd; f_equal; lia.
Qed.

Lemma decimalValue_of_uint (d : Decimal.uint) :
  Z.of_uint d = decimalValue d 0.
Proof.
  unfold Z.of_uint.
  induction d; cbn [Pos.of_uint decimalValue]; try reflexivity;
    try (cbn [Z.of_N]; rewrite decimalValue_of_uint_acc; reflexivity).
  exact IHd.
Qed.

(** [parseInt] reads back what [String] writes. *)
Lemma integerPrefix_showZ (n : Z) : integerPrefix (showZ n) = Some n.
Proof.
  unfold showZ.
  rewrite <- (DecimalZ.of_to n) at 2.
  destruct (Z.to_int n) as [d|d] eqn:Hd.
  - cbn [NilZero.string_of_int Z.of_int]. rewrite decimalValue_of_uint.
    destruct d; try reflexivity;
      unfold NilZero.string_of_uint, integerPrefix;
      cbn [NilEmpty.string_of_uint];
      cbn -[decimalValue NilEmpty.string_of_uint];
      rewrite digitsPrefix_digits; reflexivity.
  - cbn [NilZero.string_of_int Z.of_int]. rewrite decimalValue_of_uint.
    destruct d; try reflexivity;
      unfold NilZero.string_of_uint, integerPrefix;
      cbn [NilEmpty.string_of_uint];
      cbn -[decimalValue NilEmpty.string_of_uint];
      rewrite digitsPrefix_digits; reflexivity.
Qed.

Lemma showZ_nonempty (n : Z) : showZ n <> "".
Proof.
  intros H. pose proof (integerPrefix_showZ n) as Hp. rewrite H in Hp.
  discriminate.
Qed.

(** X10. [parseRetryAfter] reads an integer written in decimal digits as
    that many seconds, also a negative one, and never asks the date parser:
    the result is the double of the integer, times 1000, which is exactly
    [1000 * n] as long as that stays below 2^53. *)
Theorem parseRetryAfter_decimal_seconds (nowMs n : Z) :
  parseRetryAfter nowMs (Some (showZ n)) = mulNumber (toDouble n) (Num 1000)
  /\ (Z.abs (n * 1000) < 2 ^ 53 ->
      parseRetryAfter nowMs (Some (showZ n)) = Num (n * 1000)).
Proof.
  assert (Heq : parseRetryAfter nowMs (Some (showZ n))
                = mulNumber (toDouble n) (Num 1000))
    by (apply parseRetryAfter_seconds;
        [apply showZ_nonempty | apply integerPrefix_showZ]).
  split; [exact Heq|].
  intros Hsafe. rewrite Heq.
  rewrite (toDouble_exact n) by lia.
  cbn [mulNumber]. apply toDouble_exact. exact Hsafe.
Qed.

Lemma digitsPrefix_nonneg (s : string) :
  forall acc : Z, 0 <= acc ->
    exists k, 0 <= k /\ digitsPrefix s (Some acc) = Some k.
Proof.
  induction s as [|c rest IH]; intros acc Hacc; [exists acc; split; [lia|reflexivity]|].
  cbn [digitsPrefix]. unfold digitValue.
  destruct ((48 <=? Z.of_N (N_of_ascii c)) && (Z.of_N (N_of_ascii c) <=? 57)) eqn:E.
  - apply andb_true_iff in E. destruct E as [E1 E2].
    apply Z.leb_le in E1. apply IH. cbn [nullish]. lia.
  - exists acc. split; [lia|reflexivity].
Qed.

(** X11. A value that starts with a decimal digit is always read as
    seconds, by the digits it starts with, and never reaches the date
    parser: an ISO date such as 2015-10-21T07:28:00Z is 2015 seconds.  The
    result is not negative. *)
Theorem parseRetryAfter_leading_digit (nowMs : Z) (c : ascii) (rest : string)
    (d : Z) :
  digitValue c = Some d ->
  exists k,
    0 <= k
    /\ integerPrefix (String c rest) = Some k
    /\ parseInt10 (String c rest) = toDouble k
    /\ parseRetryAfter nowMs (Some (String c rest))
       = mulNumber (toDouble k) (Num 1000)
    /\ leNumber (Num 0) (parseRetryAfter nowMs (Some (String c rest))) = true.
Proof.
  intros Hc.
  assert (Hk : exists k, 0 <= k /\ integerPrefix (String c rest) = Some k).
  { destruct c as [[] [] [] [] [] [] [] []]; try discriminate Hc;
      unfold integerPrefix; cbn -[digitsPrefix];
      cbn [digitsPrefix]; apply digitsPrefix_nonneg; cbn; lia. }
  destruct Hk as (k & Hk & Hp). exists k.
  assert (Heq : parseRetryAfter nowMs (Some (String c rest))
                = mulNumber (toDouble k) (Num 1000))
    by (apply parseRetryAfter_seconds; [discriminate | exact Hp]).
  split; [exact Hk|]. split; [exact Hp|].
  split; [unfold parseInt10; rewrite Hp; reflexivity|].
  split; [exact Heq|].
  rewrite Heq. apply seconds_nonneg. exact Hk.
Qed.

(** X12. For a base that is not negative the backoff doubles from one
    attempt to the next until it meets the cap, and from attempt 15 on
    every base of at least 1 ms is at the cap, however large the attempt
    index; a negative base gives a negative delay; and a base of 0 gives 0
    up to attempt 1023 and [NaN] from attempt 1024 on. *)
Theorem calculateBackoff_growth (attempt baseDelay : Z) :
  0 <= attempt ->
  (0 <= baseDelay -> (baseDelay = 0 -> attempt + 1 < 1024) ->
     exists x,
       calculateBackoff attempt baseDelay = Num x
       /\ calculateBackoff (attempt + 1) baseDelay = Num (Z.min (2 * x) 32000))
  /\ (1 <= baseDelay -> 15 <= attempt ->
        calculateBackoff attempt baseDelay = Num 32000)
  /\ (baseDelay < 0 ->
        ltNumber (calculateBackoff attempt baseDelay) (Num 0) = true)
  /\ calculateBackoff attempt 0 = (if attempt <? 1024 then Num 0 else NaN).
Proof.
  intros Ha.
  assert (Hpos : 0 < 2 ^ attempt) by (apply Z.pow_pos_nonneg; lia).
  split; [|split; [|split]].
  - intros Hb Hzero. eexists. split.
    + apply calculateBackoff_value; [lia | exact Hb |].
      intros H0. specialize (Hzero H0). lia.
    + rewrite calculateBackoff_value by (try lia; exact Hzero).
      f_equal. rewrite Z.pow_add_r by lia. change (2 ^ 1) with 2. nia.
  - intros Hb H15. rewrite calculateBackoff_value by lia.
    assert (H : 2 ^ 15 <= 2 ^ attempt) by (apply Z.pow_le_mono_r; lia).
    change (2 ^ 15) with 32768 in H. f_equal. nia.
  - intros Hb. unfold calculateBackoff, pow2Number.
    destruct (attempt <? 1024).
    + cbn [mulNumber].
      assert (Hneg : baseDelay * 2 ^ attempt < 0) by nia.
      pose proof (toDouble_negative _ Hneg) as Hlt.
      pose proof (toDouble_spec (baseDelay * 2 ^ attempt)) as Hspec.
      destruct (toDouble (baseDelay * 2 ^ attempt)) as [y| | |];
        try discriminate Hlt; unfold minNumber; cbn [isNaN orb leNumber].
      * cbn [ltNumber] in Hlt. apply Z.ltb_lt in Hlt.
        destruct (Z.leb_spec y 32000); [|lia].
        cbn [ltNumber]. apply Z.ltb_lt. exact Hlt.
      * reflexivity.
    + cbn [mulNumber]. unfold timesInfinity.
      destruct (Z.eqb_spec baseDelay 0); [lia|].
      destruct (Z.ltb_spec 0 baseDelay); [lia|]. reflexivity.
  - unfold calculateBackoff, pow2Number.
    destruct (attempt <? 1024); reflexivity.
Qed.

(** X13. The constructor throws the [ValidationError] "API token is
    required" exactly when the token is missing or empty; and a client it
    builds has the token as given, a non-empty base URL, a timeout and a
    base delay that are not zero. *)
Theorem newMVSEPClient_invariant (config : MVSEPConfig) :
  (newMVSEPClient config
   = inl (ValidationError (JStr "API token is required") None)
   <-> cfg_apiToken config = None \/ cfg_apiToken config = Some "")
  /\ (forall e, newMVSEPClient config = inl e ->
                e = ValidationError (JStr "API token is required") None)
  /\ (forall this, newMVSEPClient config = inr this ->
        cfg_apiToken config = Some (client_apiToken this)
        /\ client_apiToken this <> ""
        /\ client_baseURL this <> ""
        /\ client_timeout this <> 0
        /\ client_retryDelay this <> 0).
Proof.
  unfold newMVSEPClient.
  destruct (cfg_apiToken config) as [token|] eqn:Htoken; cbn [orString].
  2: { cbn. split; [tauto|]. split; [intros e H; inversion H; reflexivity|].
       intros this H. discriminate H. }
  destruct (String.eqb_spec token "") as [Hempty|Hne].
  { subst token. cbn. split; [tauto|].
    split; [intros e H; inversion H; reflexivity|].
    intros this H. discriminate H. }
  destruct (String.eqb_spec token "") as [|_]; [contradiction|].
  split.
  { split; [intros H; discriminate H|].
    intros [H|H]; [discriminate H | inversion H; contradiction]. }
  split; [intros e H; discriminate H|].
  intros this H. inversion H; subst this; clear H. cbn.
  split; [reflexivity|]. split; [exact Hne|].
  split.
  - unfold orString, DEFAULT_BASE_URL.
    destruct (cfg_baseURL config) as [u|]; [|discriminate].
    destruct (String.eqb_spec u ""); [discriminate | assumption].
  - unfold orNumber, DEFAULT_TIMEOUT, DEFAULT_RETRY_DELAY.
    split.
    + destruct (cfg_timeout config) as [x|]; [|discriminate].
      destruct (Z.eqb_spec x 0); [discriminate | assumption].
    + destruct (cfg_retryDelay config) as [x|]; [|discriminate].
      destruct (Z.eqb_spec x 0); [discriminate | assumption].
Qed.

(* ===================================================================== *)
(** ** The other callers of [request] *)
(* ===================================================================== *)

Lemma request_sdk_only (this : MVSEPClient) (w : World) :
  0 <= client_maxRetries this ->
  match fst (request this w) with
  | Return _ => True
  | Throw e => instanceofMVSEPError e = true
  | _ => False
  end.
Proof.
  intros Hmax. rewrite request_unfold.
  apply (retryLoop_outcome json (makeRequest this) _ isRetryableError
           (fun e => instanceofMVSEPError e = true)).
  - intros w0. pose proof (makeRequest_class this w0) as H.
    destruct (fst (makeRequest this w0)); try exact H. apply H.
  - lia.
  - cbn. lia.
Qed.

Lemma request_null (this : MVSEPClient) (w : World) (t : Z) :
  0 <= client_maxRetries this ->
  answeredNull this (fetches w) t ->
  request this w = (Return JNull, afterAttempt this t w).
Proof.
  intros Hmax (r & Hnet & [_ Hlt] & Hok & Hbody).
  rewrite request_unfold.
  destruct (Z.to_nat (client_maxRetries this + 1)) as [|n] eqn:En; [lia|].
  apply retryLoop_return; [cbn; lia|].
  rewrite makeRequest_unfold, Hnet.
  destruct (Z.leb_spec t (timerDelay (client_timeout this))); [|lia].
  apply settleResponse_ok; assumption.
Qed.

Lemma nestedHash_run (response : json) (w : World) :
  response <> JNull ->
  nestedHash response w = (Return (nestedHashOf response), w).
Proof.
  intros Hd. unfold nestedHash, nestedHashOf.
  rewrite (bind_return _ _ _ _ _ _ _ (getProp_run response "data" w Hd)).
  destruct (prop response "data") as [[]|]; reflexivity.
Qed.

Lemma createSeparation_hash_eq (this : MVSEPClient) (w : World) (t st : Z)
    (data : json) :
  0 <= client_maxRetries this ->
  answered this (fetches w) t st data -> 200 <= st <= 299 ->
  createSeparation this w =
  (if truthy (prop data "hash") then Return (nullish (prop data "hash") JNull)
   else if truthy (nestedHashOf data)
        then Return (nullish (nestedHashOf data) JNull)
        else Throw (SeparationError
                      "No hash returned from separation creation" None),
   afterAttempt this t w).
Proof.
  intros Hmax Ha Hst.
  pose proof (request_success this w t st data Hmax Ha Hst) as Hreq.
  destruct Ha as (_ & _ & _ & _ & _ & Hd).
  unfold createSeparation, tryCatch.
  rewrite (bind_return _ _ _ _ _ _ _ Hreq).
  rewrite (bind_return _ _ _ _ _ _ _ (getProp_run data "hash" _ Hd)).
  destruct (truthy (prop data "hash")); [reflexivity|].
  rewrite (bind_return _ _ _ _ _ _ _ (nestedHash_run data _ Hd)).
  destruct (truthy (nestedHashOf data)); reflexivity.
Qed.

(** X14. [createSeparation] on a 2xx answer with a readable body returns
    the [hash] of the body when it is truthy, otherwise the [hash] of its
    [data] when that is truthy, and otherwise throws the [SeparationError]
    "No hash returned from separation creation", which carries no hash; in
    each case after the one call of the request. *)
Theorem createSeparation_hash (this : MVSEPClient) (w : World) (t st : Z)
    (data : json) :
  0 <= client_maxRetries this ->
  answered this (fetches w) t st data -> 200 <= st <= 299 ->
  createSeparation this w =
  (if truthy (prop data "hash") then Return (nullish (prop data "hash") JNull)
   else if truthy (nestedHashOf data)
        then Return (nullish (nestedHashOf data) JNull)
        else Throw (SeparationError
                      "No hash returned from separation creation" None),
   afterAttempt this t w).
Proof. apply createSeparation_hash_eq. Qed.

(** X15. [createSeparation] passes the errors of the request on as they
    are, turns the [TypeError] of a [null] body into a [FileUploadError],
    and so, for [maxRetries >= 0], throws nothing but errors of the SDK. *)
Theorem createSeparation_errors (this : MVSEPClient) (w : World) :
  0 <= client_maxRetries this ->
  (forall e w', request this w = (Throw e, w') ->
                createSeparation this w = (Throw e, w'))
  /\ (forall t, answeredNull this (fetches w) t ->
        createSeparation this w =
        (Throw (FileUploadError
                  "Failed to upload file: Cannot read properties of null (reading 'hash')"),
         afterAttempt this t w))
  /\ match fst (createSeparation this w) with
     | Return _ => True
     | Throw e => instanceofMVSEPError e = true
     | _ => False
     end.
Proof.
  intros Hmax.
  pose proof (request_sdk_only this w Hmax) as Hsdk.
  split; [|split].
  - intros e w' Hreq. rewrite Hreq in Hsdk. cbn in Hsdk.
    unfold createSeparation, tryCatch.
    rewrite (bind_throw _ _ _ _ _ _ _ Hreq).
    unfold wrapUploadError. rewrite Hsdk. reflexivity.
  - intros t Hnull.
    unfold createSeparation, tryCatch.
    rewrite (bind_return _ _ _ _ _ _ _ (request_null this w t Hmax Hnull)).
    reflexivity.
  - unfold createSeparation, tryCatch, bind at 1.
    destruct (request this w) as [[response|e| |] w1]; cbn [fst] in Hsdk;
      try contradiction.
    + destruct (json_null_dec response) as [->|Hd]; [reflexivity|].
      rewrite (bind_return _ _ _ _ _ _ _ (getProp_run response "hash" _ Hd)).
      destruct (truthy (prop response "hash")); [exact I|].
      rewrite (bind_return _ _ _ _ _ _ _ (nestedHash_run response _ Hd)).
      destruct (truthy (nestedHashOf response)); [exact I | reflexivity].
    + unfold wrapUploadError. rewrite Hsdk. exact Hsdk.
Qed.

(** X16. [getUser] and [getSeparationHistory] return the [data] of the
    body, [undefined] when the body has none; a 2xx whose body is [null]
    makes them throw the [TypeError] of the property read, which is not an
    error of the SDK. *)
Theorem requestData_missing_or_null (this : MVSEPClient) (w : World) (t : Z) :
  0 <= client_maxRetries this ->
  (forall st data,
      answered this (fetches w) t st data -> 200 <= st <= 299 ->
      requestData this w = (Return (prop data "data"), afterAttempt this t w))
  /\ (answeredNull this (fetches w) t ->
      requestData this w
      = (Throw (typeErrorReading "null" "data"), afterAttempt this t w)
      /\ instanceofMVSEPError (typeErrorReading "null" "data") = false).
Proof.
  intros Hmax. split.
  - intros st data Ha Hst.
    pose proof (request_success this w t st data Hmax Ha Hst) as Hreq.
    destruct Ha as (_ & _ & _ & _ & _ & Hd).
    unfold requestData. rewrite (bind_return _ _ _ _ _ _ _ Hreq).
    apply getProp_run. exact Hd.
  - intros Hnull. split; [|reflexivity].
    unfold requestData.
    rewrite (bind_return _ _ _ _ _ _ _ (request_null this w t Hmax Hnull)).
    reflexivity.
Qed.

(* ===================================================================== *)
(** ** Further properties of the polling loop *)
(* ===================================================================== *)

(** X17. When a status fetch returns [error], the session ends with the
    [SeparationError] "Separation job failed" that carries the hash of the
    session; the callback has been called with the error snapshot, and
    nothing is slept or fetched after it. *)
Theorem waitForSeparation_error_status (fuel : nat) (this : MVSEPClient)
    (hash : string) (options : PollingOptions) (w : World) (t st : Z)
    (data : json) :
  0 <= client_maxRetries this ->
  answered this (fetches w) t st data -> 200 <= st <= 299 ->
  prop data "status" = Some (JStr "error") ->
  neverThrows options ->
  (forall interval maxDuration startTime,
      now w - startTime <= maxDuration ->
      pollLoop (S fuel) this hash options interval maxDuration startTime w
      = (Throw (SeparationError "Separation job failed" (Some hash)),
         notified options (snapshot hash data) (afterAttempt this t w)))
  /\ (0 <= pollMaxDuration options ->
      waitForSeparation (S fuel) this hash options w
      = (Throw (SeparationError "Separation job failed" (Some hash)),
         notified options (snapshot hash data) (afterAttempt this t w)))
  /\ fetches (notified options (snapshot hash data) (afterAttempt this t w))
     = S (fetches w)
  /\ sleeps (notified options (snapshot hash data) (afterAttempt this t w))
     = sleeps w.
Proof.
  intros Hmax Ha Hst Hstatus Hquiet.
  assert (Hloop : forall interval maxDuration startTime,
      now w - startTime <= maxDuration ->
      pollLoop (S fuel) this hash options interval maxDuration startTime w
      = (Throw (SeparationError "Separation job failed" (Some hash)),
         notified options (snapshot hash data) (afterAttempt this t w))).
  { intros interval maxDuration startTime Hnow.
    rewrite (pollLoop_poll fuel this hash options interval maxDuration
               startTime w t st data Hmax Hnow Ha Hst Hquiet).
    rewrite Hstatus. reflexivity. }
  split; [exact Hloop|].
  split; [intros Hdur; unfold waitForSeparation; apply Hloop; lia|].
  unfold notified. destruct (onProgress options); split; reflexivity.
Qed.

(** X18. A status fetch that fails ends the session with the error of the
    request, in the world the request left: the callback is not called for
    this poll and nothing is slept. *)
Theorem waitForSeparation_fetch_failure (fuel : nat) (this : MVSEPClient)
    (hash : string) (options : PollingOptions) (w w1 : World) (e : JsError) :
  request this w = (Throw e, w1) ->
  (forall interval maxDuration startTime,
      now w - startTime <= maxDuration ->
      pollLoop (S fuel) this hash options interval maxDuration startTime w
      = (Throw e, w1))
  /\ (0 <= pollMaxDuration options ->
      waitForSeparation (S fuel) this hash options w = (Throw e, w1))
  /\ (0 <= client_maxRetries this ->
      progress w1 = progress w /\ instanceofMVSEPError e = true).
Proof.
  intros Hreq.
  assert (Hloop : forall interval maxDuration startTime,
      now w - startTime <= maxDuration ->
      pollLoop (S fuel) this hash options interval maxDuration startTime w
      = (Throw e, w1)).
  { intros interval maxDuration startTime Hnow.
    cbn [pollLoop]. rewrite Z.gtb_ltb.
    destruct (Z.ltb_spec maxDuration (now w - startTime)); [lia|].
    apply bind_throw. exact Hreq. }
  split; [exact Hloop|].
  split; [intros Hdur; unfold waitForSeparation; apply Hloop; lia|].
  intros Hmax. split.
  - destruct (retryLoop_counts this
                {| maxRetries := client_maxRetries this;
                   retryDelay := client_retryDelay this;
                   timeout := client_timeout this |}
                (Z.to_nat (client_maxRetries this + 1)) 0 None w
                ltac:(lia) ltac:(cbn; lia)) as (k & _ & _ & _ & Hp).
    rewrite <- request_unfold, Hreq in Hp. exact Hp.
  - pose proof (request_sdk_only this w Hmax) as H. rewrite Hreq in H. exact H.
Qed.

(** X19. A 2xx status answer whose body is [null] ends the session with
    the [TypeError] of reading [status], which is not an error of the SDK;
    the callback is not called. *)
Theorem waitForSeparation_null_body (fuel : nat) (this : MVSEPClient)
    (hash : string) (options : PollingOptions) (w : World) (t : Z) :
  0 <= client_maxRetries this ->
  answeredNull this (fetches w) t ->
  0 <= pollMaxDuration options ->
  waitForSeparation (S fuel) this hash options w
  = (Throw (typeErrorReading "null" "status"), afterAttempt this t w)
  /\ instanceofMVSEPError (typeErrorReading "null" "status") = false.
Proof.
  intros Hmax Hnull Hdur. split; [|reflexivity].
  unfold waitForSeparation. cbn [pollLoop]. rewrite Z.gtb_ltb.
  destruct (Z.ltb_spec (pollMaxDuration options) (now w - now w)); [lia|].
  unfold getSeparation.
  rewrite (bind_return _ _ _ _ _ _ _ (request_null this w t Hmax Hnull)).
  destruct (onProgress options); reflexivity.
Qed.

(** *** Sessions of any length *)

Lemma elapsedBefore_shift (lat : nat -> Z) (pause : Z) (k : nat) :
  elapsedBefore lat pause (S k)
  = lat 0%nat + pause + elapsedBefore (fun i => lat (S i)) pause k.
Proof.
  induction k as [|k IH]; [cbn; lia|].
  change (elapsedBefore lat pause (S (S k)))
    with (elapsedBefore lat pause (S k) + lat (S k) + pause).
  rewrite IH. cbn [elapsedBefore]. lia.
Qed.

Lemma elapsedBefore_nonneg (lat : nat -> Z) (pause : Z) (k : nat) :
  (forall i, (i < k)%nat -> 0 <= lat i) -> 0 <= pause ->
  0 <= elapsedBefore lat pause k.
Proof.
  intros Hlat Hp. induction k as [|k IH]; [cbn; lia|].
  cbn [elapsedBefore].
  assert (0 <= elapsedBefore lat pause k) by (apply IH; intros; apply Hlat; lia).
  assert (0 <= lat k) by (apply Hlat; lia). lia.
Qed.

Lemma map_seq_shift (A : Type) (f : nat -> A) (n : nat) :
  map f (seq 0 (S n)) = f 0%nat :: map (fun i => f (S i)) (seq 0 n).
Proof.
  cbn [seq map]. f_equal. rewrite <- seq_shift, map_map. reflexivity.
Qed.

(** The world after one round: a fetch, the callback, a sleep. *)
Lemma round_world (this : MVSEPClient) (options : PollingOptions)
    (s : SeparationStatus) (interval t : Z) (w : World) :
  fetches (snd (sleep (Num interval) (notified options s (afterAttempt this t w))))
  = S (fetches w)
  /\ sleeps (snd (sleep (Num interval) (notified options s (afterAttempt this t w))))
     = (sleeps w ++ [Num interval])%list
  /\ progress (snd (sleep (Num interval) (notified options s (afterAttempt this t w))))
     = match onProgress options with
       | Some _ => (progress w ++ [s])%list
       | None => progress w
       end.
Proof. unfold notified. destruct (onProgress options); repeat split. Qed.

Section Rounds.

Variable this : MVSEPClient.
Variable hash : string.
Variable options : PollingOptions.
Variables interval maxDuration startTime : Z.

Hypothesis retries_nonneg : 0 <= client_maxRetries this.
Hypothesis callback_quiet : neverThrows options.
Hypothesis sleep_forward : 0 <= timerDelay interval.

Lemma pollLoop_rounds (k : nat) :
  forall (lat : nat -> Z) (body : nat -> json) (fuel : nat) (w : World),
    (k < fuel)%nat ->
    (forall i, (i < k)%nat ->
       answered this (fetches w + i) (lat i) 200 (body i)
       /\ isString (prop (body i) "status") "done" = false
       /\ isString (prop (body i) "status") "error" = false) ->
    answered this (fetches w + k) (lat k) 200 (body k) ->
    isString (prop (body k) "status") "done" = true ->
    0 <= now w - startTime ->
    now w - startTime + elapsedBefore lat (timerDelay interval) k
      <= maxDuration ->
    exists w',
      pollLoop fuel this hash options interval maxDuration startTime w
      = (Return (body k), w')
      /\ fetches w' = (fetches w + S k)%nat
      /\ sleeps w' = (sleeps w ++ repeat (Num interval) k)%list
      /\ progress w'
         = match onProgress options with
           | Some _ =>
               (progress w
                ++ map (fun i => snapshot hash (body i)) (seq 0 (S k)))%list
           | None => progress w
           end
      /\ now w' = now w + elapsedBefore lat (timerDelay interval) k + lat k.
Proof.
  induction k as [|k IH]; intros lat body fuel w Hfuel Hrun Hlast Hdone Hstart Hdur.
  - destruct fuel as [|fuel]; [lia|].
    rewrite Nat.add_0_r in Hlast. cbn [elapsedBefore] in *.
    rewrite (pollLoop_poll fuel this hash options interval maxDuration
               startTime w (lat 0%nat) 200 (body 0%nat) retries_nonneg
               ltac:(lia) Hlast ltac:(lia) callback_quiet).
    rewrite Hdone. eexists. split; [reflexivity|].
    unfold notified. destruct (onProgress options); cbn;
      repeat split; try lia; rewrite ?app_nil_r; reflexivity.
  - destruct fuel as [|fuel]; [lia|].
    destruct (Hrun 0%nat ltac:(lia)) as (Ha0 & Hnd & Hne).
    rewrite Nat.add_0_r in Ha0.
    assert (Hlat : forall i, (i <= S k)%nat -> 0 <= lat i).
    { intros i Hi. destruct (Nat.eq_dec i (S k)) as [->|Hneq].
      - destruct Hlast as (? & _ & [? _] & _). assumption.
      - destruct (Hrun i ltac:(lia)) as ((? & _ & [? _] & _) & _). assumption. }
    rewrite elapsedBefore_shift in Hdur |- *.
    assert (Htail : 0 <= elapsedBefore (fun i => lat (S i)) (timerDelay interval) k).
    { apply elapsedBefore_nonneg; [|exact sleep_forward].
      intros i Hi. apply Hlat. lia. }
    pose proof (Hlat 0%nat ltac:(lia)) as Hlat0.
    rewrite (pollLoop_poll fuel this hash options interval maxDuration
               startTime w (lat 0%nat) 200 (body 0%nat) retries_nonneg
               ltac:(lia) Ha0 ltac:(lia) callback_quiet).
    rewrite Hnd, Hne.
    set (w1 := snd (sleep (Num interval)
                      (notified options (snapshot hash (body 0%nat))
                         (afterAttempt this (lat 0%nat) w)))).
    destruct (round_world this options (snapshot hash (body 0%nat)) interval
                (lat 0%nat) w) as (Hf1 & Hs1 & Hp1).
    fold w1 in Hf1, Hs1, Hp1.
    assert (Hn1 : now w1 = now w + lat 0%nat + timerDelay interval)
      by apply now_after_poll.
    destruct (IH (fun i => lat (S i)) (fun i => body (S i)) fuel w1
                ltac:(lia)) as (w' & Hres & Hf & Hs & Hp & Hn).
    + intros i Hi. rewrite Hf1.
      replace (S (fetches w) + i)%nat with (fetches w + S i)%nat by lia.
      apply Hrun. lia.
    + rewrite Hf1.
      replace (S (fetches w) + k)%nat with (fetches w + S k)%nat by lia.
      exact Hlast.
    + exact Hdone.
    + lia.
    + lia.
    + exists w'. split; [exact Hres|].
      rewrite Hf, Hs, Hp, Hn, Hf1, Hs1, Hp1, Hn1.
      split; [lia|]. split; [cbn [repeat]; rewrite <- app_assoc; reflexivity|].
      split; [|lia].
      destruct (onProgress options); [|reflexivity].
      rewrite (map_seq_shift _ (fun i => snapshot hash (body i)) (S k)).
      rewrite <- app_assoc. reflexivity.
Qed.

End Rounds.

(** X20. A session of any length: when [k] status fetches return a status
    that is neither [done] nor [error] and the next one returns [done],
    all within [maxDuration], [waitForSeparation] makes exactly [k + 1]
    fetches, sleeps the interval [k] times, calls the callback (if there is
    one) once per fetch and in the order of the fetches, and returns the
    last body. *)
Theorem waitForSeparation_rounds (k fuel : nat) (lat : nat -> Z)
    (body : nat -> json) (this : MVSEPClient) (hash : string)
    (options : PollingOptions) (w : World) :
  (k < fuel)%nat ->
  0 <= client_maxRetries this ->
  neverThrows options ->
  0 <= timerDelay (pollInterval options) ->
  (forall i, (i < k)%nat ->
     answered this (fetches w + i) (lat i) 200 (body i)
     /\ isString (prop (body i) "status") "done" = false
     /\ isString (prop (body i) "status") "error" = false) ->
  answered this (fetches w + k) (lat k) 200 (body k) ->
  isString (prop (body k) "status") "done" = true ->
  elapsedBefore lat (timerDelay (pollInterval options)) k
    <= pollMaxDuration options ->
  exists w',
    waitForSeparation fuel this hash options w = (Return (body k), w')
    /\ fetches w' = (fetches w + S k)%nat
    /\ sleeps w' = (sleeps w ++ repeat (Num (pollInterval options)) k)%list
    /\ progress w'
       = match onProgress options with
         | Some _ =>
             (progress w
              ++ map (fun i => snapshot hash (body i)) (seq 0 (S k)))%list
         | None => progress w
         end
    /\ now w' = now w + elapsedBefore lat (timerDelay (pollInterval options)) k
                + lat k.
Proof.
  intros Hfuel Hmax Hquiet Hsl Hrun Hlast Hdone Hdur.
  unfold waitForSeparation.
  apply pollLoop_rounds; try assumption; lia.
Qed.

(** X21. [createAndWaitForSeparation] polls for the hash that the
    creation returned, starting in the world the creation left; when the
    creation throws, its error is the result and no status fetch is made.
    With a creation that returns the hash [h] and a first status fetch that
    returns [done], the whole call is two calls of [fetch] and one call of
    the callback, for [h]. *)
Theorem createAndWaitForSeparation_runs (fuel : nat) (this : MVSEPClient)
    (options : PollingOptions) (w : World) :
  (forall h w1, createSeparation this w = (Return (JStr h), w1) ->
     createAndWaitForSeparation fuel this options w
     = waitForSeparation fuel this h options w1)
  /\ (forall e w1, createSeparation this w = (Throw e, w1) ->
        createAndWaitForSeparation fuel this options w = (Throw e, w1))
  /\ (forall t0 t1 st d0 d1 h,
        0 <= client_maxRetries this ->
        neverThrows options ->
        0 <= pollMaxDuration options ->
        answered this (fetches w) t0 st d0 -> 200 <= st <= 299 ->
        prop d0 "hash" = Some (JStr h) -> h <> "" ->
        answered this (1 + fetches w) t1 200 d1 ->
        prop d1 "status" = Some (JStr "done") ->
        createAndWaitForSeparation (S fuel) this options w
        = (Return d1,
           notified options (snapshot h d1)
             (afterAttempt this t1 (afterAttempt this t0 w)))).
Proof.
  split; [|split].
  - intros h w1 Hc. unfold createAndWaitForSeparation.
    rewrite (bind_return _ _ _ _ _ _ _ Hc). reflexivity.
  - intros e w1 Hc. unfold createAndWaitForSeparation.
    apply bind_throw. exact Hc.
  - intros t0 t1 st d0 d1 h Hmax Hquiet Hdur Ha0 Hst Hh Hne Ha1 Hdone.
    assert (Hc : createSeparation this w = (Return (JStr h), afterAttempt this t0 w)).
    { rewrite (createSeparation_hash_eq this w t0 st d0 Hmax Ha0 Hst).
      rewrite Hh. cbn [truthy nullish].
      destruct (String.eqb_spec h ""); [contradiction|reflexivity]. }
    unfold createAndWaitForSeparation.
    rewrite (bind_return _ _ _ _ _ _ _ Hc). cbn [messageText].
    unfold waitForSeparation.
    rewrite (pollLoop_poll fuel this h options (pollInterval options)
               (pollMaxDuration options) (now (afterAttempt this t0 w))
               (afterAttempt this t0 w) t1 200 d1 Hmax ltac:(lia) Ha1
               ltac:(lia) Hquiet).
    rewrite Hdone. reflexivity.
Qed.

End Runtime.

(* ===================================================================== *)
(** ** Forms *)
(* ===================================================================== *)

Lemma buildFormData_map_filter (params : list (string * jsParam)) :
  buildFormData params
  = map (fun kv => (fst kv, formPart (snd kv)))
        (filter (fun kv => negb (isNullish (snd kv))) params).
Proof.
  induction params as [|[key value] rest IH]; [reflexivity|].
  cbn [buildFormData filter snd fst].
  destruct (isNullish value); cbn [negb map fst snd]; rewrite IH; reflexivity.
Qed.

(** X22. [buildFormData] appends one part per parameter that is neither
    [undefined] nor [null], in the order of the parameters, and skips the
    others: no part is ever made up.  Values that are merely falsy are
    sent, a number as its decimal text; a bare buffer is sent as a file
    under the name "file". *)
Theorem buildFormData_parts (params : list (string * jsParam)) :
  map fst (buildFormData params)
  = map fst (filter (fun kv => negb (isNullish (snd kv))) params)
  /\ (forall key part,
        In (key, part) (buildFormData params) <->
        exists value, In (key, value) params /\ isNullish value = false
                      /\ part = formPart value)
  /\ (forall key n, In (key, PNum n) params ->
                    In (key, TextPart (showZ n)) (buildFormData params))
  /\ (forall key content, In (key, PBuffer content) params ->
        In (key, FilePart (PBuffer content) (PObject [("filename", PStr "file")]))
           (buildFormData params)).
Proof.
  assert (Hin : forall key part,
        In (key, part) (buildFormData params) <->
        exists value, In (key, value) params /\ isNullish value = false
                      /\ part = formPart value).
  { intros key part. rewrite buildFormData_map_filter, in_map_iff. split.
    - intros ([k v] & Heq & Hf). apply filter_In in Hf. destruct Hf as [Hf Hn].
      cbn [fst snd] in *. inversion Heq; subst.
      exists v. repeat split; [exact Hf|].
      destruct (isNullish v); [discriminate|reflexivity].
    - intros (value & Hf & Hn & ->). exists (key, value). split; [reflexivity|].
      apply filter_In. split; [exact Hf|]. cbn [snd]. rewrite Hn. reflexivity. }
  split.
  { rewrite buildFormData_map_filter, map_map. reflexivity. }
  split; [exact Hin|].
  split.
  - intros key n H. apply Hin. exists (PNum n). repeat split. exact H.
  - intros key content H. apply Hin. exists (PBuffer content). repeat split. exact H.
Qed.

Lemma assoc_absent {A : Type} (key : string) (entries : list (string * A)) :
  ~ In key (map fst entries) -> assoc key entries = None.
Proof.
  induction entries as [|[k v] rest IH]; intros Hfresh; [reflexivity|].
  cbn [assoc]. cbn [map fst In] in Hfresh.
  destruct (String.eqb_spec key k) as [->|Hne]; [tauto|].
  apply IH. tauto.
Qed.

Lemma insertProperty_last (key : string) (value : jsParam)
    (entries : list (string * jsParam)) :
  arrayIndexOf key = None ->
  insertProperty key value entries = (entries ++ [(key, value)])%list.
Proof.
  intros Hkey.
  induction entries as [|[k v] rest IH]; [reflexivity|].
  cbn [insertProperty app]. unfold listedBefore. rewrite Hkey, IH.
  reflexivity.
Qed.

(** A new key that is no array index goes last. *)
Lemma setProperty_fresh (key : string) (value : jsParam)
    (entries : list (string * jsParam)) :
  arrayIndexOf key = None ->
  ~ In key (map fst entries) ->
  setProperty key value entries = (entries ++ [(key, value)])%list.
Proof.
  intros Hkey Hfresh. unfold setProperty.
  rewrite (assoc_absent _ _ Hfresh). apply insertProperty_last, Hkey.
Qed.

(** Spreading an object with distinct keys, none of them an array index,
    over one property. *)
Lemma objectSpread_single (key : string) (params : list (string * jsParam)) :
  forall (value : jsParam) (acc : list (string * jsParam)),
    NoDup (map fst params) ->
    (forall k, In k (map fst params) -> arrayIndexOf k = None) ->
    ~ In key (map fst acc) ->
    (forall k, In k (map fst acc) -> ~ In k (map fst params)) ->
    fold_left (fun a kv => setProperty (fst kv) (snd kv) a) params
      ((key, value) :: acc)
    = ((key, nullish (assoc key params) value)
       :: acc ++ filter (fun kv => negb (fst kv =? key)%string) params)%list.
Proof.
  induction params as [|[k v] rest IH]; intros value acc Hnd Hidx Hkey Hdisj.
  - cbn. rewrite app_nil_r. reflexivity.
  - cbn [map fst] in Hnd. inversion Hnd as [|? ? Hk Hrest]; subst.
    assert (Hidx' : forall k', In k' (map fst rest) -> arrayIndexOf k' = None).
    { intros k' Hin. apply Hidx. right. exact Hin. }
    cbn [fold_left fst snd].
    destruct (String.eqb_spec key k) as [->|Hne].
    + unfold setProperty at 2. cbn [assoc replaceProperty].
      rewrite ?String.eqb_refl.
      rewrite (IH v acc Hrest Hidx' Hkey).
      2: { intros k' Hk' Hin. apply (Hdisj k' Hk'). right. exact Hin. }
      cbn [assoc filter fst]. rewrite ?String.eqb_refl. cbn [negb nullish].
      rewrite (assoc_absent _ _ Hk). reflexivity.
    + rewrite setProperty_fresh.
      2: { apply Hidx. left. reflexivity. }
      2: { cbn [map fst In]. intros [Heq|Hin]; [congruence|].
           apply (Hdisj k Hin). left. reflexivity. }
      cbn [app].
      rewrite (IH value (acc ++ [(k, v)])%list Hrest Hidx').
      * cbn [assoc filter fst].
        destruct (String.eqb_spec key k) as [|_]; [contradiction|].
        destruct (String.eqb_spec k key) as [|_]; [congruence|].
        cbn [negb]. rewrite <- app_assoc. reflexivity.
      * rewrite map_app, in_app_iff. cbn. intros [H|[H|[]]]; [tauto|congruence].
      * intros k' Hk'. rewrite map_app, in_app_iff in Hk'. cbn in Hk'.
        destruct Hk' as [H|[<-|[]]].
        -- intros Hin. apply (Hdisj k' H). right. exact Hin.
        -- exact Hk.
Qed.

Lemma filter_absent_key (key : string) (params : list (string * jsParam)) :
  assoc key params = None ->
  filter (fun kv => negb (fst kv =? key)%string) params = params.
Proof.
  induction params as [|[k v] rest IH]; [reflexivity|].
  cbn [assoc filter fst].
  destruct (String.eqb_spec key k) as [|Hne]; [discriminate|].
  destruct (String.eqb_spec k key) as [|_]; [congruence|].
  intros H. cbn [negb]. rewrite (IH H). reflexivity.
Qed.

(** X23. For parameters whose keys are no array indices, the form of
    [createSeparation] and [addQualityCheckerEntry] starts with the token
    of the client only when the parameters have no [api_token] of their
    own: one that they have replaces it, and one that is [null] or
    [undefined] removes the token from the form. *)
Theorem tokenForm_token (this : MVSEPClient) (params : list (string * jsParam)) :
  NoDup (map fst params) ->
  (forall k, In k (map fst params) -> arrayIndexOf k = None) ->
  tokenForm this params
  = buildFormData
      (("api_token", nullish (assoc "api_token" params)
                       (PStr (client_apiToken this)))
       :: filter (fun kv => negb (fst kv =? "api_token")%string) params)
  /\ (assoc "api_token" params = None ->
      tokenForm this params
      = ("api_token", TextPart (client_apiToken this)) :: buildFormData params)
  /\ (forall value, assoc "api_token" params = Some value ->
        isNullish value = true ->
        forall part, ~ In ("api_token", part) (tokenForm this params)).
Proof.
  intros Hnd Hidx.
  assert (Heq : tokenForm this params
    = buildFormData
        (("api_token", nullish (assoc "api_token" params)
                         (PStr (client_apiToken this)))
         :: filter (fun kv => negb (fst kv =? "api_token")%string) params)).
  { unfold tokenForm, objectSpread.
    rewrite (objectSpread_single "api_token" params
               (PStr (client_apiToken this)) [] Hnd Hidx);
      [reflexivity | intros [] | intros k []]. }
  split; [exact Heq|]. split.
  - intros Hnone. rewrite Heq, Hnone, (filter_absent_key _ _ Hnone).
    reflexivity.
  - intros value Hsome Hnull part Hin. rewrite Heq, Hsome in Hin.
    cbn [nullish buildFormData] in Hin. rewrite Hnull in Hin.
    rewrite buildFormData_map_filter in Hin. apply in_map_iff in Hin.
    destruct Hin as ([k v] & Hkv & Hf). cbn [fst snd] in Hkv.
    inversion Hkv; subst k.
    apply filter_In in Hf. destruct Hf as [Hf _].
    apply filter_In in Hf. destruct Hf as [_ Hf]. cbn [fst] in Hf.
    rewrite String.eqb_refl in Hf. discriminate.
Qed.

(* ===================================================================== *)
(** ** The statements at concrete runs *)
(* ===================================================================== *)

Lemma waitForSeparation_waiting_processing_done_witness :
  exists w',
    waitForSeparation nodeTimerDelay sampleDateParse jobScript 3 (clientWith 3)
      "test-hash" testOptions world0
    = (Return (statusBody "done" (JObj [])), w')
    /\ fetches w' = 3%nat
    /\ progress w' =
       [snapshot "test-hash" (statusBody "waiting" queueData);
        snapshot "test-hash" (statusBody "processing" queueData);
        snapshot "test-hash" (statusBody "done" (JObj []))]
    /\ sleeps w' = [Num 10; Num 10].
Proof.
  apply (waitForSeparation_waiting_processing_done nodeTimerDelay
           sampleDateParse jobScript 3 (clientWith 3) "test-hash" testOptions
           quietProgress world0 5 5 5).
  - by_compute.
  - by_compute.
  - reflexivity.
  - intros cb H w s. inversion H. reflexivity.
  - show_answered.
  - reflexivity.
  - show_answered.
  - reflexivity.
  - show_answered.
  - reflexivity.
  - by_compute.
  - by_compute.
Defined.

(** C1 as stated fails on the run of the test suite: the callback is
    called three times, the third time with the done snapshot. *)
Lemma waitForSeparation_progress_twice_counterexample :
  let run := waitForSeparation nodeTimerDelay sampleDateParse jobScript 3
               (clientWith 3) "test-hash" testOptions world0 in
  map st_status (progress (snd run))
  = [Some (JStr "waiting"); Some (JStr "processing"); Some (JStr "done")]
  /\ ~ (fst run = Return (statusBody "done" (JObj []))
        /\ fetches (snd run) = 3%nat
        /\ List.length (progress (snd run)) = 2%nat).
Proof.
  split; [vm_compute; reflexivity|].
  intros (_ & _ & H). vm_compute in H. discriminate.
Qed.




Lemma calculateBackoff_monotone_capped_witness :
  leNumber (calculateBackoff 2 1000) (calculateBackoff 6 1000) = true
  /\ leNumber (calculateBackoff 2 1000) (Num 32000) = true
  /\ leNumber (calculateBackoff 6 1000) (Num 32000) = true
  /\ calculateBackoff 6 1000 = Num (Z.min (1000 * 2 ^ 6) 32000)
  /\ (1000 * 2 ^ 6 <= 32000 -> calculateBackoff 6 1000 = Num (1000 * 2 ^ 6)).
Proof.
  apply (calculateBackoff_monotone_capped 1000 2 6);
    [by_compute | by_compute | by_compute | intros H; discriminate H].
Defined.

(** C4 as stated fails for a base of 0 and an attempt index of 1024:
    [Math.pow(2, 1024)] is [Infinity], [0 * Infinity] is [NaN], and [NaN] is
    neither at most 32000 nor at least the backoff of attempt 0. *)
Lemma calculateBackoff_nan_counterexample :
  calculateBackoff 0 0 = Num 0
  /\ calculateBackoff 1024 0 = NaN
  /\ ~ (leNumber (calculateBackoff 0 0) (calculateBackoff 1024 0) = true
        /\ leNumber (calculateBackoff 1024 0) (Num 32000) = true).
Proof.
  split; [reflexivity|]. split; [reflexivity|].
  intros [H _]. discriminate H.
Qed.

Lemma request_400_unreadable_body_retried_witness :
  (exists e,
     makeRequest nodeTimerDelay sampleDateParse emptyBody400 (clientWith 1) world0
     = (Throw e, afterAttempt nodeTimerDelay (clientWith 1) 5 world0)
     /\ cls e = NetworkErrorC /\ isRetryableError e = true)
  /\ (2 <= fetches (snd (request nodeTimerDelay sampleDateParse emptyBody400
                           (clientWith 1) world0)))%nat.
Proof.
  apply (request_400_unreadable_body_retried nodeTimerDelay sampleDateParse
           emptyBody400 (clientWith 1) world0 5
           (mkResponse 400 "Error" jsonHeaders None "")).
  - by_compute.
  - reflexivity.
  - by_compute.
  - reflexivity.
  - reflexivity.
Defined.



Lemma onProgress_error_propagates_witness :
  waitForSeparation nodeTimerDelay sampleDateParse jobScript 1 (clientWith 3)
    "test-hash" throwingOptions world0
  = (Throw callbackFailure,
     logProgress (snapshot "test-hash" (statusBody "waiting" queueData))
       (afterAttempt nodeTimerDelay (clientWith 3) 5 world0)).
Proof.
  apply (proj1 (proj2 (onProgress_error_propagates nodeTimerDelay
                         sampleDateParse jobScript 0 (clientWith 3) "test-hash"
                         throwingOptions (failingProgress callbackFailure)
                         world0 5 200 (statusBody "waiting" queueData)
                         callbackFailure
                         ltac:(by_compute)
                         ltac:(show_answered)
                         ltac:(by_compute)
                         eq_refl eq_refl))).
  by_compute.
Defined.

Lemma zero_options_and_defaults_witness :
  newMVSEPClient zeroConfig = inr zeroClient
  /\ client_maxRetries zeroClient = 0
  /\ (forall w,
        fetches (snd (request nodeTimerDelay sampleDateParse busyThenOk
                        zeroClient w)) = S (fetches w))
  /\ client_timeout zeroClient = 30000
  /\ client_retryDelay zeroClient = 1000
  /\ client_baseURL zeroClient = "https://mvsep.com".
Proof.
  assert (Hnew : newMVSEPClient zeroConfig = inr zeroClient) by reflexivity.
  pose proof (zero_options_and_defaults nodeTimerDelay sampleDateParse
                busyThenOk zeroConfig zeroClient Hnew)
    as (Hretries & Htimeout & Hdelay & Hurl & _).
  split; [exact Hnew|].
  split; [exact (proj1 (Hretries eq_refl))|].
  split; [exact (proj2 (Hretries eq_refl))|].
  split; [exact (Htimeout eq_refl)|].
  split; [exact (Hdelay eq_refl) | exact (Hurl eq_refl)].
Defined.

(** The runs of the test suite that recover: with the default of 3 retries
    the fourth attempt is made and its payload returned. *)
Example request_default_retries_recovers :
  let run := request nodeTimerDelay sampleDateParse busyThenOk (clientWith 3)
               world0 in
  fst run = Return (JArr [])
  /\ fetches (snd run) = 4%nat
  /\ sleeps (snd run) = [Num 1000; Num 2000; Num 4000].
Proof. vm_compute. repeat split. Qed.

(** A 400 with a readable body: one attempt, no pause, the message of the
    body. *)
Example request_400_readable :
  let run := request nodeTimerDelay sampleDateParse
               (scripted [respondJson 5 400 (errorBody "Bad request")])
               (clientWith 3) world0 in
  fst run = Throw (ValidationError (JStr "Bad request") None)
  /\ fetches (snd run) = 1%nat
  /\ sleeps (snd run) = [].
Proof. vm_compute. repeat split. Qed.

(** The stuck job of the test suite: [maxDuration] 50, [interval] 10. *)
Example waitForSeparation_stuck_run :
  let run := waitForSeparation nodeTimerDelay sampleDateParse stuckJob 10
               (clientWith 3) "test-hash" shortOptions world0 in
  fst run = Throw (pollTimedOut 50)
  /\ fetches (snd run) = 4%nat
  /\ now (snd run) = 60.
Proof. vm_compute. repeat split. Qed.

(** The 400 with an empty body, run to the end: two calls of [fetch] and
    one backoff pause; the error that comes out is the one of the second
    answer.  A body that is the JSON value [null] goes the same way. *)
Example request_400_empty_body_run :
  let run := request nodeTimerDelay sampleDateParse emptyBody400 (clientWith 1)
               world0 in
  fst run = Throw (ValidationError (JStr "Bad request") None)
  /\ fetches (snd run) = 2%nat
  /\ sleeps (snd run) = [Num 1000].
Proof. vm_compute. repeat split. Qed.

Example request_400_null_body_run :
  let run := request nodeTimerDelay sampleDateParse
               (scripted [respondJson 5 400 JNull;
                          respondJson 5 400 (errorBody "Bad request")])
               (clientWith 1) world0 in
  fetches (snd run) = 2%nat /\ sleeps (snd run) = [Num 1000].
Proof. vm_compute. repeat split. Qed.

(* ===================================================================== *)
(** ** The further properties at concrete runs *)
(* ===================================================================== *)

Lemma request_attempts_bounded_witness :
  exists k,
    (1 <= k)%nat /\ Z.of_nat k <= 2 + 1
    /\ fetches (snd (request nodeTimerDelay sampleDateParse busyThenOk
                       (clientWith 2) world0)) = (0 + k)%nat
    /\ List.length (sleeps (snd (request nodeTimerDelay sampleDateParse
                                   busyThenOk (clientWith 2) world0)))
       = (0 + (k - 1))%nat
    /\ progress (snd (request nodeTimerDelay sampleDateParse busyThenOk
                        (clientWith 2) world0)) = [].
Proof.
  apply (request_attempts_bounded nodeTimerDelay sampleDateParse busyThenOk
           (clientWith 2) world0).
  by_compute.
Defined.

Lemma request_negative_maxRetries_witness :
  request nodeTimerDelay sampleDateParse busyThenOk (clientWith (-1)) world0
  = (ThrowUndefined, world0).
Proof.
  apply (request_negative_maxRetries nodeTimerDelay sampleDateParse busyThenOk
           (clientWith (-1)) world0).
  by_compute.
Defined.

Lemma request_throws_sdk_errors_witness :
  match fst (request nodeTimerDelay sampleDateParse busyThenOk (clientWith 2)
               world0) with
  | Return _ => True
  | Throw e =>
      instanceofMVSEPError e = true
      /\ ((forall i t e0, busyThenOk i = Some (t, Rejected e0) ->
                          instanceofMVSEPError e0 = false) ->
          requestErrorClass (cls e))
  | _ => False
  end.
Proof.
  apply (request_throws_sdk_errors nodeTimerDelay sampleDateParse busyThenOk
           (clientWith 2) world0).
  by_compute.
Defined.

Lemma request_unreachable_server_witness :
  exists e w',
    request nodeTimerDelay sampleDateParse deadServer (clientWith 3) world0
    = (Throw e, w')
    /\ (cls e = TimeoutErrorC \/ cls e = NetworkErrorC)
    /\ Z.of_nat (fetches w') = Z.of_nat 0 + 3 + 1
    /\ sleeps w' = ([] ++ backoffFrom 0 (Z.to_nat 3) 1000)%list.
Proof.
  apply (request_unreachable_server nodeTimerDelay sampleDateParse deadServer
           (clientWith 3) world0).
  - by_compute.
  - intros i. left. reflexivity.
Defined.






Lemma parseRetryAfter_decimal_seconds_witness :
  parseRetryAfter sampleDateParse 0 (Some (showZ 120)) = Num (120 * 1000).
Proof.
  apply (proj2 (parseRetryAfter_decimal_seconds sampleDateParse 0 120)).
  by_compute.
Defined.

(** Beyond 2^53 the seconds are rounded as [parseInt] rounds them. *)
Example parseRetryAfter_beyond_2_53 :
  parseRetryAfter sampleDateParse 0 (Some "9007199254740993")
  = Num 9007199254740992000.
Proof. vm_compute. reflexivity. Qed.

Lemma parseRetryAfter_leading_digit_witness :
  exists k,
    0 <= k
    /\ integerPrefix "2015-10-21T07:28:00Z" = Some k
    /\ parseInt10 "2015-10-21T07:28:00Z" = toDouble k
    /\ parseRetryAfter sampleDateParse 0 (Some "2015-10-21T07:28:00Z")
       = mulNumber (toDouble k) (Num 1000)
    /\ leNumber (Num 0)
         (parseRetryAfter sampleDateParse 0 (Some "2015-10-21T07:28:00Z"))
       = true.
Proof.
  apply (parseRetryAfter_leading_digit sampleDateParse 0 "2"%char
           "015-10-21T07:28:00Z" 2).
  reflexivity.
Defined.

Lemma calculateBackoff_growth_witness :
  exists x,
    calculateBackoff 3 1000 = Num x
    /\ calculateBackoff (3 + 1) 1000 = Num (Z.min (2 * x) 32000).
Proof.
  apply (proj1 (calculateBackoff_growth 3 1000 ltac:(by_compute)));
    [by_compute | intros H; discriminate H].
Defined.

Lemma newMVSEPClient_invariant_witness :
  client_timeout zeroClient <> 0 /\ client_retryDelay zeroClient <> 0.
Proof.
  destruct (proj2 (proj2 (newMVSEPClient_invariant zeroConfig)) zeroClient
              eq_refl) as (_ & _ & _ & Ht & Hd).
  exact (conj Ht Hd).
Defined.

Lemma createSeparation_hash_witness :
  createSeparation nodeTimerDelay sampleDateParse createThenDone (clientWith 3)
    world0
  = (Return (JStr "abc123"), afterAttempt nodeTimerDelay (clientWith 3) 5 world0).
Proof.
  apply (createSeparation_hash nodeTimerDelay sampleDateParse createThenDone
           (clientWith 3) world0 5 200 createdBody).
  - by_compute.
  - show_answered.
  - by_compute.
Defined.

Lemma createSeparation_errors_witness :
  createSeparation nodeTimerDelay sampleDateParse
    (scripted [respondJson 5 200 JNull]) (clientWith 3) world0
  = (Throw (FileUploadError
              "Failed to upload file: Cannot read properties of null (reading 'hash')"),
     afterAttempt nodeTimerDelay (clientWith 3) 5 world0).
Proof.
  apply (proj1 (proj2 (createSeparation_errors nodeTimerDelay sampleDateParse
                         (scripted [respondJson 5 200 JNull]) (clientWith 3)
                         world0 ltac:(by_compute))) 5).
  show_answered_null.
Defined.

Lemma requestData_missing_or_null_witness :
  requestData nodeTimerDelay sampleDateParse createThenDone (clientWith 3)
    world0
  = (Return None, afterAttempt nodeTimerDelay (clientWith 3) 5 world0).
Proof.
  apply (proj1 (requestData_missing_or_null nodeTimerDelay sampleDateParse
                  createThenDone (clientWith 3) world0 5 ltac:(by_compute))
           200 createdBody).
  - show_answered.
  - by_compute.
Defined.

Lemma waitForSeparation_error_status_witness :
  waitForSeparation nodeTimerDelay sampleDateParse
    (scripted [respondJson 5 200 (statusBody "error" (JObj []))]) 1
    (clientWith 3) "test-hash" testOptions world0
  = (Throw (SeparationError "Separation job failed" (Some "test-hash")),
     notified testOptions
       (snapshot "test-hash" (statusBody "error" (JObj [])))
       (afterAttempt nodeTimerDelay (clientWith 3) 5 world0)).
Proof.
  apply (proj1 (proj2 (waitForSeparation_error_status nodeTimerDelay
                         sampleDateParse
                         (scripted [respondJson 5 200 (statusBody "error" (JObj []))])
                         0 (clientWith 3) "test-hash" testOptions world0 5 200
                         (statusBody "error" (JObj []))
                         ltac:(by_compute) ltac:(show_answered)
                         ltac:(by_compute) eq_refl
                         ltac:(intros cb H w s; inversion H; reflexivity)))).
  by_compute.
Defined.

Lemma waitForSeparation_fetch_failure_witness :
  waitForSeparation nodeTimerDelay sampleDateParse
    (scripted [respondJson 5 401 (errorBody "Unauthorized")]) 1 (clientWith 3)
    "test-hash" testOptions world0
  = (Throw (AuthenticationError (JStr "Unauthorized")),
     afterAttempt nodeTimerDelay (clientWith 3) 5 world0).
Proof.
  apply (proj1 (proj2 (waitForSeparation_fetch_failure nodeTimerDelay
                         sampleDateParse
                         (scripted [respondJson 5 401 (errorBody "Unauthorized")])
                         0 (clientWith 3) "test-hash" testOptions world0
                         (afterAttempt nodeTimerDelay (clientWith 3) 5 world0)
                         (AuthenticationError (JStr "Unauthorized"))
                         eq_refl))).
  by_compute.
Defined.

Lemma waitForSeparation_null_body_witness :
  waitForSeparation nodeTimerDelay sampleDateParse
    (scripted [respondJson 5 200 JNull]) 1 (clientWith 3) "test-hash"
    testOptions world0
  = (Throw (typeErrorReading "null" "status"),
     afterAttempt nodeTimerDelay (clientWith 3) 5 world0).
Proof.
  apply (proj1 (waitForSeparation_null_body nodeTimerDelay sampleDateParse
                  (scripted [respondJson 5 200 JNull]) 0 (clientWith 3)
                  "test-hash" testOptions world0 5
                  ltac:(by_compute) ltac:(show_answered_null)
                  ltac:(by_compute))).
Defined.

Lemma waitForSeparation_rounds_witness :
  exists w',
    waitForSeparation nodeTimerDelay sampleDateParse shortJob 2 (clientWith 3)
      "test-hash" testOptions world0
    = (Return (shortJobBody 1), w')
    /\ fetches w' = 2%nat
    /\ sleeps w' = [Num 10]
    /\ progress w' = [snapshot "test-hash" (shortJobBody 0);
                      snapshot "test-hash" (shortJobBody 1)]
    /\ now w' = 20.
Proof.
  apply (waitForSeparation_rounds nodeTimerDelay sampleDateParse shortJob 1 2
           (fun _ => 5) shortJobBody (clientWith 3) "test-hash" testOptions
           world0).
  - apply Nat.ltb_lt. reflexivity.
  - by_compute.
  - intros cb H w s. inversion H. reflexivity.
  - by_compute.
  - intros i Hi. destruct i as [|i].
    + split; [show_answered | split; reflexivity].
    + exfalso. apply Nat.ltb_lt in Hi. discriminate Hi.
  - show_answered.
  - reflexivity.
  - by_compute.
Defined.

Lemma createAndWaitForSeparation_runs_witness :
  createAndWaitForSeparation nodeTimerDelay sampleDateParse createThenDone 1
    (clientWith 3) testOptions world0
  = (Return (statusBody "done" (JObj [])),
     notified testOptions (snapshot "abc123" (statusBody "done" (JObj [])))
       (afterAttempt nodeTimerDelay (clientWith 3) 5
          (afterAttempt nodeTimerDelay (clientWith 3) 5 world0))).
Proof.
  apply (proj2 (proj2 (createAndWaitForSeparation_runs nodeTimerDelay
                         sampleDateParse createThenDone 0 (clientWith 3)
                         testOptions world0))
           5 5 200 createdBody (statusBody "done" (JObj [])) "abc123").
  - by_compute.
  - intros cb H w s. inversion H. reflexivity.
  - by_compute.
  - show_answered.
  - by_compute.
  - reflexivity.
  - discriminate.
  - show_answered.
  - reflexivity.
Defined.

Lemma buildFormData_parts_witness :
  In ("sep_type", TextPart "25") (buildFormData sampleParams)
  /\ In ("audiofile",
         FilePart (PBuffer "RIFF") (PObject [("filename", PStr "file")]))
        (buildFormData sampleParams).
Proof.
  split.
  - apply (proj1 (proj2 (proj2 (buildFormData_parts sampleParams)))
             "sep_type" 25).
    right. left. reflexivity.
  - apply (proj2 (proj2 (proj2 (buildFormData_parts sampleParams)))
             "audiofile" "RIFF").
    left. reflexivity.
Defined.

Lemma tokenForm_token_witness :
  tokenForm (clientWith 3) sampleParams
  = ("api_token", TextPart "test-token-123") :: buildFormData sampleParams.
Proof.
  apply (proj1 (proj2 (tokenForm_token (clientWith 3) sampleParams
                         ltac:(repeat constructor; cbn; intuition discriminate)
                         ltac:(cbn; intros k [<-|[<-|[<-|[]]]]; reflexivity)))).
  reflexivity.
Defined.
